(** * Autopilot interface: a shallow embedding of [autopilot_interface.cpp]

    The development follows the source file top to bottom: the setpoint
    helper functions, the [Autopilot_Interface] object with its telemetry
    cache and setpoint store, the command channel, the bounded-retry mode
    transitions, the start-up handshake and the streaming thread.

    Machine integers are [Z] with the wrap-around of each assignment written
    out; C [float]s are carried as IEEE values ([spec_float]) and are only
    stored and copied, never computed with. *)

From Stdlib Require Import ZArith List String Bool Lia.
From Stdlib Require Import Floats.SpecFloat.
Import ListNotations.

Open Scope Z_scope.

(* ------------------------------------------------------------------ *)
(** ** Machine integers and floats *)

Definition wrap8  (v : Z) : Z := v mod 2 ^ 8.
Definition wrap16 (v : Z) : Z := v mod 2 ^ 16.
Definition wrap32 (v : Z) : Z := v mod 2 ^ 32.

Definition float : Type := spec_float.

(** The literal [0.0] and the two values of [(float) flag]. *)
Definition f_zero : float := S754_zero false.
Definition f_one  : float := S754_finite false 8388608 (-23).
Definition float_of_bool (flag : bool) : float := if flag then f_one else f_zero.

(* ------------------------------------------------------------------ *)
(** ** Constants and codec entry points of the headers

    [autopilot_interface.h], [px4_custom_mode.h] and the MAVLink headers are
    not among the sources.  Every macro and enumerator the code takes from
    them is a field of this class, so that all definitions and theorems
    below hold for whatever values the headers give them.  The three
    decoders are the codec's, used opaquely. *)

Module heartbeat.
Record t := mk {
    custom_mode : Z; type : Z; autopilot : Z; base_mode : Z;
    system_status : Z; mavlink_version : Z }.
End heartbeat.
Definition mavlink_heartbeat_t : Type := heartbeat.t.

Module local_position_ned.
Record t := mk {
    time_boot_ms : Z; x : float; y : float; z : float;
    vx : float; vy : float; vz : float }.
End local_position_ned.
Definition mavlink_local_position_ned_t : Type := local_position_ned.t.

Module attitude.
Record t := mk {
    time_boot_ms : Z; roll : float; pitch : float; yaw : float;
    rollspeed : float; pitchspeed : float; yawspeed : float }.
End attitude.
Definition mavlink_attitude_t : Type := attitude.t.

(** A framed message as the transport hands it over. *)
Module message.
Record t := mk { sysid : Z; compid : Z; msgid : Z; payload : list Z }.
End message.
Definition mavlink_message_t : Type := message.t.

Class Headers := {
  (* autopilot_interface.h: the type-mask macros *)
  MAVLINK_MSG_SET_POSITION_TARGET_LOCAL_NED_POSITION : Z;
  MAVLINK_MSG_SET_POSITION_TARGET_LOCAL_NED_VELOCITY : Z;
  MAVLINK_MSG_SET_POSITION_TARGET_LOCAL_NED_ACCELERATION : Z;
  MAVLINK_MSG_SET_POSITION_TARGET_LOCAL_NED_YAW_ANGLE : Z;
  MAVLINK_MSG_SET_POSITION_TARGET_LOCAL_NED_YAW_RATE : Z;
  (* px4_custom_mode.h *)
  PX4_CUSTOM_MAIN_MODE_OFFBOARD : Z;
  (* MAVLink enumerators *)
  MAV_STATE_ACTIVE : Z;
  MAV_FRAME_LOCAL_NED : Z;
  MAV_CMD_NAV_GUIDED_ENABLE : Z;
  MAV_CMD_COMPONENT_ARM_DISARM : Z;
  (* MAVLink message ids *)
  MAVLINK_MSG_ID_HEARTBEAT : Z;
  MAVLINK_MSG_ID_SYS_STATUS : Z;
  MAVLINK_MSG_ID_BATTERY_STATUS : Z;
  MAVLINK_MSG_ID_RADIO_STATUS : Z;
  MAVLINK_MSG_ID_LOCAL_POSITION_NED : Z;
  MAVLINK_MSG_ID_GLOBAL_POSITION_INT : Z;
  MAVLINK_MSG_ID_POSITION_TARGET_LOCAL_NED : Z;
  MAVLINK_MSG_ID_POSITION_TARGET_GLOBAL_INT : Z;
  MAVLINK_MSG_ID_HIGHRES_IMU : Z;
  MAVLINK_MSG_ID_ATTITUDE : Z;
  MAVLINK_MSG_ID_VFR_HUD : Z;
  (* stdlib.h *)
  EXIT_FAILURE : Z;
  (* codec *)
  mavlink_msg_heartbeat_decode : mavlink_message_t -> mavlink_heartbeat_t;
  mavlink_msg_local_position_ned_decode :
    mavlink_message_t -> mavlink_local_position_ned_t;
  mavlink_msg_attitude_decode : mavlink_message_t -> mavlink_attitude_t }.

(* ------------------------------------------------------------------ *)
(** ** The setpoint struct *)

Module setpoint.
Record t := mk {
    time_boot_ms : Z;
    x : float; y : float; z : float;
    vx : float; vy : float; vz : float;
    afx : float; afy : float; afz : float;
    yaw : float; yaw_rate : float;
    type_mask : Z;
    target_system : Z; target_component : Z;
    coordinate_frame : Z }.

Definition with_time_boot_ms (v : Z) (sp : t) : t :=
    mk v (x sp) (y sp) (z sp) (vx sp) (vy sp) (vz sp) (afx sp) (afy sp)
       (afz sp) (yaw sp) (yaw_rate sp) (type_mask sp) (target_system sp)
       (target_component sp) (coordinate_frame sp).
Definition with_position (a b c : float) (sp : t) : t :=
    mk (time_boot_ms sp) a b c (vx sp) (vy sp) (vz sp) (afx sp) (afy sp)
       (afz sp) (yaw sp) (yaw_rate sp) (type_mask sp) (target_system sp)
       (target_component sp) (coordinate_frame sp).
Definition with_velocity (a b c : float) (sp : t) : t :=
    mk (time_boot_ms sp) (x sp) (y sp) (z sp) a b c (afx sp) (afy sp)
       (afz sp) (yaw sp) (yaw_rate sp) (type_mask sp) (target_system sp)
       (target_component sp) (coordinate_frame sp).
Definition with_yaw (v : float) (sp : t) : t :=
    mk (time_boot_ms sp) (x sp) (y sp) (z sp) (vx sp) (vy sp) (vz sp)
       (afx sp) (afy sp) (afz sp) v (yaw_rate sp) (type_mask sp)
       (target_system sp) (target_component sp) (coordinate_frame sp).
Definition with_yaw_rate (v : float) (sp : t) : t :=
    mk (time_boot_ms sp) (x sp) (y sp) (z sp) (vx sp) (vy sp) (vz sp)
       (afx sp) (afy sp) (afz sp) (yaw sp) v (type_mask sp)
       (target_system sp) (target_component sp) (coordinate_frame sp).
Definition with_type_mask (v : Z) (sp : t) : t :=
    mk (time_boot_ms sp) (x sp) (y sp) (z sp) (vx sp) (vy sp) (vz sp)
       (afx sp) (afy sp) (afz sp) (yaw sp) (yaw_rate sp) v
       (target_system sp) (target_component sp) (coordinate_frame sp).
Definition with_target (sys comp : Z) (sp : t) : t :=
    mk (time_boot_ms sp) (x sp) (y sp) (z sp) (vx sp) (vy sp) (vz sp)
       (afx sp) (afy sp) (afz sp) (yaw sp) (yaw_rate sp) (type_mask sp)
       sys comp (coordinate_frame sp).
Definition with_coordinate_frame (v : Z) (sp : t) : t :=
    mk (time_boot_ms sp) (x sp) (y sp) (z sp) (vx sp) (vy sp) (vz sp)
       (afx sp) (afy sp) (afz sp) (yaw sp) (yaw_rate sp) (type_mask sp)
       (target_system sp) (target_component sp) v.
End setpoint.
Definition mavlink_set_position_target_local_ned_t : Type := setpoint.t.

(* ------------------------------------------------------------------ *)
(** ** Setpoint helper functions

    Each helper takes the struct by reference and assigns some of its
    fields; here it returns the updated struct.  [type_mask] is a
    [uint16_t], [coordinate_frame] a [uint8_t].  The helpers' [printf]
    lines do not touch the struct and are left out. *)

Section SetpointHelpers.
Context {hdr : Headers}.

Definition set_position (x y z : float)
      (sp : mavlink_set_position_target_local_ned_t) :=
    let sp := setpoint.with_type_mask
                (wrap16 MAVLINK_MSG_SET_POSITION_TARGET_LOCAL_NED_POSITION) sp in
    let sp := setpoint.with_coordinate_frame (wrap8 MAV_FRAME_LOCAL_NED) sp in
    setpoint.with_position x y z sp.

Definition set_position_velocity (x y z vx vy vz : float)
      (sp : mavlink_set_position_target_local_ned_t) :=
    let sp := setpoint.with_type_mask
                (wrap16 MAVLINK_MSG_SET_POSITION_TARGET_LOCAL_NED_VELOCITY) sp in
    let sp := setpoint.with_coordinate_frame (wrap8 MAV_FRAME_LOCAL_NED) sp in
    let sp := setpoint.with_position x y z sp in
    setpoint.with_velocity vx vy vz sp.

Definition set_velocity (vx vy vz : float)
      (sp : mavlink_set_position_target_local_ned_t) :=
    let sp := setpoint.with_type_mask
                (wrap16 (Z.lor (setpoint.type_mask sp)
                           MAVLINK_MSG_SET_POSITION_TARGET_LOCAL_NED_VELOCITY)) sp in
    let sp := setpoint.with_coordinate_frame (wrap8 MAV_FRAME_LOCAL_NED) sp in
    setpoint.with_velocity vx vy vz sp.

Definition set_yaw (yaw : float)
      (sp : mavlink_set_position_target_local_ned_t) :=
    let sp := setpoint.with_type_mask
                (wrap16 (Z.land (setpoint.type_mask sp)
                           MAVLINK_MSG_SET_POSITION_TARGET_LOCAL_NED_YAW_ANGLE)) sp in
    setpoint.with_yaw yaw sp.

Definition set_yaw_rate (yaw_rate : float)
      (sp : mavlink_set_position_target_local_ned_t) :=
    let sp := setpoint.with_type_mask
                (wrap16 (Z.land (setpoint.type_mask sp)
                           MAVLINK_MSG_SET_POSITION_TARGET_LOCAL_NED_YAW_RATE)) sp in
    setpoint.with_yaw_rate yaw_rate sp.

End SetpointHelpers.

(* ------------------------------------------------------------------ *)
(** ** The telemetry cache: [Time_Stamps] and [Mavlink_Messages]

    The eight kinds whose fields this file never reads keep the payload
    the codec decoded them from. *)

Inductive kind :=
| K_heartbeat | K_sys_status | K_battery_status | K_radio_status
| K_local_position_ned | K_global_position_int
| K_position_target_local_ned | K_position_target_global_int
| K_highres_imu | K_attitude | K_vfr_hud.

Module time_stamps.
Record t := mk {
    heartbeat : Z; sys_status : Z; battery_status : Z; radio_status : Z;
    local_position_ned : Z; global_position_int : Z;
    position_target_local_ned : Z; position_target_global_int : Z;
    highres_imu : Z; attitude : Z; vfr_hud : Z }.

(** [Time_Stamps()] resets every stamp. *)
Definition reset_timestamps : t := mk 0 0 0 0 0 0 0 0 0 0 0.

Definition set (k : kind) (v : Z) (ts : t) : t :=
  mk
    (match k with K_heartbeat => v | _ => heartbeat ts end)
    (match k with K_sys_status => v | _ => sys_status ts end)
    (match k with K_battery_status => v | _ => battery_status ts end)
    (match k with K_radio_status => v | _ => radio_status ts end)
    (match k with K_local_position_ned => v | _ => local_position_ned ts end)
    (match k with K_global_position_int => v | _ => global_position_int ts end)
    (match k with
     | K_position_target_local_ned => v | _ => position_target_local_ned ts
     end)
    (match k with
     | K_position_target_global_int => v | _ => position_target_global_int ts
     end)
    (match k with K_highres_imu => v | _ => highres_imu ts end)
    (match k with K_attitude => v | _ => attitude ts end)
    (match k with K_vfr_hud => v | _ => vfr_hud ts end).
End time_stamps.
Definition Time_Stamps : Type := time_stamps.t.

Module messages.
Record t := mk {
    sysid : Z; compid : Z;
    heartbeat : mavlink_heartbeat_t;
    sys_status : list Z;
    battery_status : list Z;
    radio_status : list Z;
    local_position_ned : mavlink_local_position_ned_t;
    global_position_int : list Z;
    position_target_local_ned : list Z;
    position_target_global_int : list Z;
    highres_imu : list Z;
    attitude : mavlink_attitude_t;
    vfr_hud : list Z;
    time_stamps : Time_Stamps }.

Definition with_ids (s c : Z) (m : t) : t :=
  mk s c (heartbeat m) (sys_status m) (battery_status m) (radio_status m)
     (local_position_ned m) (global_position_int m)
     (position_target_local_ned m) (position_target_global_int m)
     (highres_imu m) (attitude m) (vfr_hud m) (time_stamps m).
Definition with_time_stamps (v : Time_Stamps) (m : t) : t :=
  mk (sysid m) (compid m) (heartbeat m) (sys_status m) (battery_status m)
     (radio_status m) (local_position_ned m) (global_position_int m)
     (position_target_local_ned m) (position_target_global_int m)
     (highres_imu m) (attitude m) (vfr_hud m) v.
Definition with_heartbeat (v : mavlink_heartbeat_t) (m : t) : t :=
  mk (sysid m) (compid m) v (sys_status m) (battery_status m)
     (radio_status m) (local_position_ned m) (global_position_int m)
     (position_target_local_ned m) (position_target_global_int m)
     (highres_imu m) (attitude m) (vfr_hud m) (time_stamps m).
Definition with_sys_status (v : list Z) (m : t) : t :=
  mk (sysid m) (compid m) (heartbeat m) v (battery_status m)
     (radio_status m) (local_position_ned m) (global_position_int m)
     (position_target_local_ned m) (position_target_global_int m)
     (highres_imu m) (attitude m) (vfr_hud m) (time_stamps m).
Definition with_battery_status (v : list Z) (m : t) : t :=
  mk (sysid m) (compid m) (heartbeat m) (sys_status m) v (radio_status m)
     (local_position_ned m) (global_position_int m)
     (position_target_local_ned m) (position_target_global_int m)
     (highres_imu m) (attitude m) (vfr_hud m) (time_stamps m).
Definition with_radio_status (v : list Z) (m : t) : t :=
  mk (sysid m) (compid m) (heartbeat m) (sys_status m) (battery_status m) v
     (local_position_ned m) (global_position_int m)
     (position_target_local_ned m) (position_target_global_int m)
     (highres_imu m) (attitude m) (vfr_hud m) (time_stamps m).
Definition with_local_position_ned
    (v : mavlink_local_position_ned_t) (m : t) : t :=
  mk (sysid m) (compid m) (heartbeat m) (sys_status m) (battery_status m)
     (radio_status m) v (global_position_int m)
     (position_target_local_ned m) (position_target_global_int m)
     (highres_imu m) (attitude m) (vfr_hud m) (time_stamps m).
Definition with_global_position_int (v : list Z) (m : t) : t :=
  mk (sysid m) (compid m) (heartbeat m) (sys_status m) (battery_status m)
     (radio_status m) (local_position_ned m) v (position_target_local_ned m)
     (position_target_global_int m) (highres_imu m) (attitude m) (vfr_hud m)
     (time_stamps m).
Definition with_position_target_local_ned (v : list Z) (m : t) : t :=
  mk (sysid m) (compid m) (heartbeat m) (sys_status m) (battery_status m)
     (radio_status m) (local_position_ned m) (global_position_int m) v
     (position_target_global_int m) (highres_imu m) (attitude m) (vfr_hud m)
     (time_stamps m).
Definition with_position_target_global_int (v : list Z) (m : t) : t :=
  mk (sysid m) (compid m) (heartbeat m) (sys_status m) (battery_status m)
     (radio_status m) (local_position_ned m) (global_position_int m)
     (position_target_local_ned m) v (highres_imu m) (attitude m)
     (vfr_hud m) (time_stamps m).
Definition with_highres_imu (v : list Z) (m : t) : t :=
  mk (sysid m) (compid m) (heartbeat m) (sys_status m) (battery_status m)
     (radio_status m) (local_position_ned m) (global_position_int m)
     (position_target_local_ned m) (position_target_global_int m) v
     (attitude m) (vfr_hud m) (time_stamps m).
Definition with_attitude (v : mavlink_attitude_t) (m : t) : t :=
  mk (sysid m) (compid m) (heartbeat m) (sys_status m) (battery_status m)
     (radio_status m) (local_position_ned m) (global_position_int m)
     (position_target_local_ned m) (position_target_global_int m)
     (highres_imu m) v (vfr_hud m) (time_stamps m).
Definition with_vfr_hud (v : list Z) (m : t) : t :=
  mk (sysid m) (compid m) (heartbeat m) (sys_status m) (battery_status m)
     (radio_status m) (local_position_ned m) (global_position_int m)
     (position_target_local_ned m) (position_target_global_int m)
     (highres_imu m) (attitude m) v (time_stamps m).

(** Stamp kind [k] in the cache's [time_stamps] member. *)
Definition stamp (k : kind) (now : Z) (m : t) : t :=
  with_time_stamps (time_stamps.set k now (time_stamps m)) m.
End messages.
Definition Mavlink_Messages : Type := messages.t.

(* ------------------------------------------------------------------ *)
(** ** Outgoing messages *)

Module command_long.
Record t := mk {
    param1 : float; param2 : float; param3 : float; param4 : float;
    param5 : float; param6 : float; param7 : float;
    command : Z; target_system : Z; target_component : Z; confirmation : Z }.

(** [mavlink_command_long_t com = { 0 };] *)
Definition zero : t :=
  mk f_zero f_zero f_zero f_zero f_zero f_zero f_zero 0 0 0 0.
End command_long.
Definition mavlink_command_long_t : Type := command_long.t.

(** An encoded outgoing message is kept as what was encoded: the two ids
    given to the encoder and the struct. *)
Inductive mavlink_out :=
| COMMAND_LONG (system_id component_id : Z) (com : mavlink_command_long_t)
| SET_POSITION_TARGET_LOCAL_NED (system_id component_id : Z)
    (sp : mavlink_set_position_target_local_ned_t).

Definition is_command (m : mavlink_out) : bool :=
  match m with COMMAND_LONG _ _ _ => true | _ => false end.

(* ------------------------------------------------------------------ *)
(** ** The [Autopilot_Interface] object and what surrounds it *)

Module ap.
Record t := mk {
    write_count : Z;
    reading_status : Z; writing_status : Z; control_status : Z;
    setpoint_send_status : Z;
    time_to_exit : bool;
    system_id : Z; autopilot_id : Z; companion_id : Z;
    current_messages : Mavlink_Messages;
    current_setpoint : mavlink_set_position_target_local_ned_t;
    initial_position : mavlink_set_position_target_local_ned_t }.

Definition with_write_count (v : Z) (a : t) : t :=
  mk v (reading_status a) (writing_status a) (control_status a)
     (setpoint_send_status a) (time_to_exit a) (system_id a)
     (autopilot_id a) (companion_id a) (current_messages a)
     (current_setpoint a) (initial_position a).
Definition with_reading_status (v : Z) (a : t) : t :=
  mk (write_count a) v (writing_status a) (control_status a)
     (setpoint_send_status a) (time_to_exit a) (system_id a)
     (autopilot_id a) (companion_id a) (current_messages a)
     (current_setpoint a) (initial_position a).
Definition with_writing_status (v : Z) (a : t) : t :=
  mk (write_count a) (reading_status a) v (control_status a)
     (setpoint_send_status a) (time_to_exit a) (system_id a)
     (autopilot_id a) (companion_id a) (current_messages a)
     (current_setpoint a) (initial_position a).
Definition with_control_status (v : Z) (a : t) : t :=
  mk (write_count a) (reading_status a) (writing_status a) v
     (setpoint_send_status a) (time_to_exit a) (system_id a)
     (autopilot_id a) (companion_id a) (current_messages a)
     (current_setpoint a) (initial_position a).
Definition with_setpoint_send_status (v : Z) (a : t) : t :=
  mk (write_count a) (reading_status a) (writing_status a)
     (control_status a) v (time_to_exit a) (system_id a) (autopilot_id a)
     (companion_id a) (current_messages a) (current_setpoint a)
     (initial_position a).
Definition with_time_to_exit (v : bool) (a : t) : t :=
  mk (write_count a) (reading_status a) (writing_status a)
     (control_status a) (setpoint_send_status a) v (system_id a)
     (autopilot_id a) (companion_id a) (current_messages a)
     (current_setpoint a) (initial_position a).
Definition with_system_id (v : Z) (a : t) : t :=
  mk (write_count a) (reading_status a) (writing_status a)
     (control_status a) (setpoint_send_status a) (time_to_exit a) v
     (autopilot_id a) (companion_id a) (current_messages a)
     (current_setpoint a) (initial_position a).
Definition with_autopilot_id (v : Z) (a : t) : t :=
  mk (write_count a) (reading_status a) (writing_status a)
     (control_status a) (setpoint_send_status a) (time_to_exit a)
     (system_id a) v (companion_id a) (current_messages a)
     (current_setpoint a) (initial_position a).
Definition with_current_messages (v : Mavlink_Messages) (a : t) : t :=
  mk (write_count a) (reading_status a) (writing_status a)
     (control_status a) (setpoint_send_status a) (time_to_exit a)
     (system_id a) (autopilot_id a) (companion_id a) v (current_setpoint a)
     (initial_position a).
Definition with_current_setpoint
    (v : mavlink_set_position_target_local_ned_t) (a : t) : t :=
  mk (write_count a) (reading_status a) (writing_status a)
     (control_status a) (setpoint_send_status a) (time_to_exit a)
     (system_id a) (autopilot_id a) (companion_id a) (current_messages a) v
     (initial_position a).
Definition with_initial_position
    (v : mavlink_set_position_target_local_ned_t) (a : t) : t :=
  mk (write_count a) (reading_status a) (writing_status a)
     (control_status a) (setpoint_send_status a) (time_to_exit a)
     (system_id a) (autopilot_id a) (companion_id a) (current_messages a)
     (current_setpoint a) v.
End ap.
Definition Autopilot_Interface : Type := ap.t.

(** The serial port collaborator: its status word and, newest first, every
    message handed to its [write_message] with the length it returned. *)
Module serial.
Record t := mk { status : Z; written : list (mavlink_out * Z) }.
End serial.
Definition Serial_Port : Type := serial.t.

(** Console output, newest first: the stream, the format string as it is
    in the source, and the arguments. *)
Inductive fd := stdout | stderr.
Inductive arg := AInt (v : Z) | AFloat (v : float).
Definition line : Type := fd * string * list arg.

Record World := mkWorld {
  self : Autopilot_Interface;
  serial_port : Serial_Port;
  console : list line;
  sleeps : nat }.

Definition with_self (f : Autopilot_Interface -> Autopilot_Interface)
    (w : World) : World :=
  mkWorld (f (self w)) (serial_port w) (console w) (sleeps w).
Definition with_serial_port (f : Serial_Port -> Serial_Port) (w : World) : World :=
  mkWorld (self w) (f (serial_port w)) (console w) (sleeps w).

(** What the object does not decide: the length the port returns for its
    n-th write, the clock, what the read thread handles while the calling
    thread is in its n-th [usleep] (each message with the time of its
    handling), whether [stop] is called during that sleep, the result of
    each [pthread_create], and the contents of an uninitialised local. *)
Record Env := mkEnv {
  port_write : nat -> mavlink_out -> Z;
  time_usec : nat -> Z;
  rx : nat -> list (Z * mavlink_message_t);
  quit : nat -> bool;
  read_thread_rc : Z;
  write_thread_rc : Z;
  stack_garbage : mavlink_set_position_target_local_ned_t }.

(* ------------------------------------------------------------------ *)
(** ** A state and exception monad for the member functions

    [Throw] is a C++ [throw] of an [int]; [OutOfFuel] cuts an unbounded
    wait loop of the source. *)

Inductive outcome (A : Type) :=
| Ret (a : A)
| Throw (code : Z)
| OutOfFuel.
Arguments Ret {A} a.
Arguments Throw {A} code.
Arguments OutOfFuel {A}.

Definition M (A : Type) : Type := World -> outcome A * World.

Definition ret {A} (a : A) : M A := fun w => (Ret a, w).
Definition throw {A} (code : Z) : M A := fun w => (Throw code, w).
Definition out_of_fuel {A} : M A := fun w => (OutOfFuel, w).
Definition bind {A B} (m : M A) (k : A -> M B) : M B :=
  fun w =>
    match m w with
    | (Ret a, w') => k a w'
    | (Throw c, w') => (Throw c, w')
    | (OutOfFuel, w') => (OutOfFuel, w')
    end.
Definition gets {A} (f : World -> A) : M A := fun w => (Ret (f w), w).
Definition modify (f : World -> World) : M unit := fun w => (Ret tt, f w).
Definition update (f : Autopilot_Interface -> Autopilot_Interface) : M unit :=
  modify (with_self f).

Declare Scope cpp_scope.
Delimit Scope cpp_scope with cpp.
Notation "x <- m ;; k" := (bind m (fun x => k))
  (at level 61, m at next level, right associativity) : cpp_scope.
Notation "m ;; k" := (bind m (fun _ => k))
  (at level 61, right associativity) : cpp_scope.
Open Scope cpp_scope.

Definition printf (fmt : string) (args : list arg) : M unit :=
  modify (fun w => mkWorld (self w) (serial_port w)
                     ((stdout, fmt, args) :: console w) (sleeps w)).
Definition eprintf (fmt : string) (args : list arg) : M unit :=
  modify (fun w => mkWorld (self w) (serial_port w)
                     ((stderr, fmt, args) :: console w) (sleeps w)).

(* ------------------------------------------------------------------ *)
(** ** The read side: [read_messages] *)

Section Interface.
Context {hdr : Headers}.

(** The body of [if (success)]: store the sender ids, then dispatch on the
    message id.  [now] is what [get_time_usec] returns in the case that is
    taken; [this] is the local [this_timestamps]. *)
Definition handle_message (now : Z) (message : mavlink_message_t)
    (current_messages : Mavlink_Messages) (this : Time_Stamps)
    : Mavlink_Messages * Time_Stamps :=
  let cm := messages.with_ids (message.sysid message) (message.compid message)
              current_messages in
  let id := message.msgid message in
  let body := message.payload message in
  if id =? MAVLINK_MSG_ID_HEARTBEAT then
    (messages.stamp K_heartbeat now
       (messages.with_heartbeat (mavlink_msg_heartbeat_decode message) cm),
     time_stamps.set K_heartbeat now this)
  else if id =? MAVLINK_MSG_ID_SYS_STATUS then
    (messages.stamp K_sys_status now (messages.with_sys_status body cm),
     time_stamps.set K_sys_status now this)
  else if id =? MAVLINK_MSG_ID_BATTERY_STATUS then
    (messages.stamp K_battery_status now (messages.with_battery_status body cm),
     time_stamps.set K_battery_status now this)
  else if id =? MAVLINK_MSG_ID_RADIO_STATUS then
    (messages.stamp K_radio_status now (messages.with_radio_status body cm),
     time_stamps.set K_radio_status now this)
  else if id =? MAVLINK_MSG_ID_LOCAL_POSITION_NED then
    (messages.stamp K_local_position_ned now
       (messages.with_local_position_ned
          (mavlink_msg_local_position_ned_decode message) cm),
     time_stamps.set K_local_position_ned now this)
  else if id =? MAVLINK_MSG_ID_GLOBAL_POSITION_INT then
    (messages.stamp K_global_position_int now
       (messages.with_global_position_int body cm),
     time_stamps.set K_global_position_int now this)
  else if id =? MAVLINK_MSG_ID_POSITION_TARGET_LOCAL_NED then
    (messages.stamp K_position_target_local_ned now
       (messages.with_position_target_local_ned body cm),
     time_stamps.set K_position_target_local_ned now this)
  else if id =? MAVLINK_MSG_ID_POSITION_TARGET_GLOBAL_INT then
    (messages.stamp K_position_target_global_int now
       (messages.with_position_target_global_int body cm),
     time_stamps.set K_position_target_global_int now this)
  else if id =? MAVLINK_MSG_ID_HIGHRES_IMU then
    (messages.stamp K_highres_imu now (messages.with_highres_imu body cm),
     time_stamps.set K_highres_imu now this)
  else if id =? MAVLINK_MSG_ID_ATTITUDE then
    (messages.stamp K_attitude now
       (messages.with_attitude (mavlink_msg_attitude_decode message) cm),
     time_stamps.set K_attitude now this)
  else if id =? MAVLINK_MSG_ID_VFR_HUD then
    (messages.stamp K_vfr_hud now (messages.with_vfr_hud body cm),
     time_stamps.set K_vfr_hud now this)
  else (cm, this).

(** The message ids with a [case] of their own. *)
Definition recognized : list Z :=
  [ MAVLINK_MSG_ID_HEARTBEAT; MAVLINK_MSG_ID_SYS_STATUS;
    MAVLINK_MSG_ID_BATTERY_STATUS; MAVLINK_MSG_ID_RADIO_STATUS;
    MAVLINK_MSG_ID_LOCAL_POSITION_NED; MAVLINK_MSG_ID_GLOBAL_POSITION_INT;
    MAVLINK_MSG_ID_POSITION_TARGET_LOCAL_NED;
    MAVLINK_MSG_ID_POSITION_TARGET_GLOBAL_INT;
    MAVLINK_MSG_ID_HIGHRES_IMU; MAVLINK_MSG_ID_ATTITUDE;
    MAVLINK_MSG_ID_VFR_HUD ].

(** [received_all = this_timestamps.heartbeat && this_timestamps.sys_status] *)
Definition received_all (this : Time_Stamps) : bool :=
  negb (time_stamps.heartbeat this =? 0) &&
  negb (time_stamps.sys_status this =? 0).

(** [read_messages]: the [while] loop over the port's successive
    [read_message] results, each paired with the clock at that moment
    ([None] is a failed read).  It returns the cache and the reads it did
    not consume; it stops when both a heartbeat and a system status were
    seen in this call, when [time_to_exit] is set, or (blocked) when the
    port has nothing more.  The [usleep(100)] that yields to the write
    thread only takes time. *)
Fixpoint read_messages_from (reads : list (option mavlink_message_t * Z))
    (time_to_exit : bool) (current_messages : Mavlink_Messages)
    (this : Time_Stamps)
    : Mavlink_Messages * list (option mavlink_message_t * Z) :=
  if received_all this || time_to_exit then (current_messages, reads)
  else
    match reads with
    | [] => (current_messages, [])
    | (Some message, now) :: rest =>
        let (cm, this') := handle_message now message current_messages this in
        read_messages_from rest time_to_exit cm this'
    | (None, _) :: rest =>
        read_messages_from rest time_to_exit current_messages this
    end.

Definition read_messages (reads : list (option mavlink_message_t * Z))
    (time_to_exit : bool) (current_messages : Mavlink_Messages) :=
  read_messages_from reads time_to_exit current_messages
    time_stamps.reset_timestamps.

(** The successful reads among the port's results, with their times. *)
Definition successful (reads : list (option mavlink_message_t * Z))
    : list (Z * mavlink_message_t) :=
  flat_map (fun r => match fst r with
                     | Some message => [(snd r, message)]
                     | None => []
                     end) reads.

(** What the read thread does to the cache with a batch of successfully
    read messages, however they are split over calls of [read_messages]. *)
Definition ingest (batch : list (Z * mavlink_message_t))
    (current_messages : Mavlink_Messages) : Mavlink_Messages :=
  fold_left
    (fun cm tm => fst (handle_message (fst tm) (snd tm) cm
                         time_stamps.reset_timestamps))
    batch current_messages.

(* ------------------------------------------------------------------ *)
(** ** Primitives of the calling thread *)

Context (e : Env).

(** [get_time_usec()], a [uint64_t]. *)
Definition get_time_usec : M Z :=
  gets (fun w => time_usec e (sleeps w) mod 2 ^ 64).

(** [usleep]: the calling thread is suspended; meanwhile the read thread
    handles what arrives and [stop] may raise [time_to_exit]. *)
Definition usleep (usec : Z) : M unit :=
  modify (fun w =>
    let n := sleeps w in
    let a := self w in
    let a := ap.with_current_messages (ingest (rx e n) (ap.current_messages a)) a in
    let a := ap.with_time_to_exit (ap.time_to_exit a || quit e n) a in
    mkWorld a (serial_port w) (console w) (S n)).

(** [serial_port->write_message(message)] *)
Definition serial_write_message (message : mavlink_out) : M Z :=
  fun w =>
    let p := serial_port w in
    let len := port_write e (List.length (serial.written p)) message in
    (Ret len,
     with_serial_port
       (fun p => serial.mk (serial.status p) ((message, len) :: serial.written p))
       w).

(* ------------------------------------------------------------------ *)
(** ** Setpoint store and derived control state *)

Definition set_setpoint_sendstatus (status : Z) : M unit :=
  update (ap.with_setpoint_send_status (wrap8 status)).

Definition update_setpoint (setpoint : mavlink_set_position_target_local_ned_t)
    : M unit :=
  update (ap.with_current_setpoint setpoint) ;;
  set_setpoint_sendstatus 1.

Definition get_setpoint_sendstatus : M Z :=
  gets (fun w => ap.setpoint_send_status (self w)).

(** Modelled from the spec: [px4_custom_mode.h] is not among the sources;
    the offboard state is read from a designated sub-range of the
    heartbeat's mode field.  In PX4's overlay of the 32-bit word that
    sub-range, [main_mode], is the third byte. *)
Definition main_mode (mode : Z) : Z := Z.land (Z.shiftr mode 16) 255.

Definition armed_in (messages : Mavlink_Messages) : bool :=
  let heartbeat := messages.heartbeat messages in
  let arm_state := wrap8 (heartbeat.system_status heartbeat) in
  if MAV_STATE_ACTIVE =? arm_state then true else false.

Definition offboard_in (messages : Mavlink_Messages) : bool :=
  let heartbeat := messages.heartbeat messages in
  let mode := wrap32 (heartbeat.custom_mode heartbeat) in
  if main_mode mode =? PX4_CUSTOM_MAIN_MODE_OFFBOARD then true else false.

Definition is_armed : M bool :=
  gets (fun w => armed_in (ap.current_messages (self w))).

Definition is_in_offboard_mode : M bool :=
  messages <- gets (fun w => ap.current_messages (self w)) ;;
  printf "Check OFFBOARD MODE, %d\n"
    [AInt (main_mode (wrap32 (heartbeat.custom_mode
                                (messages.heartbeat messages))))] ;;
  ret (offboard_in messages).

(* ------------------------------------------------------------------ *)
(** ** Write side *)

Definition write_message (message : mavlink_out) : M Z :=
  len <- serial_write_message message ;;
  update (fun a => ap.with_write_count ((ap.write_count a + 1) mod 2 ^ 64) a) ;;
  ret len.

(** The local copy [sp] that [write_setpoint] encodes, given the clock. *)
Definition stamped (now : Z) (a : Autopilot_Interface)
    : mavlink_set_position_target_local_ned_t :=
  let sp := ap.current_setpoint a in
  let sp := if setpoint.time_boot_ms sp =? 0
            then setpoint.with_time_boot_ms (wrap32 (now / 1000)) sp
            else sp in
  setpoint.with_target (wrap8 (ap.system_id a)) (wrap8 (ap.autopilot_id a)) sp.

Definition write_setpoint : M unit :=
  now <- get_time_usec ;;
  a <- gets self ;;
  let sp := stamped now a in
  let message := SET_POSITION_TARGET_LOCAL_NED
                   (wrap8 (ap.system_id a)) (wrap8 (ap.companion_id a)) sp in
  len <- write_message message ;;
  if len <=? 0
  then eprintf "WARNING: could not send POSITION_TARGET_LOCAL_NED \n" []
  else ret tt.

(** The command of the four [toggle_*] functions. *)
Definition command_message (a : Autopilot_Interface) (command : Z) (flag : bool)
    : mavlink_out :=
  let com := command_long.zero in
  let com := command_long.mk
               (float_of_bool flag) (command_long.param2 com)
               (command_long.param3 com) (command_long.param4 com)
               (command_long.param5 com) (command_long.param6 com)
               (command_long.param7 com)
               (wrap16 command)
               (wrap8 (ap.system_id a)) (wrap8 (ap.autopilot_id a)) 1 in
  COMMAND_LONG (wrap8 (ap.system_id a)) (wrap8 (ap.companion_id a)) com.

Definition toggle_offboard_control (flag : bool) : M Z :=
  a <- gets self ;;
  serial_write_message (command_message a MAV_CMD_NAV_GUIDED_ENABLE flag).

Definition toggle_arm_disarm (flag : bool) : M Z :=
  a <- gets self ;;
  serial_write_message (command_message a MAV_CMD_COMPONENT_ARM_DISARM flag).

(* ------------------------------------------------------------------ *)
(** ** Mode transitions *)

(** [int enable_trytimes = 50;] and [armed_trytimes = 50] *)
Definition enable_trytimes : nat := 50.
Definition armed_trytimes : nat := 50.

(** [while (enable_trytimes--) { ... }] with [enable_trytimes] passes left. *)
Fixpoint enable_offboard_loop (enable_trytimes : nat) : M unit :=
  match enable_trytimes with
  | O => ret tt
  | S n =>
      success <- toggle_offboard_control true ;;
      if success <? 0 then
        printf "Offboard Command Send failed!\n" [] ;;
        throw EXIT_FAILURE
      else
        usleep 400000 ;;
        offboard <- is_in_offboard_mode ;;
        if offboard then update (ap.with_control_status 1)
        else enable_offboard_loop n
  end.

Definition enable_offboard_control : M unit :=
  control_status <- gets (fun w => ap.control_status (self w)) ;;
  if control_status =? 0 then
    printf "Enable Offboaed Mode...\n" [] ;;
    enable_offboard_loop enable_trytimes ;;
    control_status <- gets (fun w => ap.control_status (self w)) ;;
    if control_status =? 0 then
      printf "Enable offboard mode failed!\n" [] ;;
      throw EXIT_FAILURE
    else printf "\n" []
  else ret tt.

Definition disable_offboard_control : M unit :=
  control_status <- gets (fun w => ap.control_status (self w)) ;;
  if control_status =? 1 then
    printf "DISABLE OFFBOARD MODE\n" [] ;;
    success <- toggle_offboard_control false ;;
    (if negb (success =? 0) then update (ap.with_control_status 0)
     else eprintf "Error: off-board mode not set, could not write message\n" []) ;;
    printf "\n" []
  else ret tt.

(** The [while (armed_trytimes--)] loop; it yields the locals [success]
    and [armed] as they are when the loop is left. *)
Fixpoint vehicle_armed_loop (armed_trytimes : nat) (success : Z) : M (Z * bool) :=
  match armed_trytimes with
  | O => ret (success, false)
  | S n =>
      armed <- is_armed ;;
      if armed then ret (success, true)
      else
        success <- toggle_arm_disarm true ;;
        if success <? 0 then
          printf "Armed Command Send failed!\n" [] ;;
          throw EXIT_FAILURE
        else
          usleep 200000 ;;
          vehicle_armed_loop n success
  end.

Definition vehicle_armed : M unit :=
  printf "Switch Vehicle to Armed...\n" [] ;;
  r <- vehicle_armed_loop armed_trytimes (-1) ;;
  if negb (snd r) then
    printf "Armed failed!\n" [] ;;
    throw EXIT_FAILURE
  else
    (if fst r =? 0
     then eprintf "Error: armed failed, could not write message\n" []
     else ret tt) ;;
    printf "\n" [].

Definition vehicle_disarm : M unit :=
  printf "DISARM MODE\n" [] ;;
  success <- toggle_arm_disarm false ;;
  (if success =? 0
   then eprintf "Error: disarm failed could not write message\n" []
   else ret tt) ;;
  printf "\n" [].

(* ------------------------------------------------------------------ *)
(** ** The streaming thread *)

(** The initial setpoint of [write_thread]: an uninitialised local with
    six of its fields assigned. *)
Definition initial_setpoint : mavlink_set_position_target_local_ned_t :=
  let sp := stack_garbage e in
  let sp := setpoint.with_type_mask
              (wrap16 (Z.land MAVLINK_MSG_SET_POSITION_TARGET_LOCAL_NED_VELOCITY
                              MAVLINK_MSG_SET_POSITION_TARGET_LOCAL_NED_YAW_RATE))
              sp in
  let sp := setpoint.with_coordinate_frame (wrap8 MAV_FRAME_LOCAL_NED) sp in
  let sp := setpoint.with_velocity f_zero f_zero f_zero sp in
  setpoint.with_yaw_rate f_zero sp.

(** [write_thread] up to the first pass of its loop. *)
Definition write_thread_enter : M unit :=
  update (ap.with_writing_status 2) ;;
  update (ap.with_current_setpoint initial_setpoint) ;;
  write_setpoint ;;
  update (ap.with_writing_status 1).

(** [while (!time_to_exit) { write_setpoint(); usleep(200000); }] *)
Fixpoint write_thread_loop (fuel : nat) : M unit :=
  time_to_exit <- gets (fun w => ap.time_to_exit (self w)) ;;
  if time_to_exit then ret tt
  else
    match fuel with
    | O => out_of_fuel
    | S n => write_setpoint ;; usleep 200000 ;; write_thread_loop n
    end.

Definition write_thread (fuel : nat) : M unit :=
  write_thread_enter ;;
  write_thread_loop fuel ;;
  update (ap.with_writing_status 0).

Definition start_write_thread (fuel : nat) : M unit :=
  writing_status <- gets (fun w => ap.writing_status (self w)) ;;
  if negb (writing_status =? 0)
  then eprintf "write thread already running\n" []
  else write_thread fuel.

(* ------------------------------------------------------------------ *)
(** ** Start-up and shut-down *)

(** [start_read_thread] as far as it changes the object: the new thread
    marks itself running; what it reads afterwards reaches the caller
    through [usleep]. *)
Definition start_read_thread : M unit :=
  reading_status <- gets (fun w => ap.reading_status (self w)) ;;
  if negb (reading_status =? 0)
  then eprintf "read thread already running\n" []
  else update (ap.with_reading_status 1).

(** [pthread_create] of the read thread and of the write thread.  A created
    write thread runs up to the first pass of its loop before the creator
    looks at [writing_status] again. *)
Definition pthread_create_read : M Z :=
  (if read_thread_rc e =? 0 then start_read_thread else ret tt) ;;
  ret (read_thread_rc e).

Definition pthread_create_write : M Z :=
  (if write_thread_rc e =? 0 then
     writing_status <- gets (fun w => ap.writing_status (self w)) ;;
     if negb (writing_status =? 0)
     then eprintf "write thread already running\n" []
     else write_thread_enter
   else ret tt) ;;
  ret (write_thread_rc e).

(** [while (not current_messages.sysid)]: [true] when a message was seen,
    [false] when [start] returns from inside the loop. *)
Fixpoint await_messages (fuel : nat) : M bool :=
  sysid <- gets (fun w => messages.sysid (ap.current_messages (self w))) ;;
  if negb (sysid =? 0) then ret true
  else
    time_to_exit <- gets (fun w => ap.time_to_exit (self w)) ;;
    if time_to_exit then ret false
    else
      match fuel with
      | O => out_of_fuel
      | S n => usleep 500000 ;; await_messages n
      end.

Definition have_initial_position (cm : Mavlink_Messages) : bool :=
  negb (time_stamps.local_position_ned (messages.time_stamps cm) =? 0) &&
  negb (time_stamps.attitude (messages.time_stamps cm) =? 0).

Fixpoint await_initial_position (fuel : nat) : M bool :=
  cm <- gets (fun w => ap.current_messages (self w)) ;;
  if have_initial_position cm then ret true
  else
    time_to_exit <- gets (fun w => ap.time_to_exit (self w)) ;;
    if time_to_exit then ret false
    else
      match fuel with
      | O => out_of_fuel
      | S n => usleep 500000 ;; await_initial_position n
      end.

(** [while (not writing_status) usleep(100000);] *)
Fixpoint await_writing (fuel : nat) : M unit :=
  writing_status <- gets (fun w => ap.writing_status (self w)) ;;
  if negb (writing_status =? 0) then ret tt
  else
    match fuel with
    | O => out_of_fuel
    | S n => usleep 100000 ;; await_writing n
    end.

Definition copy_initial_position (local_data : Mavlink_Messages)
    (initial_position : mavlink_set_position_target_local_ned_t) :=
  let p := messages.local_position_ned local_data in
  let a := messages.attitude local_data in
  let ip := setpoint.with_position (local_position_ned.x p)
              (local_position_ned.y p) (local_position_ned.z p)
              initial_position in
  let ip := setpoint.with_velocity (local_position_ned.vx p)
              (local_position_ned.vy p) (local_position_ned.vz p) ip in
  let ip := setpoint.with_yaw (attitude.yaw a) ip in
  setpoint.with_yaw_rate (attitude.yawspeed a) ip.

(** [start], section GET SYSTEM and COMPONENT IDs. *)
Definition adopt_ids : M unit :=
  a <- gets self ;;
  (if ap.system_id a =? 0 then
     update (ap.with_system_id (messages.sysid (ap.current_messages a))) ;;
     printf "GOT VEHICLE SYSTEM ID: %i\n"
       [AInt (messages.sysid (ap.current_messages a))]
   else ret tt) ;;
  a <- gets self ;;
  (if ap.autopilot_id a =? 0 then
     update (ap.with_autopilot_id (messages.compid (ap.current_messages a))) ;;
     printf "GOT AUTOPILOT COMPONENT ID: %i\n"
       [AInt (messages.compid (ap.current_messages a))] ;;
     printf "\n" []
   else ret tt).

(** [start], sections GET INITIAL POSITION and WRITE THREAD. *)
Definition start_streaming (fuel : nat) : M unit :=
  ready <- await_initial_position fuel ;;
  if negb ready then ret tt
  else
    update (fun a => ap.with_initial_position
                       (copy_initial_position (ap.current_messages a)
                          (ap.initial_position a)) a) ;;
    ip <- gets (fun w => ap.initial_position (self w)) ;;
    printf "INITIAL POSITION XYZ = [ %.4f , %.4f , %.4f ] \n"
      [AFloat (setpoint.x ip); AFloat (setpoint.y ip); AFloat (setpoint.z ip)] ;;
    printf "INITIAL POSITION YAW = %.4f \n" [AFloat (setpoint.yaw ip)] ;;
    printf "\n" [] ;;
    printf "START WRITE THREAD \n" [] ;;
    result <- pthread_create_write ;;
    if negb (result =? 0) then throw result
    else
      await_writing fuel ;;
      printf "\n" [].

(** The part of [start] after a message has been seen. *)
Definition start_handshake (fuel : nat) : M unit :=
  printf "Found\n" [] ;;
  printf "\n" [] ;;
  adopt_ids ;;
  start_streaming fuel.

(** [start]; [fuel] bounds the passes of each of its wait loops. *)
Definition start (fuel : nat) : M unit :=
  status <- gets (fun w => serial.status (serial_port w)) ;;
  if negb (status =? 1) then
    eprintf "ERROR: serial port not open\n" [] ;;
    throw 1
  else
    printf "START READ THREAD \n" [] ;;
    result <- pthread_create_read ;;
    if negb (result =? 0) then throw result
    else
      printf "\n" [] ;;
      printf "CHECK FOR MESSAGES\n" [] ;;
      found <- await_messages fuel ;;
      if negb found then ret tt
      else start_handshake fuel.

(** [stop]: raise the flag; the two joins only wait. *)
Definition stop : M unit :=
  printf "CLOSE THREADS\n" [] ;;
  update (ap.with_time_to_exit true) ;;
  printf "\n" [].

Definition handle_quit (sig : Z) : M unit :=
  disable_offboard_control ;;
  stop.

End Interface.

(* ------------------------------------------------------------------ *)
(** ** Observing a run *)

Section Observations.
Context {hdr : Headers} (e : Env).

(** The messages handed to the port so far, newest first. *)
Definition sent (w : World) : list mavlink_out :=
  map fst (serial.written (serial_port w)).

(** The index the port gives to the next write. *)
Definition next_write (w : World) : nat :=
  List.length (serial.written (serial_port w)).

(** The cache as the calling thread finds it after [k] further sleeps, the
    first of them being sleep number [n]. *)
Fixpoint cache_from (n k : nat) (cm : Mavlink_Messages) : Mavlink_Messages :=
  match k with
  | O => cm
  | S k' => cache_from (S n) k' (ingest (rx e n) cm)
  end.

Definition cache_after (k : nat) (w : World) : Mavlink_Messages :=
  cache_from (sleeps w) k (ap.current_messages (self w)).

(** No call of [stop] during the next [k] sleeps. *)
Definition undisturbed (k : nat) (w : World) : Prop :=
  ap.time_to_exit (self w) = false /\
  forall j, (j < k)%nat -> quit e (sleeps w + j) = false.

(** The two commands of the retry loops. *)
Definition enable_command (w : World) : mavlink_out :=
  command_message (self w) MAV_CMD_NAV_GUIDED_ENABLE true.
Definition disable_command (w : World) : mavlink_out :=
  command_message (self w) MAV_CMD_NAV_GUIDED_ENABLE false.
Definition arm_command (w : World) : mavlink_out :=
  command_message (self w) MAV_CMD_COMPONENT_ARM_DISARM true.

(** One pass of the enable loop that is not the last: the command is
    written, the thread sleeps, the check is negative. *)
Definition enable_pass (w : World) : World :=
  snd ((toggle_offboard_control e true ;; usleep e 400000 ;;
        is_in_offboard_mode) w).

(** One pass of the arm loop after a negative check. *)
Definition arm_pass (w : World) : World :=
  snd ((toggle_arm_disarm e true ;; usleep e 200000) w).

(** In a MAVLink [type_mask] a set bit tells the autopilot to ignore a
    field, and each macro of the header clears the bits of the fields of
    its group.  A mask honours a group when every bit the group's macro
    clears is clear in the mask. *)
Definition honours (mask group : Z) : Prop :=
  forall i, 0 <= i < 16 -> Z.testbit group i = false -> Z.testbit mask i = false.

(** The setpoint store. *)
Definition store (w : World) : mavlink_set_position_target_local_ned_t :=
  ap.current_setpoint (self w).

(** A setpoint without what [write_setpoint] stamps on its copy. *)
Definition unstamped (sp : mavlink_set_position_target_local_ned_t) :=
  setpoint.with_time_boot_ms 0 (setpoint.with_target 0 0 sp).

(** [m] is a setpoint message that carries [d], up to the stamps. *)
Definition carries (d : mavlink_set_position_target_local_ned_t)
    (m : mavlink_out) : Prop :=
  match m with
  | SET_POSITION_TARGET_LOCAL_NED _ _ sp => unstamped sp = unstamped d
  | COMMAND_LONG _ _ _ => False
  end.

(** The public operations, for statements over arbitrary call sequences.
    [Op_usleep] is time passing in the calling thread. *)
Inductive op :=
| Op_update_setpoint (sp : mavlink_set_position_target_local_ned_t)
| Op_write_setpoint
| Op_write_thread (fuel : nat)
| Op_enable_offboard_control
| Op_disable_offboard_control
| Op_vehicle_armed
| Op_vehicle_disarm
| Op_start (fuel : nat)
| Op_stop
| Op_handle_quit (sig : Z)
| Op_usleep (usec : Z).

Definition call (o : op) : M unit :=
  match o with
  | Op_update_setpoint sp => update_setpoint sp
  | Op_write_setpoint => write_setpoint e
  | Op_write_thread fuel => write_thread e fuel
  | Op_enable_offboard_control => enable_offboard_control e
  | Op_disable_offboard_control => disable_offboard_control e
  | Op_vehicle_armed => vehicle_armed e
  | Op_vehicle_disarm => vehicle_disarm e
  | Op_start fuel => start e fuel
  | Op_stop => stop
  | Op_handle_quit sig => handle_quit e sig
  | Op_usleep usec => usleep e usec
  end.

(** A caller may catch what an operation throws and go on. *)
Definition run (ops : list op) (w : World) : World :=
  fold_left (fun w o => snd (call o w)) ops w.

(** The operations that assign the setpoint store: [update_setpoint], and
    the start of the streaming thread with its initial setpoint. *)
Definition assigns_setpoint (o : op) : bool :=
  match o with
  | Op_update_setpoint _ | Op_write_thread _ | Op_start _ => true
  | _ => false
  end.

End Observations.

(* ------------------------------------------------------------------ *)
(** ** The constructor *)

(** [Autopilot_Interface(serial_port_)] assigns these members of the object
    under construction; [Time_Stamps] has a constructor of its own. *)
Definition constructor (raw : Autopilot_Interface) : Autopilot_Interface :=
  let a := ap.with_write_count 0 raw in
  let a := ap.with_reading_status 0 a in
  let a := ap.with_writing_status 0 a in
  let a := ap.with_control_status 0 a in
  let a := ap.with_setpoint_send_status 0 a in
  let a := ap.with_time_to_exit false a in
  let a := ap.with_system_id 0 a in
  let a := ap.with_autopilot_id 0 a in
  let a := ap.mk (ap.write_count a) (ap.reading_status a) (ap.writing_status a)
             (ap.control_status a) (ap.setpoint_send_status a)
             (ap.time_to_exit a) (ap.system_id a) (ap.autopilot_id a) 0
             (ap.current_messages a) (ap.current_setpoint a)
             (ap.initial_position a) in
  ap.with_current_messages
    (messages.with_time_stamps time_stamps.reset_timestamps
       (messages.with_ids (ap.system_id a) (ap.autopilot_id a)
          (ap.current_messages a))) a.

(* ------------------------------------------------------------------ *)
(** ** Reference values for the examples

    The values the MAVLink and PX4 headers give to the constants, a
    stand-in codec reading the fields off the payload, and a few worlds
    and environments on which the theorems are exercised. *)

Definition reference_headers : Headers := {|
  MAVLINK_MSG_SET_POSITION_TARGET_LOCAL_NED_POSITION := 3576;
  MAVLINK_MSG_SET_POSITION_TARGET_LOCAL_NED_VELOCITY := 3527;
  MAVLINK_MSG_SET_POSITION_TARGET_LOCAL_NED_ACCELERATION := 3135;
  MAVLINK_MSG_SET_POSITION_TARGET_LOCAL_NED_YAW_ANGLE := 2559;
  MAVLINK_MSG_SET_POSITION_TARGET_LOCAL_NED_YAW_RATE := 1535;
  PX4_CUSTOM_MAIN_MODE_OFFBOARD := 6;
  MAV_STATE_ACTIVE := 4;
  MAV_FRAME_LOCAL_NED := 1;
  MAV_CMD_NAV_GUIDED_ENABLE := 92;
  MAV_CMD_COMPONENT_ARM_DISARM := 400;
  MAVLINK_MSG_ID_HEARTBEAT := 0;
  MAVLINK_MSG_ID_SYS_STATUS := 1;
  MAVLINK_MSG_ID_BATTERY_STATUS := 147;
  MAVLINK_MSG_ID_RADIO_STATUS := 109;
  MAVLINK_MSG_ID_LOCAL_POSITION_NED := 32;
  MAVLINK_MSG_ID_GLOBAL_POSITION_INT := 33;
  MAVLINK_MSG_ID_POSITION_TARGET_LOCAL_NED := 85;
  MAVLINK_MSG_ID_POSITION_TARGET_GLOBAL_INT := 87;
  MAVLINK_MSG_ID_HIGHRES_IMU := 105;
  MAVLINK_MSG_ID_ATTITUDE := 30;
  MAVLINK_MSG_ID_VFR_HUD := 74;
  EXIT_FAILURE := 1;
  mavlink_msg_heartbeat_decode := fun m =>
    let p := message.payload m in
    heartbeat.mk (nth 0 p 0) (nth 1 p 0) (nth 2 p 0) (nth 3 p 0)
      (nth 4 p 0) (nth 5 p 0);
  mavlink_msg_local_position_ned_decode := fun m =>
    local_position_ned.mk (nth 0 (message.payload m) 0)
      f_zero f_zero f_zero f_zero f_zero f_zero;
  mavlink_msg_attitude_decode := fun m =>
    attitude.mk (nth 0 (message.payload m) 0)
      f_zero f_zero f_zero f_zero f_zero f_zero
|}.

Definition zero_setpoint : mavlink_set_position_target_local_ned_t :=
  setpoint.mk 0 f_zero f_zero f_zero f_zero f_zero f_zero f_zero f_zero f_zero
    f_zero f_zero 0 0 0 0.

Definition zero_messages : Mavlink_Messages :=
  messages.mk 0 0 (heartbeat.mk 0 0 0 0 0 0) [] [] []
    (local_position_ned.mk 0 f_zero f_zero f_zero f_zero f_zero f_zero)
    [] [] [] []
    (attitude.mk 0 f_zero f_zero f_zero f_zero f_zero f_zero) []
    time_stamps.reset_timestamps.

(** A freshly constructed object on an open port. *)
Definition fresh : World :=
  mkWorld
    (constructor (ap.mk 0 0 0 0 0 false 0 0 0 zero_messages zero_setpoint
                    zero_setpoint))
    (serial.mk 1 []) [] 0.

(** The same with [control_status] set, as after a successful enable. *)
Definition engaged : World := with_self (ap.with_control_status 1) fresh.

(** A heartbeat from (1, 50) with the given mode word and system status. *)
Definition heartbeat_from_1_50 (custom_mode system_status : Z) : mavlink_message_t :=
  message.mk 1 50 0 [custom_mode; 2; 12; 0; system_status; 3].

(** Offboard main mode is 6 in the third byte: 6 * 2^16. *)
Definition offboard_word : Z := 393216.

(** A fresh object whose cache already holds an offboard heartbeat. *)
Definition fresh_seeing_offboard : World :=
  with_self
    (fun a => ap.with_current_messages
                (ingest (hdr := reference_headers)
                   [(1000000, heartbeat_from_1_50 offboard_word 4)]
                   (ap.current_messages a)) a)
    fresh.

(** Every write returns [len]; the read thread handles [batch n] during
    sleep [n]; nobody calls [stop]; thread creation succeeds. *)
Definition env_with (len : Z) (batch : nat -> list (Z * mavlink_message_t)) : Env :=
  mkEnv (fun _ _ => len) (fun n => 1000000 + 200000 * Z.of_nat n) batch
    (fun _ => false) 0 0 zero_setpoint.

Definition quiet : nat -> list (Z * mavlink_message_t) := fun _ => [].

(** Only the first write fails, with a negative length; an offboard and
    active heartbeat arrives during the first sleep. *)
Definition first_write_negative : Env :=
  mkEnv (fun n _ => match n with O => -1 | _ => 21 end)
    (fun n => 1000000 + 200000 * Z.of_nat n)
    (fun n => match n with
              | O => [(1100000, heartbeat_from_1_50 offboard_word 4)]
              | _ => []
              end)
    (fun _ => false) 0 0 zero_setpoint.

(** An offboard heartbeat arrives during the third sleep. *)
Definition offboard_in_third_sleep : nat -> list (Z * mavlink_message_t) :=
  fun n => if Nat.eqb n 2
           then [(2200000, heartbeat_from_1_50 offboard_word 3)] else [].

(** An active heartbeat arrives during the second sleep. *)
Definition active_in_second_sleep : nat -> list (Z * mavlink_message_t) :=
  fun n => if Nat.eqb n 1
           then [(1400000, heartbeat_from_1_50 0 4)] else [].

(** Two senders inside the first polling interval of [start], then
    position and attitude. *)
Definition two_senders : nat -> list (Z * mavlink_message_t) :=
  fun n => match n with
           | O => [(1100000, heartbeat_from_1_50 0 3);
                   (1200000, message.mk 2 60 1 [])]
           | _ => [(1700000, message.mk 2 60 32 [7]);
                   (1800000, message.mk 2 60 30 [8])]
           end.

(** One sender, (1, 50): heartbeat and system status, then position and
    attitude. *)
Definition one_sender : nat -> list (Z * mavlink_message_t) :=
  fun n => match n with
           | O => [(1100000, heartbeat_from_1_50 offboard_word 3);
                   (1200000, message.mk 1 50 1 [])]
           | _ => [(1700000, message.mk 1 50 32 [7]);
                   (1800000, message.mk 1 50 30 [8])]
           end.

(** A message with an id that has no [case], and a producer's setpoint. *)
Definition unknown_message : mavlink_message_t := message.mk 1 50 999 [1; 2].

Definition producer_setpoint : mavlink_set_position_target_local_ned_t :=
  set_yaw (hdr := reference_headers) f_one
    (set_position (hdr := reference_headers) f_one f_zero f_one zero_setpoint).

(** A computation keeps an observation [f] of the world. *)
Definition keeps {A B : Type} (f : World -> B) (m : M A) : Prop :=
  forall w, f (snd (m w)) = f w.

(** A computation maintains a property [I] of the world. *)
Definition stable {A : Type} (I : World -> Prop) (m : M A) : Prop :=
  forall w, I w -> I (snd (m w)).

(* ------------------------------------------------------------------ *)
(** ** The remaining functions of the file *)

(** [set_land]: the clock is read once, at the call. *)
Definition set_land (now : Z) (sp : mavlink_set_position_target_local_ned_t) :=
  let sp := setpoint.with_time_boot_ms (wrap32 (now / 1000)) sp in
  setpoint.with_type_mask (wrap16 8192) sp.

(** The two further command numbers of the MAVLink headers. *)
Class NavCommands := {
  MAV_CMD_NAV_LAND : Z;
  MAV_CMD_NAV_RETURN_TO_LAUNCH : Z }.

Section FurtherFunctions.
Context {hdr : Headers} {nav : NavCommands} (e : Env).

Definition toggle_land_control (flag : bool) : M Z :=
  a <- gets self ;;
  serial_write_message e (command_message a MAV_CMD_NAV_LAND flag).

Definition toggle_return_control (flag : bool) : M Z :=
  a <- gets self ;;
  serial_write_message e (command_message a MAV_CMD_NAV_RETURN_TO_LAUNCH flag).

(** The [case] that the [switch] of [read_messages] takes for a message
    id, the labels being tried in the order of the source. *)
Definition kind_of (id : Z) : option kind :=
  if id =? MAVLINK_MSG_ID_HEARTBEAT then Some K_heartbeat
  else if id =? MAVLINK_MSG_ID_SYS_STATUS then Some K_sys_status
  else if id =? MAVLINK_MSG_ID_BATTERY_STATUS then Some K_battery_status
  else if id =? MAVLINK_MSG_ID_RADIO_STATUS then Some K_radio_status
  else if id =? MAVLINK_MSG_ID_LOCAL_POSITION_NED then Some K_local_position_ned
  else if id =? MAVLINK_MSG_ID_GLOBAL_POSITION_INT
       then Some K_global_position_int
  else if id =? MAVLINK_MSG_ID_POSITION_TARGET_LOCAL_NED
       then Some K_position_target_local_ned
  else if id =? MAVLINK_MSG_ID_POSITION_TARGET_GLOBAL_INT
       then Some K_position_target_global_int
  else if id =? MAVLINK_MSG_ID_HIGHRES_IMU then Some K_highres_imu
  else if id =? MAVLINK_MSG_ID_ATTITUDE then Some K_attitude
  else if id =? MAVLINK_MSG_ID_VFR_HUD then Some K_vfr_hud
  else None.

(** The member of the cache that belongs to a kind, and what the codec
    decodes for that kind. *)
Inductive payload :=
| P_heartbeat (v : mavlink_heartbeat_t)
| P_local_position_ned (v : mavlink_local_position_ned_t)
| P_attitude (v : mavlink_attitude_t)
| P_raw (v : list Z).

Definition payload_of (k : kind) (cm : Mavlink_Messages) : payload :=
  match k with
  | K_heartbeat => P_heartbeat (messages.heartbeat cm)
  | K_sys_status => P_raw (messages.sys_status cm)
  | K_battery_status => P_raw (messages.battery_status cm)
  | K_radio_status => P_raw (messages.radio_status cm)
  | K_local_position_ned => P_local_position_ned (messages.local_position_ned cm)
  | K_global_position_int => P_raw (messages.global_position_int cm)
  | K_position_target_local_ned => P_raw (messages.position_target_local_ned cm)
  | K_position_target_global_int =>
      P_raw (messages.position_target_global_int cm)
  | K_highres_imu => P_raw (messages.highres_imu cm)
  | K_attitude => P_attitude (messages.attitude cm)
  | K_vfr_hud => P_raw (messages.vfr_hud cm)
  end.

Definition decoded (k : kind) (message : mavlink_message_t) : payload :=
  match k with
  | K_heartbeat => P_heartbeat (mavlink_msg_heartbeat_decode message)
  | K_local_position_ned =>
      P_local_position_ned (mavlink_msg_local_position_ned_decode message)
  | K_attitude => P_attitude (mavlink_msg_attitude_decode message)
  | _ => P_raw (message.payload message)
  end.

Definition stamp_of (k : kind) (ts : Time_Stamps) : Z :=
  match k with
  | K_heartbeat => time_stamps.heartbeat ts
  | K_sys_status => time_stamps.sys_status ts
  | K_battery_status => time_stamps.battery_status ts
  | K_radio_status => time_stamps.radio_status ts
  | K_local_position_ned => time_stamps.local_position_ned ts
  | K_global_position_int => time_stamps.global_position_int ts
  | K_position_target_local_ned => time_stamps.position_target_local_ned ts
  | K_position_target_global_int => time_stamps.position_target_global_int ts
  | K_highres_imu => time_stamps.highres_imu ts
  | K_attitude => time_stamps.attitude ts
  | K_vfr_hud => time_stamps.vfr_hud ts
  end.

(** [read_thread]: [while (!time_to_exit) { read_messages(); usleep }] on
    the cache and the port's read results, for [fuel] passes.  The two
    assignments of [reading_status] around the loop do not touch the
    cache. *)
Fixpoint read_thread_loop (fuel : nat)
    (reads : list (option mavlink_message_t * Z)) (time_to_exit : bool)
    (current_messages : Mavlink_Messages)
    : Mavlink_Messages * list (option mavlink_message_t * Z) :=
  if time_to_exit then (current_messages, reads)
  else
    match fuel with
    | O => (current_messages, reads)
    | S n =>
        let r := read_messages reads time_to_exit current_messages in
        read_thread_loop n (snd r) time_to_exit (fst r)
    end.

(** The world after [k] sleeps of the calling thread in a row. *)
Fixpoint slept (k : nat) (w : World) : World :=
  match k with
  | O => w
  | S k' => slept k' (snd (usleep e 0 w))
  end.

End FurtherFunctions.

(** The operations that call [write_message], the only place where
    [write_count] is assigned after the constructor. *)
Definition calls_write_message (o : op) : bool :=
  match o with
  | Op_write_setpoint | Op_write_thread _ | Op_start _ => true
  | _ => false
  end.

(** [m] is a setpoint message with the time stamp and the type mask of
    [d]. *)
Definition keeps_stamp_and_mask (d : mavlink_set_position_target_local_ned_t)
    (m : mavlink_out) : Prop :=
  match m with
  | SET_POSITION_TARGET_LOCAL_NED _ _ sp =>
      setpoint.time_boot_ms sp = setpoint.time_boot_ms d /\
      setpoint.type_mask sp = setpoint.type_mask d
  | COMMAND_LONG _ _ _ => False
  end.

(** Further reference values: a port that is not open, a refused thread,
    a call of [stop] during the third sleep, and position and attitude
    arriving one sleep after the first messages. *)
Definition closed_port : World :=
  mkWorld (self fresh) (serial.mk 0 []) [] 0.

Definition refusing_threads : Env :=
  mkEnv (fun _ _ => 21) (fun n => 1000000 + 200000 * Z.of_nat n) quiet
    (fun _ => false) 11 0 zero_setpoint.

Definition stop_in_third_sleep : Env :=
  mkEnv (fun _ _ => 21) (fun n => 1000000 + 200000 * Z.of_nat n) quiet
    (fun n => Nat.eqb n 2) 0 0 zero_setpoint.

Definition reference_nav : NavCommands := {|
  MAV_CMD_NAV_LAND := 21;
  MAV_CMD_NAV_RETURN_TO_LAUNCH := 20 |}.

(** Reads of the port: a failed read, a heartbeat, an unknown message, a
    system status, and an attitude that the same call no longer reads. *)
Definition sample_reads : list (option mavlink_message_t * Z) :=
  [ (None, 1000000);
    (Some (heartbeat_from_1_50 offboard_word 4), 1100000);
    (Some unknown_message, 1200000);
    (Some (message.mk 1 50 1 [9]), 1300000);
    (Some (message.mk 1 50 30 [8]), 1400000) ].

(* ================================================================== *)
(** * Properties *)

(* ------------------------------------------------------------------ *)
(** ** The monad *)

Lemma bind_ret_run {A B} (m : M A) (k : A -> M B) w a w' :
  m w = (Ret a, w') -> bind m k w = k a w'.
Proof. unfold bind; intros ->; reflexivity. Qed.

Lemma bind_throw_run {A B} (m : M A) (k : A -> M B) w c w' :
  m w = (Throw c, w') -> bind m k w = (Throw c, w').
Proof. unfold bind; intros ->; reflexivity. Qed.

Lemma keeps_ret {A B} (f : World -> B) (a : A) : keeps f (ret a).
Proof. intro w; reflexivity. Qed.

Lemma keeps_throw {A B} (f : World -> B) c : keeps f (@throw A c).
Proof. intro w; reflexivity. Qed.

Lemma keeps_out_of_fuel {A B} (f : World -> B) : keeps f (@out_of_fuel A).
Proof. intro w; reflexivity. Qed.

Lemma keeps_gets {A B} (f : World -> B) (g : World -> A) : keeps f (gets g).
Proof. intro w; reflexivity. Qed.

Lemma keeps_bind {A B C} (f : World -> C) (m : M A) (k : A -> M B) :
  keeps f m -> (forall a, keeps f (k a)) -> keeps f (bind m k).
Proof.
  intros Hm Hk w. unfold bind.
  specialize (Hm w). destruct (m w) as [[a | c | ] w1]; simpl in *.
  - rewrite Hk. exact Hm.
  - exact Hm.
  - exact Hm.
Qed.

Create HintDb keeps.
#[local] Hint Resolve keeps_ret keeps_throw keeps_out_of_fuel keeps_gets : keeps.

(** Walk down a computation built with [bind] and [if]; what is left are
    its primitives, closed from the hint database. *)
Ltac keeps_walk :=
  repeat (cbv zeta;
    match goal with
    | |- keeps _ (bind _ _) => apply keeps_bind; [ | intros ? ]
    | |- keeps _ (if ?c then _ else _) => destruct c
    | |- keeps _ _ => solve [ auto with keeps ]
    end).

(* ------------------------------------------------------------------ *)
(** ** Members of the object that a computation leaves alone *)

Section Frames.
Context {hdr : Headers} (e : Env).
Context {B : Type} (p : Autopilot_Interface -> B).

(** [p] does not look at the members the mode transitions and the write
    side assign. *)
Hypothesis p_write_count : forall v a, p (ap.with_write_count v a) = p a.
Hypothesis p_reading_status : forall v a, p (ap.with_reading_status v a) = p a.
Hypothesis p_writing_status : forall v a, p (ap.with_writing_status v a) = p a.
Hypothesis p_control_status : forall v a, p (ap.with_control_status v a) = p a.
Hypothesis p_send_status :
  forall v a, p (ap.with_setpoint_send_status v a) = p a.
Hypothesis p_time_to_exit : forall v a, p (ap.with_time_to_exit v a) = p a.
Hypothesis p_current_messages :
  forall v a, p (ap.with_current_messages v a) = p a.
Hypothesis p_initial_position :
  forall v a, p (ap.with_initial_position v a) = p a.

Lemma keeps_printf fmt args : keeps (fun w => p (self w)) (printf fmt args).
Proof. intro w; reflexivity. Qed.

Lemma keeps_eprintf fmt args : keeps (fun w => p (self w)) (eprintf fmt args).
Proof. intro w; reflexivity. Qed.

Lemma keeps_usleep usec : keeps (fun w => p (self w)) (usleep e usec).
Proof.
  intro w. unfold usleep, modify. simpl.
  rewrite p_time_to_exit, p_current_messages. reflexivity.
Qed.

Lemma keeps_serial_write_message m :
  keeps (fun w => p (self w)) (serial_write_message e m).
Proof. intro w; reflexivity. Qed.

Lemma keeps_get_time_usec : keeps (fun w => p (self w)) (get_time_usec e).
Proof. intro w; reflexivity. Qed.

Lemma keeps_control_status v :
  keeps (fun w => p (self w)) (update (ap.with_control_status v)).
Proof. intro w. simpl. apply p_control_status. Qed.

Lemma keeps_writing_status v :
  keeps (fun w => p (self w)) (update (ap.with_writing_status v)).
Proof. intro w. simpl. apply p_writing_status. Qed.

Lemma keeps_reading_status v :
  keeps (fun w => p (self w)) (update (ap.with_reading_status v)).
Proof. intro w. simpl. apply p_reading_status. Qed.

Lemma keeps_time_to_exit v :
  keeps (fun w => p (self w)) (update (ap.with_time_to_exit v)).
Proof. intro w. simpl. apply p_time_to_exit. Qed.

Lemma keeps_send_status v :
  keeps (fun w => p (self w)) (set_setpoint_sendstatus v).
Proof. intro w. simpl. apply p_send_status. Qed.

Hint Resolve keeps_printf keeps_eprintf keeps_usleep keeps_serial_write_message
  keeps_get_time_usec keeps_control_status keeps_writing_status
  keeps_reading_status keeps_time_to_exit keeps_send_status : keeps.

Lemma keeps_write_message m : keeps (fun w => p (self w)) (write_message e m).
Proof.
  unfold write_message. keeps_walk.
  intro w. simpl. apply p_write_count.
Qed.
Hint Resolve keeps_write_message : keeps.

Lemma keeps_write_setpoint : keeps (fun w => p (self w)) (write_setpoint e).
Proof. unfold write_setpoint. keeps_walk. Qed.

Lemma keeps_is_in_offboard_mode :
  keeps (fun w => p (self w)) is_in_offboard_mode.
Proof. unfold is_in_offboard_mode. keeps_walk. Qed.

Lemma keeps_is_armed : keeps (fun w => p (self w)) is_armed.
Proof. unfold is_armed. keeps_walk. Qed.

Lemma keeps_toggle_offboard_control flag :
  keeps (fun w => p (self w)) (toggle_offboard_control e flag).
Proof. unfold toggle_offboard_control. keeps_walk. Qed.

Lemma keeps_toggle_arm_disarm flag :
  keeps (fun w => p (self w)) (toggle_arm_disarm e flag).
Proof. unfold toggle_arm_disarm. keeps_walk. Qed.

Hint Resolve keeps_write_setpoint keeps_is_in_offboard_mode keeps_is_armed
  keeps_toggle_offboard_control keeps_toggle_arm_disarm : keeps.

Lemma keeps_enable_offboard_loop n :
  keeps (fun w => p (self w)) (enable_offboard_loop e n).
Proof. induction n; simpl; keeps_walk. Qed.
Hint Resolve keeps_enable_offboard_loop : keeps.

Lemma keeps_enable_offboard_control :
  keeps (fun w => p (self w)) (enable_offboard_control e).
Proof. unfold enable_offboard_control. keeps_walk. Qed.

Lemma keeps_disable_offboard_control :
  keeps (fun w => p (self w)) (disable_offboard_control e).
Proof. unfold disable_offboard_control. keeps_walk. Qed.

Lemma keeps_vehicle_armed_loop n s :
  keeps (fun w => p (self w)) (vehicle_armed_loop e n s).
Proof. revert s; induction n; intro s; simpl; keeps_walk. Qed.
Hint Resolve keeps_vehicle_armed_loop : keeps.

Lemma keeps_vehicle_armed : keeps (fun w => p (self w)) (vehicle_armed e).
Proof. unfold vehicle_armed. keeps_walk. Qed.

Lemma keeps_vehicle_disarm : keeps (fun w => p (self w)) (vehicle_disarm e).
Proof. unfold vehicle_disarm. keeps_walk. Qed.

Lemma keeps_stop : keeps (fun w => p (self w)) stop.
Proof. unfold stop. keeps_walk. Qed.
Hint Resolve keeps_disable_offboard_control keeps_stop : keeps.

Lemma keeps_handle_quit sig : keeps (fun w => p (self w)) (handle_quit e sig).
Proof. unfold handle_quit. keeps_walk. Qed.

(** The streaming thread and the store: for a [p] that does not look at
    the setpoint store either. *)
Hypothesis p_current_setpoint :
  forall v a, p (ap.with_current_setpoint v a) = p a.

Lemma keeps_current_setpoint v :
  keeps (fun w => p (self w)) (update (ap.with_current_setpoint v)).
Proof. intro w. simpl. apply p_current_setpoint. Qed.
Hint Resolve keeps_current_setpoint : keeps.

Lemma keeps_update_setpoint sp :
  keeps (fun w => p (self w)) (update_setpoint sp).
Proof. unfold update_setpoint. keeps_walk. Qed.

Lemma keeps_write_thread_enter :
  keeps (fun w => p (self w)) (write_thread_enter e).
Proof. unfold write_thread_enter. keeps_walk. Qed.
Hint Resolve keeps_write_thread_enter : keeps.

Lemma keeps_write_thread_loop fuel :
  keeps (fun w => p (self w)) (write_thread_loop e fuel).
Proof. induction fuel; simpl; keeps_walk. Qed.
Hint Resolve keeps_write_thread_loop : keeps.

Lemma keeps_write_thread fuel :
  keeps (fun w => p (self w)) (write_thread e fuel).
Proof. unfold write_thread. keeps_walk. Qed.

Lemma keeps_pthread_create_write :
  keeps (fun w => p (self w)) (pthread_create_write e).
Proof. unfold pthread_create_write. keeps_walk. Qed.

Lemma keeps_pthread_create_read :
  keeps (fun w => p (self w)) (pthread_create_read e).
Proof. unfold pthread_create_read, start_read_thread. keeps_walk. Qed.

Lemma keeps_await_messages fuel :
  keeps (fun w => p (self w)) (await_messages e fuel).
Proof. induction fuel; simpl; keeps_walk. Qed.

Lemma keeps_await_initial_position fuel :
  keeps (fun w => p (self w)) (await_initial_position e fuel).
Proof. induction fuel; simpl; keeps_walk. Qed.

Lemma keeps_await_writing fuel :
  keeps (fun w => p (self w)) (await_writing e fuel).
Proof. induction fuel; simpl; keeps_walk. Qed.

Lemma keeps_initial_position g :
  keeps (fun w => p (self w)) (update (fun a => ap.with_initial_position (g a) a)).
Proof. intro w. simpl. apply p_initial_position. Qed.

Hint Resolve keeps_pthread_create_write keeps_pthread_create_read
  keeps_await_messages keeps_await_initial_position keeps_await_writing
  keeps_initial_position : keeps.

Lemma keeps_start_streaming fuel :
  keeps (fun w => p (self w)) (start_streaming e fuel).
Proof. unfold start_streaming. keeps_walk. Qed.

End Frames.

(* ------------------------------------------------------------------ *)
(** ** Setpoint helpers: the type mask *)

Section MaskLemmas.
Context {hdr : Headers}.

Lemma wrap16_bits v i : 0 <= i < 16 -> Z.testbit (wrap16 v) i = Z.testbit v i.
Proof. intros Hi. unfold wrap16. apply Z.mod_pow2_bits_low. lia. Qed.

Lemma narrowed_mask_bits m g i :
  0 <= i < 16 ->
  Z.testbit (wrap16 (Z.land (wrap16 m) g)) i = Z.testbit m i && Z.testbit g i.
Proof.
  intros Hi. rewrite wrap16_bits by exact Hi.
  rewrite Z.land_spec, wrap16_bits by exact Hi. reflexivity.
Qed.

Lemma narrowed_mask_honours m g :
  honours (wrap16 (Z.land (wrap16 m) g)) m /\
  honours (wrap16 (Z.land (wrap16 m) g)) g.
Proof.
  split; intros i Hi Hbit; rewrite narrowed_mask_bits by exact Hi;
    rewrite Hbit; auto using andb_false_r.
Qed.

Lemma set_yaw_mask yaw sp :
  setpoint.type_mask (set_yaw yaw sp) =
  wrap16 (Z.land (setpoint.type_mask sp)
            MAVLINK_MSG_SET_POSITION_TARGET_LOCAL_NED_YAW_ANGLE).
Proof. reflexivity. Qed.

Lemma set_yaw_rate_mask yaw_rate sp :
  setpoint.type_mask (set_yaw_rate yaw_rate sp) =
  wrap16 (Z.land (setpoint.type_mask sp)
            MAVLINK_MSG_SET_POSITION_TARGET_LOCAL_NED_YAW_RATE).
Proof. reflexivity. Qed.

(** C6.  After [set_position] or [set_position_velocity], [set_yaw] and
    [set_yaw_rate] narrow the mask they find instead of replacing it: each
    bit of the new mask is the conjunction of the bit left by the first
    helper and the bit of the yaw macro, so the mask honours the group set
    before as well as the yaw group, and the yaw field holds the argument;
    the position and velocity written before are still there. *)
Theorem yaw_keeps_the_group_set_before
    (x y z vx vy vz yaw yaw_rate : float)
    (sp : mavlink_set_position_target_local_ned_t) :
  let POSITION := MAVLINK_MSG_SET_POSITION_TARGET_LOCAL_NED_POSITION in
  let VELOCITY := MAVLINK_MSG_SET_POSITION_TARGET_LOCAL_NED_VELOCITY in
  let YAW_ANGLE := MAVLINK_MSG_SET_POSITION_TARGET_LOCAL_NED_YAW_ANGLE in
  let YAW_RATE := MAVLINK_MSG_SET_POSITION_TARGET_LOCAL_NED_YAW_RATE in
  let p := set_position x y z sp in
  let v := set_position_velocity x y z vx vy vz sp in
  let both (first second : Z) (out : mavlink_set_position_target_local_ned_t) :=
    (forall i, 0 <= i < 16 ->
       Z.testbit (setpoint.type_mask out) i =
       Z.testbit first i && Z.testbit second i) /\
    honours (setpoint.type_mask out) first /\
    honours (setpoint.type_mask out) second in
  (both POSITION YAW_ANGLE (set_yaw yaw p) /\
   setpoint.yaw (set_yaw yaw p) = yaw /\
   (setpoint.x (set_yaw yaw p), setpoint.y (set_yaw yaw p),
    setpoint.z (set_yaw yaw p)) = (x, y, z)) /\
  (both VELOCITY YAW_ANGLE (set_yaw yaw v) /\
   setpoint.yaw (set_yaw yaw v) = yaw /\
   (setpoint.vx (set_yaw yaw v), setpoint.vy (set_yaw yaw v),
    setpoint.vz (set_yaw yaw v)) = (vx, vy, vz)) /\
  (both POSITION YAW_RATE (set_yaw_rate yaw_rate p) /\
   setpoint.yaw_rate (set_yaw_rate yaw_rate p) = yaw_rate) /\
  (both VELOCITY YAW_RATE (set_yaw_rate yaw_rate v) /\
   setpoint.yaw_rate (set_yaw_rate yaw_rate v) = yaw_rate).
Proof.
  cbv zeta.
  repeat split; try reflexivity;
    rewrite ?set_yaw_mask, ?set_yaw_rate_mask; simpl setpoint.type_mask;
    first [ intros i Hi; apply narrowed_mask_bits; exact Hi
          | apply narrowed_mask_honours ].
Qed.

End MaskLemmas.

(* ------------------------------------------------------------------ *)
(** ** The read side *)

Section ReadSide.
Context {hdr : Headers}.

(** The cache after a message does not depend on the stamps of the
    current call, so [ingest] is what any sequence of [read_messages]
    calls does to the cache. *)
Lemma handle_message_cache now message cm this this' :
  fst (handle_message now message cm this) =
  fst (handle_message now message cm this').
Proof.
  unfold handle_message. cbv zeta.
  repeat match goal with
         | |- context [if ?c then _ else _] => destruct c
         end; reflexivity.
Qed.

Lemma read_messages_from_ingest reads : forall time_to_exit cm this,
  exists consumed,
    reads = consumed ++ snd (read_messages_from reads time_to_exit cm this) /\
    fst (read_messages_from reads time_to_exit cm this) =
      ingest (successful consumed) cm.
Proof.
  induction reads as [ | [[message | ] now] rest IH ]; intros tte cm this;
    cbn [read_messages_from].
  - exists []. destruct (_ || _); split; reflexivity.
  - destruct (_ || _).
    + exists []. split; reflexivity.
    + destruct (handle_message now message cm this) as [cm1 this1] eqn:Hh.
      destruct (IH tte cm1 this1) as (consumed & Hrest & Hcache).
      exists ((Some message, now) :: consumed). split.
      * cbn [app]. rewrite <- Hrest. reflexivity.
      * rewrite Hcache. cbn [successful flat_map fst snd app].
        unfold ingest at 2. cbn [fold_left fst snd].
        rewrite (handle_message_cache now message cm _ this), Hh.
        reflexivity.
  - destruct (_ || _).
    + exists []. split; reflexivity.
    + destruct (IH tte cm this) as (consumed & Hrest & Hcache).
      exists ((None, now) :: consumed). split.
      * cbn [app]. rewrite <- Hrest. reflexivity.
      * rewrite Hcache. reflexivity.
Qed.

Lemma unrecognized_falls_through now message cm this :
  ~ In (message.msgid message) recognized ->
  handle_message now message cm this =
  (messages.with_ids (message.sysid message) (message.compid message) cm, this).
Proof.
  intros Hid. unfold handle_message. cbv zeta.
  repeat match goal with
         | |- context [message.msgid message =? ?c] =>
             destruct (Z.eqb_spec (message.msgid message) c) as [E | _];
             [ exfalso; apply Hid; rewrite E; simpl; auto 15 | ]
         end.
  reflexivity.
Qed.

(** C9.  A successfully read message whose id has no [case] of its own
    changes nothing in the cache but the two sender ids: every decoded
    payload and every per-kind time stamp is as before, the stamps of the
    current call are as before, and the read loop simply goes on with the
    next message; no error value exists on this path. *)
Theorem unrecognized_message_is_dropped now message cm this :
  ~ In (message.msgid message) recognized ->
  let cm' := fst (handle_message now message cm this) in
  cm' = messages.with_ids (message.sysid message) (message.compid message) cm /\
  messages.heartbeat cm' = messages.heartbeat cm /\
  messages.sys_status cm' = messages.sys_status cm /\
  messages.battery_status cm' = messages.battery_status cm /\
  messages.radio_status cm' = messages.radio_status cm /\
  messages.local_position_ned cm' = messages.local_position_ned cm /\
  messages.global_position_int cm' = messages.global_position_int cm /\
  messages.position_target_local_ned cm' = messages.position_target_local_ned cm /\
  messages.position_target_global_int cm' = messages.position_target_global_int cm /\
  messages.highres_imu cm' = messages.highres_imu cm /\
  messages.attitude cm' = messages.attitude cm /\
  messages.vfr_hud cm' = messages.vfr_hud cm /\
  messages.time_stamps cm' = messages.time_stamps cm /\
  snd (handle_message now message cm this) = this /\
  (forall rest time_to_exit,
     received_all this || time_to_exit = false ->
     read_messages_from ((Some message, now) :: rest) time_to_exit cm this =
     read_messages_from rest time_to_exit cm' this) /\
  (forall batch,
     ingest ((now, message) :: batch) cm = ingest batch cm').
Proof.
  intros Hid. cbv zeta.
  rewrite (unrecognized_falls_through now message cm this Hid).
  repeat split.
  - intros rest tte Hgo. simpl. rewrite Hgo.
    rewrite (unrecognized_falls_through now message cm this Hid). reflexivity.
  - intros batch. unfold ingest. simpl.
    rewrite (unrecognized_falls_through _ _ _ _ Hid). reflexivity.
Qed.

End ReadSide.

(* ------------------------------------------------------------------ *)
(** ** Entering and leaving offboard control *)

Lemma repeat_shift {A} (a :
  A) k l : repeat a k ++ a :: l = a :: repeat a k ++ l.
Proof. induction k; simpl; [ reflexivity | rewrite IHk; reflexivity ]. Qed.

Section Offboard.
Context {hdr : Headers} (e : Env).

Lemma toggle_offboard_control_enable w :
  toggle_offboard_control e true w =
  (Ret (port_write e (next_write w) (enable_command w)),
   snd (toggle_offboard_control e true w)).
Proof. reflexivity. Qed.

Lemma usleep_run usec w : usleep e usec w = (Ret tt, snd (usleep e usec w)).
Proof. reflexivity. Qed.

Lemma is_in_offboard_mode_run w :
  is_in_offboard_mode w =
  (Ret (offboard_in (ap.current_messages (self w))),
   snd (is_in_offboard_mode w)).
Proof. reflexivity. Qed.

(** One pass of the enable loop, by cases on the length the port returns
    and on the check after the sleep. *)
Lemma enable_offboard_loop_pass n w :
  enable_offboard_loop e (S n) w =
  if port_write e (next_write w) (enable_command w) <? 0 then
    (Throw EXIT_FAILURE,
     snd ((toggle_offboard_control e true ;;
           printf "Offboard Command Send failed!\n" []) w))
  else if offboard_in (cache_after e 1 w) then
    (Ret tt, with_self (ap.with_control_status 1) (enable_pass e w))
  else enable_offboard_loop e n (enable_pass e w).
Proof.
  cbn [enable_offboard_loop].
  rewrite (bind_ret_run _ _ _ _ _ (toggle_offboard_control_enable w)).
  destruct (_ <? 0); [ reflexivity | ].
  rewrite (bind_ret_run _ _ _ _ _ (usleep_run _ _)).
  rewrite (bind_ret_run _ _ _ _ _ (is_in_offboard_mode_run _)).
  change (cache_after e 1 w) with
    (ap.current_messages
       (self (snd (usleep e 400000 (snd (toggle_offboard_control e true w)))))).
  destruct (offboard_in _); reflexivity.
Qed.

Lemma sent_enable_pass w : sent (enable_pass e w) = enable_command w :: sent w.
Proof. reflexivity. Qed.

Lemma next_write_enable_pass w :
  next_write (enable_pass e w) = S (next_write w).
Proof. reflexivity. Qed.

Lemma enable_command_enable_pass w :
  enable_command (enable_pass e w) = enable_command w.
Proof. reflexivity. Qed.

Lemma cache_after_enable_pass k w :
  cache_after e k (enable_pass e w) = cache_after e (S k) w.
Proof. reflexivity. Qed.

Lemma control_status_enable_pass w :
  ap.control_status (self (enable_pass e w)) = ap.control_status (self w).
Proof. reflexivity. Qed.

(** The loop when the check first succeeds after the [S k]-th command and
    no write before returned a negative length. *)
Lemma enable_offboard_loop_confirms k : forall n w,
  (forall j, (j <= k)%nat ->
     0 <= port_write e (next_write w + j) (enable_command w)) ->
  (forall j, (1 <= j <= k)%nat -> offboard_in (cache_after e j w) = false) ->
  offboard_in (cache_after e (S k) w) = true ->
  let r := enable_offboard_loop e (S k + n) w in
  fst r = Ret tt /\
  ap.control_status (self (snd r)) = 1 /\
  sent (snd r) = repeat (enable_command w) (S k) ++ sent w.
Proof.
  induction k as [ | k IH ]; intros n w Hlen Hno Hyes r; subst r.
  - change (1 + n)%nat with (S n). rewrite enable_offboard_loop_pass.
    specialize (Hlen O (Nat.le_refl _)). rewrite Nat.add_0_r in Hlen.
    apply Z.ltb_ge in Hlen. rewrite Hlen, Hyes. simpl. auto.
  - change (S (S k) + n)%nat with (S (S k + n)).
    rewrite enable_offboard_loop_pass.
    assert (H0 := Hlen O (Nat.le_0_l _)). rewrite Nat.add_0_r in H0.
    apply Z.ltb_ge in H0. rewrite H0.
    rewrite (Hno 1%nat) by lia.
    destruct (IH n (enable_pass e w)) as (Hr & Hc & Hs).
    + intros j Hj. rewrite next_write_enable_pass, enable_command_enable_pass.
      replace (S (next_write w) + j)%nat with (next_write w + S j)%nat by lia.
      apply Hlen. lia.
    + intros j Hj. rewrite cache_after_enable_pass. apply Hno. lia.
    + rewrite cache_after_enable_pass. exact Hyes.
    + repeat split; [ exact Hr | exact Hc | ].
      rewrite Hs, sent_enable_pass, enable_command_enable_pass.
      rewrite repeat_shift. reflexivity.
Qed.

(** The loop when the [S k]-th write is the first to return a negative
    length. *)
Lemma enable_offboard_loop_fatal k : forall n w,
  (forall j, (j < k)%nat ->
     0 <= port_write e (next_write w + j) (enable_command w)) ->
  (forall j, (1 <= j <= k)%nat -> offboard_in (cache_after e j w) = false) ->
  port_write e (next_write w + k) (enable_command w) < 0 ->
  let r := enable_offboard_loop e (S k + n) w in
  fst r = Throw EXIT_FAILURE /\
  ap.control_status (self (snd r)) = ap.control_status (self w) /\
  sent (snd r) = repeat (enable_command w) (S k) ++ sent w /\
  hd_error (console (snd r)) =
    Some (stdout, "Offboard Command Send failed!\n"%string, []).
Proof.
  induction k as [ | k IH ]; intros n w Hlen Hno Hneg r; subst r.
  - change (1 + n)%nat with (S n). rewrite enable_offboard_loop_pass.
    rewrite Nat.add_0_r in Hneg. apply Z.ltb_lt in Hneg. rewrite Hneg.
    simpl. auto.
  - change (S (S k) + n)%nat with (S (S k + n)).
    rewrite enable_offboard_loop_pass.
    assert (H0 := Hlen O (Nat.lt_0_succ _)). rewrite Nat.add_0_r in H0.
    apply Z.ltb_ge in H0. rewrite H0.
    rewrite (Hno 1%nat) by lia.
    destruct (IH n (enable_pass e w)) as (Hr & Hc & Hs & Hl).
    + intros j Hj. rewrite next_write_enable_pass, enable_command_enable_pass.
      replace (S (next_write w) + j)%nat with (next_write w + S j)%nat by lia.
      apply Hlen. lia.
    + intros j Hj. rewrite cache_after_enable_pass. apply Hno. lia.
    + rewrite next_write_enable_pass, enable_command_enable_pass.
      replace (S (next_write w) + k)%nat with (next_write w + S k)%nat by lia.
      exact Hneg.
    + repeat split; [ exact Hr | rewrite Hc; reflexivity | | exact Hl ].
      rewrite Hs, sent_enable_pass, enable_command_enable_pass.
      rewrite repeat_shift. reflexivity.
Qed.

Lemma printf_run fmt args w :
  printf fmt args w = (Ret tt, snd (printf fmt args w)).
Proof. reflexivity. Qed.

Lemma gets_run {A} (g : World -> A) w : gets g w = (Ret (g w), w).
Proof. reflexivity. Qed.

(** The function around the loop, when [control_status] is clear. *)
Lemma enable_offboard_control_runs w :
  ap.control_status (self w) = 0 ->
  enable_offboard_control e w =
  let r := enable_offboard_loop e enable_trytimes
             (snd (printf "Enable Offboaed Mode...\n" [] w)) in
  match fst r with
  | Ret _ =>
      if ap.control_status (self (snd r)) =? 0
      then (Throw EXIT_FAILURE,
            snd (printf "Enable offboard mode failed!\n" [] (snd r)))
      else (Ret tt, snd (printf "\n" [] (snd r)))
  | Throw c => (Throw c, snd r)
  | OutOfFuel => (OutOfFuel, snd r)
  end.
Proof.
  intros Hcs. unfold enable_offboard_control.
  rewrite (bind_ret_run _ _ _ _ _ (gets_run _ w)).
  rewrite Hcs. change (0 =? 0) with true. cbv iota zeta.
  rewrite (bind_ret_run _ _ _ _ _ (printf_run _ _ w)).
  unfold bind at 1.
  destruct (enable_offboard_loop e enable_trytimes _) as [[[] | c | ] w1];
    cbn [fst snd]; try reflexivity.
  rewrite (bind_ret_run _ _ _ _ _ (gets_run _ w1)).
  destruct (_ =? 0); reflexivity.
Qed.

Lemma sent_printf fmt args w : sent (snd (printf fmt args w)) = sent w.
Proof. reflexivity. Qed.

Lemma enable_offboard_control_confirms k w :
  (k < 50)%nat ->
  ap.control_status (self w) = 0 ->
  (forall j, (j <= k)%nat ->
     0 <= port_write e (next_write w + j) (enable_command w)) ->
  (forall j, (1 <= j <= k)%nat -> offboard_in (cache_after e j w) = false) ->
  offboard_in (cache_after e (S k) w) = true ->
  let r := enable_offboard_control e w in
  fst r = Ret tt /\
  ap.control_status (self (snd r)) = 1 /\
  sent (snd r) = repeat (enable_command w) (S k) ++ sent w.
Proof.
  intros Hk Hcs Hlen Hno Hyes r; subst r.
  rewrite enable_offboard_control_runs by exact Hcs. cbv zeta.
  set (w0 := snd (printf "Enable Offboaed Mode...\n" [] w)).
  unfold enable_trytimes. replace 50%nat with (S k + (49 - k))%nat by lia.
  destruct (enable_offboard_loop_confirms k (49 - k) w0 Hlen Hno Hyes)
    as (Hr & Hc & Hs).
  rewrite Hr, Hc. change (1 =? 0) with false. cbv iota. cbn [fst snd].
  repeat split; [ exact Hc | ].
  rewrite sent_printf. exact Hs.
Qed.

Lemma enable_offboard_control_fatal k w :
  (k < 50)%nat ->
  ap.control_status (self w) = 0 ->
  (forall j, (j < k)%nat ->
     0 <= port_write e (next_write w + j) (enable_command w)) ->
  (forall j, (1 <= j <= k)%nat -> offboard_in (cache_after e j w) = false) ->
  port_write e (next_write w + k) (enable_command w) < 0 ->
  let r := enable_offboard_control e w in
  fst r = Throw EXIT_FAILURE /\
  ap.control_status (self (snd r)) = 0 /\
  sent (snd r) = repeat (enable_command w) (S k) ++ sent w /\
  hd_error (console (snd r)) =
    Some (stdout, "Offboard Command Send failed!\n"%string, []).
Proof.
  intros Hk Hcs Hlen Hno Hneg r; subst r.
  rewrite enable_offboard_control_runs by exact Hcs. cbv zeta.
  set (w0 := snd (printf "Enable Offboaed Mode...\n" [] w)).
  unfold enable_trytimes. replace 50%nat with (S k + (49 - k))%nat by lia.
  destruct (enable_offboard_loop_fatal k (49 - k) w0 Hlen Hno Hneg)
    as (Hr & Hc & Hs & Hl).
  rewrite Hr. cbv iota. cbn [fst snd].
  repeat split; [ rewrite Hc; exact Hcs | exact Hs | exact Hl ].
Qed.

(** C1.  From a state with [control_status] clear, when the check after
    the sleep is negative after the first and the second command and
    positive after the third, and every write of a command returns a
    positive length, [enable_offboard_control] returns normally, has set
    [control_status], and has handed exactly three messages to the port,
    each the offboard-enable command. *)
Theorem enable_offboard_control_third_check w :
  ap.control_status (self w) = 0 ->
  (forall n m, is_command m = true -> 0 < port_write e n m) ->
  offboard_in (cache_after e 1 w) = false ->
  offboard_in (cache_after e 2 w) = false ->
  offboard_in (cache_after e 3 w) = true ->
  let r := enable_offboard_control e w in
  fst r = Ret tt /\
  ap.control_status (self (snd r)) = 1 /\
  sent (snd r) =
    enable_command w :: enable_command w :: enable_command w :: sent w.
Proof.
  intros Hcs Hlen H1 H2 H3.
  apply (enable_offboard_control_confirms 2 w); try assumption; try lia.
  - intros j _. apply Z.lt_le_incl, Hlen. reflexivity.
  - intros j Hj. assert (j = 1 \/ j = 2)%nat as [-> | ->] by lia; assumption.
Qed.

(** C3, as the code has it.  The guard of [enable_offboard_control] is the
    stored [control_status], not the mode of the cached heartbeat: when
    [control_status] is set, the call returns at once, hands nothing to
    the port and leaves the object, the port and the console as they
    were. *)
Theorem enable_offboard_control_when_engaged w :
  ap.control_status (self w) <> 0 ->
  enable_offboard_control e w = (Ret tt, w).
Proof.
  intros Hcs. unfold enable_offboard_control.
  unfold bind at 1. unfold gets at 1.
  destruct (Z.eqb_spec (ap.control_status (self w)) 0) as [E | _];
    [ contradiction | reflexivity ].
Qed.

Lemma toggle_offboard_control_disable w :
  toggle_offboard_control e false w =
  (Ret (port_write e (next_write w) (disable_command w)),
   snd (toggle_offboard_control e false w)).
Proof. reflexivity. Qed.

Lemma disable_offboard_control_runs w :
  ap.control_status (self w) = 1 ->
  disable_offboard_control e w =
  let w0 := snd (printf "DISABLE OFFBOARD MODE\n" [] w) in
  let w1 := snd (toggle_offboard_control e false w0) in
  if port_write e (next_write w) (disable_command w) =? 0
  then (Ret tt,
        snd (printf "\n" []
               (snd (eprintf
                       "Error: off-board mode not set, could not write message\n"
                       [] w1))))
  else (Ret tt,
        snd (printf "\n" [] (with_self (ap.with_control_status 0) w1))).
Proof.
  intros Hcs. unfold disable_offboard_control.
  rewrite (bind_ret_run _ _ _ _ _ (gets_run _ w)).
  rewrite Hcs. change (1 =? 1) with true. cbv iota zeta.
  rewrite (bind_ret_run _ _ _ _ _ (printf_run _ _ w)).
  rewrite (bind_ret_run _ _ _ _ _ (toggle_offboard_control_disable _)).
  change (port_write e (next_write (snd (printf "DISABLE OFFBOARD MODE\n" [] w)))
            (disable_command (snd (printf "DISABLE OFFBOARD MODE\n" [] w))))
    with (port_write e (next_write w) (disable_command w)).
  destruct (_ =? 0); reflexivity.
Qed.

(** C10.  With [control_status] set, [disable_offboard_control] hands
    exactly one message to the port, the disable command, and returns
    normally.  Whatever nonzero length the port returns, a negative one
    included, it clears [control_status]; only for the length zero does it
    leave [control_status] set and print the error line on [stderr]. *)
Theorem disable_offboard_control_tests_nonzero w :
  ap.control_status (self w) = 1 ->
  let len := port_write e (next_write w) (disable_command w) in
  let r := disable_offboard_control e w in
  fst r = Ret tt /\
  sent (snd r) = disable_command w :: sent w /\
  (len <> 0 -> ap.control_status (self (snd r)) = 0) /\
  (len < 0 -> ap.control_status (self (snd r)) = 0) /\
  (len = 0 ->
     ap.control_status (self (snd r)) = 1 /\
     In (stderr,
         "Error: off-board mode not set, could not write message\n"%string,
         []) (console (snd r))).
Proof.
  intros Hcs len r; subst r.
  rewrite (disable_offboard_control_runs w Hcs). cbv zeta. fold len.
  destruct (Z.eqb_spec len 0) as [E | E]; cbn [fst snd].
  - split; [ reflexivity | ]. split; [ reflexivity | ].
    split; [ intros; lia | ]. split; [ intros; lia | ].
    intros _. split; [ exact Hcs | ]. cbn. auto.
  - split; [ reflexivity | ]. split; [ reflexivity | ].
    split; [ reflexivity | ]. split; [ reflexivity | ].
    intros; lia.
Qed.

End Offboard.

(* ------------------------------------------------------------------ *)
(** ** Arming *)

Section Arm.
Context {hdr : Headers} (e : Env).

Lemma is_armed_run w :
  is_armed w = (Ret (armed_in (ap.current_messages (self w))), w).
Proof. reflexivity. Qed.

Lemma toggle_arm_disarm_arm w :
  toggle_arm_disarm e true w =
  (Ret (port_write e (next_write w) (arm_command w)),
   snd (toggle_arm_disarm e true w)).
Proof. reflexivity. Qed.

(** One pass of the arm loop, by cases on the check and on the length the
    port returns. *)
Lemma vehicle_armed_loop_pass n s w :
  vehicle_armed_loop e (S n) s w =
  if armed_in (cache_after e 0 w) then (Ret (s, true), w)
  else if port_write e (next_write w) (arm_command w) <? 0 then
    (Throw EXIT_FAILURE,
     snd ((toggle_arm_disarm e true ;;
           printf "Armed Command Send failed!\n" []) w))
  else vehicle_armed_loop e n (port_write e (next_write w) (arm_command w))
         (arm_pass e w).
Proof.
  cbn [vehicle_armed_loop].
  rewrite (bind_ret_run _ _ _ _ _ (is_armed_run w)).
  change (cache_after e 0 w) with (ap.current_messages (self w)).
  destruct (armed_in _); [ reflexivity | ].
  rewrite (bind_ret_run _ _ _ _ _ (toggle_arm_disarm_arm w)).
  destruct (_ <? 0); [ reflexivity | ].
  rewrite (bind_ret_run _ _ _ _ _ (usleep_run e _ _)).
  reflexivity.
Qed.

Lemma sent_arm_pass w : sent (arm_pass e w) = arm_command w :: sent w.
Proof. reflexivity. Qed.

Lemma next_write_arm_pass w : next_write (arm_pass e w) = S (next_write w).
Proof. reflexivity. Qed.

Lemma arm_command_arm_pass w : arm_command (arm_pass e w) = arm_command w.
Proof. reflexivity. Qed.

Lemma cache_after_arm_pass k w :
  cache_after e k (arm_pass e w) = cache_after e (S k) w.
Proof. reflexivity. Qed.

(** Shifting the hypotheses of a run by one pass. *)
Lemma arm_lengths_shift (k : nat) w :
  (forall j, (j < S k)%nat ->
     0 <= port_write e (next_write w + j) (arm_command w)) ->
  forall j, (j < k)%nat ->
    0 <= port_write e (next_write (arm_pass e w) + j)
           (arm_command (arm_pass e w)).
Proof.
  intros Hlen j Hj. rewrite next_write_arm_pass, arm_command_arm_pass.
  replace (S (next_write w) + j)%nat with (next_write w + S j)%nat by lia.
  apply Hlen. lia.
Qed.

Lemma arm_first_length (k : nat) w :
  (forall j, (j < S k)%nat ->
     0 <= port_write e (next_write w + j) (arm_command w)) ->
  (port_write e (next_write w) (arm_command w) <? 0) = false.
Proof.
  intros Hlen. apply Z.ltb_ge.
  specialize (Hlen O (Nat.lt_0_succ _)). rewrite Nat.add_0_r in Hlen.
  exact Hlen.
Qed.

(** The check first succeeds after [k] commands. *)
Lemma vehicle_armed_loop_confirms k : forall n s w,
  (forall j, (j < k)%nat ->
     0 <= port_write e (next_write w + j) (arm_command w)) ->
  (forall j, (j < k)%nat -> armed_in (cache_after e j w) = false) ->
  armed_in (cache_after e k w) = true ->
  let r := vehicle_armed_loop e (S k + n) s w in
  (exists s', fst r = Ret (s', true)) /\
  sent (snd r) = repeat (arm_command w) k ++ sent w.
Proof.
  induction k as [ | k IH ]; intros n s w Hlen Hno Hyes r; subst r.
  - change (1 + n)%nat with (S n). rewrite vehicle_armed_loop_pass, Hyes.
    split; [ exists s | ]; reflexivity.
  - change (S (S k) + n)%nat with (S (S k + n)).
    rewrite vehicle_armed_loop_pass.
    rewrite (Hno O) by lia. rewrite (arm_first_length k w Hlen).
    destruct (IH n (port_write e (next_write w) (arm_command w))
                (arm_pass e w)) as (Hr & Hs).
    + apply arm_lengths_shift. exact Hlen.
    + intros j Hj. rewrite cache_after_arm_pass. apply Hno. lia.
    + rewrite cache_after_arm_pass. exact Hyes.
    + split; [ exact Hr | ].
      rewrite Hs, sent_arm_pass, arm_command_arm_pass, repeat_shift.
      reflexivity.
Qed.

(** The check never succeeds: all [n] passes are made. *)
Lemma vehicle_armed_loop_exhausted n : forall s w,
  (forall j, (j < n)%nat ->
     0 <= port_write e (next_write w + j) (arm_command w)) ->
  (forall j, (j < n)%nat -> armed_in (cache_after e j w) = false) ->
  let r := vehicle_armed_loop e n s w in
  (exists s', fst r = Ret (s', false)) /\
  sent (snd r) = repeat (arm_command w) n ++ sent w.
Proof.
  induction n as [ | n IH ]; intros s w Hlen Hno r; subst r.
  - split; [ exists s | ]; reflexivity.
  - rewrite vehicle_armed_loop_pass.
    rewrite (Hno O) by lia. rewrite (arm_first_length n w Hlen).
    destruct (IH (port_write e (next_write w) (arm_command w))
                (arm_pass e w)) as (Hr & Hs).
    + apply arm_lengths_shift. exact Hlen.
    + intros j Hj. rewrite cache_after_arm_pass. apply Hno. lia.
    + split; [ exact Hr | ].
      rewrite Hs, sent_arm_pass, arm_command_arm_pass, repeat_shift.
      reflexivity.
Qed.

(** The [S k]-th write is the first to return a negative length. *)
Lemma vehicle_armed_loop_fatal k : forall n s w,
  (forall j, (j < k)%nat ->
     0 <= port_write e (next_write w + j) (arm_command w)) ->
  (forall j, (j <= k)%nat -> armed_in (cache_after e j w) = false) ->
  port_write e (next_write w + k) (arm_command w) < 0 ->
  let r := vehicle_armed_loop e (S k + n) s w in
  fst r = Throw EXIT_FAILURE /\
  sent (snd r) = repeat (arm_command w) (S k) ++ sent w /\
  hd_error (console (snd r)) =
    Some (stdout, "Armed Command Send failed!\n"%string, []).
Proof.
  induction k as [ | k IH ]; intros n s w Hlen Hno Hneg r; subst r.
  - change (1 + n)%nat with (S n). rewrite vehicle_armed_loop_pass.
    rewrite (Hno O) by lia.
    rewrite Nat.add_0_r in Hneg. apply Z.ltb_lt in Hneg. rewrite Hneg.
    repeat split.
  - change (S (S k) + n)%nat with (S (S k + n)).
    rewrite vehicle_armed_loop_pass.
    rewrite (Hno O) by lia. rewrite (arm_first_length k w Hlen).
    destruct (IH n (port_write e (next_write w) (arm_command w))
                (arm_pass e w)) as (Hr & Hs & Hl).
    + apply arm_lengths_shift. exact Hlen.
    + intros j Hj. rewrite cache_after_arm_pass. apply Hno. lia.
    + rewrite next_write_arm_pass, arm_command_arm_pass.
      replace (S (next_write w) + k)%nat with (next_write w + S k)%nat by lia.
      exact Hneg.
    + repeat split; [ exact Hr | | exact Hl ].
      rewrite Hs, sent_arm_pass, arm_command_arm_pass, repeat_shift.
      reflexivity.
Qed.

(** Whatever the port and the cache do, the loop hands at most as many
    messages to the port as it has passes, all of them the arm command. *)
Lemma vehicle_armed_loop_bound n : forall s w,
  exists k, (k <= n)%nat /\
    sent (snd (vehicle_armed_loop e n s w)) = repeat (arm_command w) k ++ sent w.
Proof.
  induction n as [ | n IH ]; intros s w.
  - exists O. split; [ lia | reflexivity ].
  - rewrite vehicle_armed_loop_pass.
    destruct (armed_in _).
    + exists O. split; [ lia | reflexivity ].
    + destruct (_ <? 0).
      * exists 1%nat. split; [ lia | reflexivity ].
      * destruct (IH (port_write e (next_write w) (arm_command w))
                    (arm_pass e w)) as (k & Hk & Hs).
        exists (S k). split; [ lia | ].
        rewrite Hs, sent_arm_pass, arm_command_arm_pass, repeat_shift.
        reflexivity.
Qed.

(** The function around the loop. *)
Lemma vehicle_armed_runs w :
  vehicle_armed e w =
  let r := vehicle_armed_loop e armed_trytimes (-1)
             (snd (printf "Switch Vehicle to Armed...\n" [] w)) in
  match fst r with
  | Ret (success, armed) =>
      if negb armed
      then (Throw EXIT_FAILURE, snd (printf "Armed failed!\n" [] (snd r)))
      else
        (Ret tt,
         snd (printf "\n" []
                (if success =? 0
                 then snd (eprintf
                             "Error: armed failed, could not write message\n"
                             [] (snd r))
                 else snd r)))
  | Throw c => (Throw c, snd r)
  | OutOfFuel => (OutOfFuel, snd r)
  end.
Proof.
  unfold vehicle_armed.
  rewrite (bind_ret_run _ _ _ _ _ (printf_run _ _ w)). cbv zeta.
  unfold bind at 1.
  destruct (vehicle_armed_loop e armed_trytimes _ _) as [[[s a] | c | ] w1];
    cbn [fst snd]; try reflexivity.
  destruct a; cbn [negb]; [ | reflexivity ].
  destruct (s =? 0); reflexivity.
Qed.

Lemma sent_eprintf fmt args w : sent (snd (eprintf fmt args w)) = sent w.
Proof. reflexivity. Qed.

Lemma vehicle_armed_bound w :
  exists k, (k <= 50)%nat /\
    sent (snd (vehicle_armed e w)) = repeat (arm_command w) k ++ sent w.
Proof.
  rewrite vehicle_armed_runs. cbv zeta.
  set (w0 := snd (printf "Switch Vehicle to Armed...\n" [] w)).
  destruct (vehicle_armed_loop_bound armed_trytimes (-1) w0) as (k & Hk & Hs).
  exists k. split; [ exact Hk | ].
  destruct (vehicle_armed_loop e armed_trytimes (-1) w0)
    as [[[s a] | c | ] w1]; cbn [fst snd] in *; try exact Hs.
  destruct a; cbn [negb]; cbn [snd]; rewrite sent_printf; [ | exact Hs ].
  destruct (s =? 0); [ rewrite sent_eprintf | ]; exact Hs.
Qed.

Lemma vehicle_armed_exhausts w :
  (forall j, (j < 50)%nat ->
     0 <= port_write e (next_write w + j) (arm_command w)) ->
  (forall j, (j < 50)%nat -> armed_in (cache_after e j w) = false) ->
  let r := vehicle_armed e w in
  fst r = Throw EXIT_FAILURE /\
  sent (snd r) = repeat (arm_command w) 50 ++ sent w /\
  hd_error (console (snd r)) = Some (stdout, "Armed failed!\n"%string, []).
Proof.
  intros Hlen Hno r; subst r.
  rewrite vehicle_armed_runs. cbv zeta.
  set (w0 := snd (printf "Switch Vehicle to Armed...\n" [] w)).
  destruct (vehicle_armed_loop_exhausted armed_trytimes (-1) w0 Hlen Hno)
    as ((s' & Hr) & Hs).
  rewrite Hr. cbn [negb fst snd]. rewrite sent_printf.
  repeat split. exact Hs.
Qed.

Lemma vehicle_armed_confirms k w :
  (k < 50)%nat ->
  (forall j, (j < k)%nat ->
     0 <= port_write e (next_write w + j) (arm_command w)) ->
  (forall j, (j < k)%nat -> armed_in (cache_after e j w) = false) ->
  armed_in (cache_after e k w) = true ->
  let r := vehicle_armed e w in
  fst r = Ret tt /\
  sent (snd r) = repeat (arm_command w) k ++ sent w.
Proof.
  intros Hk Hlen Hno Hyes r; subst r.
  rewrite vehicle_armed_runs. cbv zeta.
  set (w0 := snd (printf "Switch Vehicle to Armed...\n" [] w)).
  unfold armed_trytimes. replace 50%nat with (S k + (49 - k))%nat by lia.
  destruct (vehicle_armed_loop_confirms k (49 - k) (-1) w0 Hlen Hno Hyes)
    as ((s' & Hr) & Hs).
  rewrite Hr. cbn [negb fst snd]. rewrite sent_printf.
  split; [ reflexivity | ].
  destruct (s' =? 0); [ rewrite sent_eprintf | ]; exact Hs.
Qed.

Lemma vehicle_armed_fatal k w :
  (k < 50)%nat ->
  (forall j, (j < k)%nat ->
     0 <= port_write e (next_write w + j) (arm_command w)) ->
  (forall j, (j <= k)%nat -> armed_in (cache_after e j w) = false) ->
  port_write e (next_write w + k) (arm_command w) < 0 ->
  let r := vehicle_armed e w in
  fst r = Throw EXIT_FAILURE /\
  sent (snd r) = repeat (arm_command w) (S k) ++ sent w /\
  hd_error (console (snd r)) =
    Some (stdout, "Armed Command Send failed!\n"%string, []).
Proof.
  intros Hk Hlen Hno Hneg r; subst r.
  rewrite vehicle_armed_runs. cbv zeta.
  set (w0 := snd (printf "Switch Vehicle to Armed...\n" [] w)).
  unfold armed_trytimes. replace 50%nat with (S k + (49 - k))%nat by lia.
  destruct (vehicle_armed_loop_fatal k (49 - k) (-1) w0 Hlen Hno Hneg)
    as (Hr & Hs & Hl).
  rewrite Hr. cbn [fst snd]. auto.
Qed.

(** C2.  [vehicle_armed] never hands more than 50 messages to the port,
    each the arm command.  When every write of a command returns a
    positive length and the cached heartbeat is not active at any of the
    50 checks, it hands exactly 50 and then throws [EXIT_FAILURE]; when the
    heartbeat is active at a check, the loop stops there without another
    command and the call returns normally. *)
Theorem vehicle_armed_bounded_retries w :
  let r := vehicle_armed e w in
  (exists k, (k <= 50)%nat /\
     sent (snd r) = repeat (arm_command w) k ++ sent w) /\
  ((forall n m, is_command m = true -> 0 < port_write e n m) ->
   (forall j, (j < 50)%nat -> armed_in (cache_after e j w) = false) ->
   fst r = Throw EXIT_FAILURE /\
   sent (snd r) = repeat (arm_command w) 50 ++ sent w) /\
  (forall k,
     (forall n m, is_command m = true -> 0 < port_write e n m) ->
     (k < 50)%nat ->
     (forall j, (j < k)%nat -> armed_in (cache_after e j w) = false) ->
     armed_in (cache_after e k w) = true ->
     fst r = Ret tt /\
     sent (snd r) = repeat (arm_command w) k ++ sent w).
Proof.
  intros r; subst r. split; [ apply vehicle_armed_bound | split ].
  - intros Hlen Hno.
    destruct (vehicle_armed_exhausts w) as (Hr & Hs & _); auto.
    intros j _. apply Z.lt_le_incl, Hlen. reflexivity.
  - intros k Hlen Hk Hno Hyes.
    apply vehicle_armed_confirms; auto.
    intros j _. apply Z.lt_le_incl, Hlen. reflexivity.
Qed.

End Arm.

(* ------------------------------------------------------------------ *)
(** ** Failed writes of a command *)

Section CommandWrites.
Context {hdr : Headers} (e : Env).

(** C4, as the code has it.  In [enable_offboard_control] and in
    [vehicle_armed] a write of the command that returns the length zero
    does not stop the loop: with lengths that are zero or positive the
    call goes on to the check and returns normally once the check
    succeeds.  A write that returns a negative length is not recovered:
    the call prints its send-failed line and throws [EXIT_FAILURE] at
    once, after that very command and without a further attempt. *)
Theorem command_write_zero_goes_on_negative_throws w :
  (forall k, (k < 50)%nat ->
     ap.control_status (self w) = 0 ->
     (forall j, (j <= k)%nat ->
        0 <= port_write e (next_write w + j) (enable_command w)) ->
     (forall j, (1 <= j <= k)%nat -> offboard_in (cache_after e j w) = false) ->
     offboard_in (cache_after e (S k) w) = true ->
     fst (enable_offboard_control e w) = Ret tt /\
     sent (snd (enable_offboard_control e w)) =
       repeat (enable_command w) (S k) ++ sent w) /\
  (forall k, (k < 50)%nat ->
     ap.control_status (self w) = 0 ->
     (forall j, (j < k)%nat ->
        0 <= port_write e (next_write w + j) (enable_command w)) ->
     (forall j, (1 <= j <= k)%nat -> offboard_in (cache_after e j w) = false) ->
     port_write e (next_write w + k) (enable_command w) < 0 ->
     fst (enable_offboard_control e w) = Throw EXIT_FAILURE /\
     sent (snd (enable_offboard_control e w)) =
       repeat (enable_command w) (S k) ++ sent w /\
     hd_error (console (snd (enable_offboard_control e w))) =
       Some (stdout, "Offboard Command Send failed!\n"%string, [])) /\
  (forall k, (k < 50)%nat ->
     (forall j, (j < k)%nat ->
        0 <= port_write e (next_write w + j) (arm_command w)) ->
     (forall j, (j < k)%nat -> armed_in (cache_after e j w) = false) ->
     armed_in (cache_after e k w) = true ->
     fst (vehicle_armed e w) = Ret tt /\
     sent (snd (vehicle_armed e w)) = repeat (arm_command w) k ++ sent w) /\
  (forall k, (k < 50)%nat ->
     (forall j, (j < k)%nat ->
        0 <= port_write e (next_write w + j) (arm_command w)) ->
     (forall j, (j <= k)%nat -> armed_in (cache_after e j w) = false) ->
     port_write e (next_write w + k) (arm_command w) < 0 ->
     fst (vehicle_armed e w) = Throw EXIT_FAILURE /\
     sent (snd (vehicle_armed e w)) = repeat (arm_command w) (S k) ++ sent w /\
     hd_error (console (snd (vehicle_armed e w))) =
       Some (stdout, "Armed Command Send failed!\n"%string, [])).
Proof.
  repeat apply conj.
  - intros k Hk Hcs Hlen Hno Hyes.
    destruct (enable_offboard_control_confirms e k w Hk Hcs Hlen Hno Hyes)
      as (Hr & _ & Hs).
    split; assumption.
  - intros k Hk Hcs Hlen Hno Hneg.
    destruct (enable_offboard_control_fatal e k w Hk Hcs Hlen Hno Hneg)
      as (Hr & _ & Hs & Hl).
    repeat split; assumption.
  - intros k Hk Hlen Hno Hyes.
    exact (vehicle_armed_confirms e k w Hk Hlen Hno Hyes).
  - intros k Hk Hlen Hno Hneg.
    exact (vehicle_armed_fatal e k w Hk Hlen Hno Hneg).
Qed.

End CommandWrites.

(** C4 as stated fails: one write that returns a negative length makes both
    calls throw, although the very next attempt would have been written
    and confirmed. *)
Lemma single_negative_write_is_thrown :
  port_write first_write_negative 0
    (enable_command (hdr := reference_headers) fresh) = -1 /\
  port_write first_write_negative 1
    (enable_command (hdr := reference_headers) fresh) = 21 /\
  offboard_in (hdr := reference_headers)
    (cache_after (hdr := reference_headers) first_write_negative 1 fresh)
    = true /\
  armed_in (hdr := reference_headers)
    (cache_after (hdr := reference_headers) first_write_negative 1 fresh)
    = true /\
  fst (enable_offboard_control (hdr := reference_headers)
         first_write_negative fresh) = Throw 1 /\
  fst (vehicle_armed (hdr := reference_headers)
         first_write_negative fresh) = Throw 1.
Proof. vm_compute. repeat split. Qed.

(** C3 as stated fails: with an offboard heartbeat in the cache but
    [control_status] clear, the call hands a command to the port and
    changes the object. *)
Lemma offboard_heartbeat_does_not_stop_enable :
  offboard_in (hdr := reference_headers)
    (ap.current_messages (self fresh_seeing_offboard)) = true /\
  sent fresh_seeing_offboard = [] /\
  sent (snd (enable_offboard_control (hdr := reference_headers)
               (env_with 21 quiet) fresh_seeing_offboard)) =
    [enable_command (hdr := reference_headers) fresh_seeing_offboard] /\
  ap.control_status (self fresh_seeing_offboard) = 0 /\
  ap.control_status
    (self (snd (enable_offboard_control (hdr := reference_headers)
                  (env_with 21 quiet) fresh_seeing_offboard))) = 1.
Proof. vm_compute. repeat split. Qed.

(* ------------------------------------------------------------------ *)
(** ** The setpoint store and the streaming thread *)

Section Streaming.
Context {hdr : Headers} (e : Env).

Lemma write_setpoint_keeps_store : keeps store (write_setpoint e).
Proof.
  unfold store. apply (keeps_write_setpoint e ap.current_setpoint); reflexivity.
Qed.

Lemma usleep_keeps_store usec : keeps store (usleep e usec).
Proof.
  unfold store. apply (keeps_usleep e ap.current_setpoint); reflexivity.
Qed.

(** What [write_setpoint] hands to the port: the stamped copy. *)
Lemma write_setpoint_sent w :
  sent (snd (write_setpoint e w)) =
  SET_POSITION_TARGET_LOCAL_NED
    (wrap8 (ap.system_id (self w))) (wrap8 (ap.companion_id (self w)))
    (stamped (time_usec e (sleeps w) mod 2 ^ 64) (self w)) :: sent w.
Proof.
  unfold write_setpoint, get_time_usec.
  rewrite (bind_ret_run _ _ _ _ _ (gets_run _ w)).
  rewrite (bind_ret_run _ _ _ _ _ (gets_run _ w)).
  cbv zeta. unfold write_message.
  unfold bind, serial_write_message, update, modify, ret.
  cbn [fst snd].
  destruct (_ <=? 0); reflexivity.
Qed.

Lemma stamped_carries now a sys comp :
  carries (ap.current_setpoint a)
    (SET_POSITION_TARGET_LOCAL_NED sys comp (stamped now a)).
Proof.
  unfold carries, stamped, unstamped.
  destruct (_ =? 0); reflexivity.
Qed.

Lemma write_setpoint_streams w :
  exists m, sent (snd (write_setpoint e w)) = m :: sent w /\
            carries (store w) m.
Proof.
  eexists. split; [ apply write_setpoint_sent | apply stamped_carries ].
Qed.

Lemma write_setpoint_run w :
  write_setpoint e w = (Ret tt, snd (write_setpoint e w)).
Proof.
  unfold write_setpoint, get_time_usec.
  rewrite (bind_ret_run _ _ _ _ _ (gets_run _ w)).
  rewrite (bind_ret_run _ _ _ _ _ (gets_run _ w)).
  cbv zeta. unfold write_message.
  unfold bind, serial_write_message, update, modify, ret.
  cbn [fst snd].
  destruct (_ <=? 0); reflexivity.
Qed.

(** The loop of the streaming thread transmits the store and nothing
    else, and leaves the store as it is. *)
Lemma write_thread_loop_streams fuel : forall w,
  store (snd (write_thread_loop e fuel w)) = store w /\
  exists new, sent (snd (write_thread_loop e fuel w)) = new ++ sent w /\
              Forall (carries (store w)) new.
Proof.
  induction fuel as [ | fuel IH ]; intros w; cbn [write_thread_loop];
    rewrite (bind_ret_run _ _ _ _ _ (gets_run _ w));
    destruct (ap.time_to_exit (self w)).
  - split; [ reflexivity | exists []; split; [ reflexivity | constructor ] ].
  - split; [ reflexivity | exists []; split; [ reflexivity | constructor ] ].
  - split; [ reflexivity | exists []; split; [ reflexivity | constructor ] ].
  - rewrite (bind_ret_run _ _ _ _ _ (write_setpoint_run w)).
    rewrite (bind_ret_run _ _ _ _ _ (usleep_run e _ _)). cbv beta.
    destruct (write_setpoint_streams w) as (m & Hm & Hc).
    pose proof (write_setpoint_keeps_store w) as Hk.
    set (w1 := snd (write_setpoint e w)) in *.
    set (w2 := snd (usleep e 200000 w1)).
    assert (Hs2 : store w2 = store w)
      by (unfold w2; rewrite usleep_keeps_store; exact Hk).
    destruct (IH w2) as (Hst & new & Hnew & Hall).
    split; [ rewrite Hst; exact Hs2 | ].
    exists (new ++ [m]). split.
    + rewrite Hnew. change (sent w2) with (sent w1). rewrite Hm.
      rewrite <- app_assoc. reflexivity.
    + apply Forall_app. split; [ rewrite <- Hs2; exact Hall | ].
      constructor; [ exact Hc | constructor ].
Qed.

Lemma update_run f w : update f w = (Ret tt, with_self f w).
Proof. reflexivity. Qed.

(** The thread up to the first pass of its loop: the initial setpoint is
    in the store and one message carrying it has gone to the port. *)
Lemma write_thread_enter_streams w :
  write_thread_enter e w = (Ret tt, snd (write_thread_enter e w)) /\
  store (snd (write_thread_enter e w)) = initial_setpoint e /\
  exists m, sent (snd (write_thread_enter e w)) = m :: sent w /\
            carries (initial_setpoint e) m.
Proof.
  unfold write_thread_enter.
  rewrite (bind_ret_run _ _ _ _ _ (update_run _ w)).
  rewrite (bind_ret_run _ _ _ _ _ (update_run _ _)).
  rewrite (bind_ret_run _ _ _ _ _ (write_setpoint_run _)).
  rewrite update_run. cbn [fst snd].
  set (w1 := with_self (ap.with_current_setpoint (initial_setpoint e))
               (with_self (ap.with_writing_status 2) w)).
  split; [ reflexivity | ].
  split.
  - change (store (snd (write_setpoint e w1)) = store w1).
    apply write_setpoint_keeps_store.
  - destruct (write_setpoint_streams w1) as (m & Hm & Hc).
    exists m. split; [ exact Hm | exact Hc ].
Qed.

Lemma initial_setpoint_mask_bits i :
  0 <= i < 16 ->
  Z.testbit (setpoint.type_mask (initial_setpoint e)) i =
  Z.testbit MAVLINK_MSG_SET_POSITION_TARGET_LOCAL_NED_VELOCITY i &&
  Z.testbit MAVLINK_MSG_SET_POSITION_TARGET_LOCAL_NED_YAW_RATE i.
Proof.
  intros Hi. cbn [initial_setpoint setpoint.type_mask setpoint.with_yaw_rate
    setpoint.with_velocity setpoint.with_coordinate_frame
    setpoint.with_type_mask].
  rewrite wrap16_bits by exact Hi. apply Z.land_spec.
Qed.

(** For 16-bit macros the initial mask is the OR of the two only when the
    two macros are equal. *)
Lemma initial_mask_is_or_only_if_equal :
  0 <= MAVLINK_MSG_SET_POSITION_TARGET_LOCAL_NED_VELOCITY < 2 ^ 16 ->
  0 <= MAVLINK_MSG_SET_POSITION_TARGET_LOCAL_NED_YAW_RATE < 2 ^ 16 ->
  setpoint.type_mask (initial_setpoint e) =
    Z.lor MAVLINK_MSG_SET_POSITION_TARGET_LOCAL_NED_VELOCITY
          MAVLINK_MSG_SET_POSITION_TARGET_LOCAL_NED_YAW_RATE ->
  MAVLINK_MSG_SET_POSITION_TARGET_LOCAL_NED_VELOCITY =
  MAVLINK_MSG_SET_POSITION_TARGET_LOCAL_NED_YAW_RATE.
Proof.
  intros Hv Hy Hmask. apply Z.bits_inj'. intros n Hn.
  destruct (Z.lt_ge_cases n 16) as [Hlt | Hge].
  - apply (f_equal (fun v => Z.testbit v n)) in Hmask.
    rewrite initial_setpoint_mask_bits in Hmask by lia.
    rewrite Z.lor_spec in Hmask.
    destruct (Z.testbit MAVLINK_MSG_SET_POSITION_TARGET_LOCAL_NED_VELOCITY n),
      (Z.testbit MAVLINK_MSG_SET_POSITION_TARGET_LOCAL_NED_YAW_RATE n);
      cbn in Hmask; congruence.
  - transitivity false.
    + rewrite <- (Z.mod_small _ _ Hv). apply Z.mod_pow2_bits_high. lia.
    + symmetry. rewrite <- (Z.mod_small _ _ Hy).
      apply Z.mod_pow2_bits_high. lia.
Qed.

(** C5, as the code has it.  The setpoint that [write_thread] puts into
    the store on entry has zero velocity and zero yaw rate, the local NED
    frame, and as type mask the bitwise AND of the velocity macro and the
    yaw-rate macro, whose bits are the conjunctions of the two macros'
    bits, so that it honours both groups; its other fields are whatever
    the uninitialised local held.  With no producer, the store stays at
    this setpoint and every message the thread hands to the port carries
    it, up to the time and target stamps put on the copy. *)
Theorem streaming_thread_initial_setpoint fuel w :
  (setpoint.vx (initial_setpoint e), setpoint.vy (initial_setpoint e),
   setpoint.vz (initial_setpoint e), setpoint.yaw_rate (initial_setpoint e))
  = (f_zero, f_zero, f_zero, f_zero) /\
  setpoint.coordinate_frame (initial_setpoint e) = wrap8 MAV_FRAME_LOCAL_NED /\
  setpoint.type_mask (initial_setpoint e) =
    wrap16 (Z.land MAVLINK_MSG_SET_POSITION_TARGET_LOCAL_NED_VELOCITY
                   MAVLINK_MSG_SET_POSITION_TARGET_LOCAL_NED_YAW_RATE) /\
  honours (setpoint.type_mask (initial_setpoint e))
    MAVLINK_MSG_SET_POSITION_TARGET_LOCAL_NED_VELOCITY /\
  honours (setpoint.type_mask (initial_setpoint e))
    MAVLINK_MSG_SET_POSITION_TARGET_LOCAL_NED_YAW_RATE /\
  unstamped (initial_setpoint e) =
    unstamped
      (setpoint.with_yaw_rate f_zero
         (setpoint.with_velocity f_zero f_zero f_zero
            (setpoint.with_coordinate_frame (wrap8 MAV_FRAME_LOCAL_NED)
               (setpoint.with_type_mask
                  (setpoint.type_mask (initial_setpoint e))
                  (stack_garbage e))))) /\
  ap.current_setpoint (self (snd (write_thread_enter e w))) = initial_setpoint e /\
  ap.current_setpoint (self (snd (write_thread e fuel w))) = initial_setpoint e /\
  exists first rest,
    sent (snd (write_thread e fuel w)) = rest ++ first :: sent w /\
    Forall (carries (initial_setpoint e)) (rest ++ [first]).
Proof.
  split; [ reflexivity | ]. split; [ reflexivity | ]. split; [ reflexivity | ].
  split; [ | split ].
  - intros i Hi Hbit. rewrite initial_setpoint_mask_bits by exact Hi.
    rewrite Hbit. reflexivity.
  - intros i Hi Hbit. rewrite initial_setpoint_mask_bits by exact Hi.
    rewrite Hbit. apply andb_false_r.
  - split; [ reflexivity | ].
    destruct (write_thread_enter_streams w) as (Hrun & Hst & m & Hm & Hc).
    split; [ exact Hst | ].
    unfold write_thread.
    rewrite (bind_ret_run _ _ _ _ _ Hrun).
    set (w1 := snd (write_thread_enter e w)) in *.
    destruct (write_thread_loop_streams fuel w1) as (Hst2 & new & Hnew & Hall).
    unfold bind.
    destruct (write_thread_loop e fuel w1) as [[[] | c | ] w2];
      cbn [fst snd] in *.
    + split; [ change (store w2 = initial_setpoint e); congruence | ].
      exists m, new. split.
      * change (sent w2 = new ++ m :: sent w). rewrite Hnew, Hm. reflexivity.
      * apply Forall_app. split; [ rewrite <- Hst; exact Hall | ].
        constructor; [ exact Hc | constructor ].
    + split; [ change (store w2 = initial_setpoint e); congruence | ].
      exists m, new. split.
      * rewrite Hnew, Hm. reflexivity.
      * apply Forall_app. split; [ rewrite <- Hst; exact Hall | ].
        constructor; [ exact Hc | constructor ].
    + split; [ change (store w2 = initial_setpoint e); congruence | ].
      exists m, new. split.
      * rewrite Hnew, Hm. reflexivity.
      * apply Forall_app. split; [ rewrite <- Hst; exact Hall | ].
        constructor; [ exact Hc | constructor ].
Qed.

End Streaming.

(** C5 as stated fails: with the values the header gives the two macros,
    the mask of the initial setpoint is their AND, 1479, and not their OR,
    3583. *)
Lemma initial_mask_is_not_the_or :
  setpoint.type_mask
    (initial_setpoint (hdr := reference_headers) (env_with 21 quiet)) = 1479 /\
  Z.lor (MAVLINK_MSG_SET_POSITION_TARGET_LOCAL_NED_VELOCITY
           (Headers := reference_headers))
        (MAVLINK_MSG_SET_POSITION_TARGET_LOCAL_NED_YAW_RATE
           (Headers := reference_headers)) = 3583 /\
  setpoint.type_mask
    (initial_setpoint (hdr := reference_headers) (env_with 21 quiet)) <>
  Z.lor (MAVLINK_MSG_SET_POSITION_TARGET_LOCAL_NED_VELOCITY
           (Headers := reference_headers))
        (MAVLINK_MSG_SET_POSITION_TARGET_LOCAL_NED_YAW_RATE
           (Headers := reference_headers)).
Proof. vm_compute. repeat split. discriminate. Qed.

Section Store.
Context {hdr : Headers} (e : Env).

(** Every operation but the assignments of the store keeps the store. *)
Lemma call_keeps_store o :
  assigns_setpoint o = false -> keeps store (call e o).
Proof.
  destruct o; intros Ho; try discriminate Ho; cbn [call]; unfold store.
  - apply (keeps_write_setpoint e ap.current_setpoint); reflexivity.
  - apply (keeps_enable_offboard_control e ap.current_setpoint); reflexivity.
  - apply (keeps_disable_offboard_control e ap.current_setpoint); reflexivity.
  - apply (keeps_vehicle_armed e ap.current_setpoint); reflexivity.
  - apply (keeps_vehicle_disarm e ap.current_setpoint); reflexivity.
  - apply (keeps_stop e ap.current_setpoint); reflexivity.
  - apply (keeps_handle_quit e ap.current_setpoint); reflexivity.
  - apply (keeps_usleep e ap.current_setpoint); reflexivity.
Qed.

Lemma run_keeps_store ops : forall w,
  forallb (fun o => negb (assigns_setpoint o)) ops = true ->
  store (run e ops w) = store w.
Proof.
  induction ops as [ | o ops IH ]; intros w Hops; [ reflexivity | ].
  cbn [forallb] in Hops. apply andb_prop in Hops. destruct Hops as (Ho & Hops).
  apply negb_true_iff in Ho.
  change (run e (o :: ops) w) with (run e ops (snd (call e o w))).
  rewrite IH by exact Hops. apply call_keeps_store. exact Ho.
Qed.

(** [n] calls of [write_setpoint] in a row. *)
Lemma run_write_setpoints n : forall w,
  store (run e (repeat Op_write_setpoint n) w) = store w /\
  exists new,
    sent (run e (repeat Op_write_setpoint n) w) = new ++ sent w /\
    List.length new = n /\
    Forall (carries (store w)) new.
Proof.
  induction n as [ | n IH ]; intros w.
  - split; [ reflexivity | ].
    exists []. repeat split. constructor.
  - change (run e (repeat Op_write_setpoint (S n)) w)
      with (run e (repeat Op_write_setpoint n) (snd (write_setpoint e w))).
    destruct (write_setpoint_streams e w) as (m & Hm & Hc).
    pose proof (write_setpoint_keeps_store e w) as Hk. cbv beta in Hk.
    destruct (IH (snd (write_setpoint e w))) as (Hst & new & Hnew & Hlen & Hall).
    split; [ rewrite Hst; exact Hk | ].
    exists (new ++ [m]). split; [ | split ].
    + rewrite Hnew, Hm, <- app_assoc. reflexivity.
    + rewrite length_app, Hlen. cbn. lia.
    + apply Forall_app. split.
      * unfold store in *. rewrite <- Hk. exact Hall.
      * constructor; [ exact Hc | constructor ].
Qed.

(** C8, as the code has it.  After [update_setpoint S] the store holds
    [S], and it still holds [S] after any sequence of calls that contains
    no assignment of the store: no further [update_setpoint] and no entry
    of the streaming thread, which installs its initial setpoint.  In
    particular [n] calls of [write_setpoint] leave [S] in the store: each
    hands to the port a message that carries [S], the time and the target
    ids being stamped on the copy. *)
Theorem setpoint_store_read_after_write
    (S : mavlink_set_position_target_local_ned_t) w :
  fst (update_setpoint S w) = Ret tt /\
  ap.current_setpoint (self (snd (update_setpoint S w))) = S /\
  (forall ops,
     forallb (fun o => negb (assigns_setpoint o)) ops = true ->
     ap.current_setpoint (self (run e ops (snd (update_setpoint S w)))) = S) /\
  (forall n,
     ap.current_setpoint
       (self (run e (repeat Op_write_setpoint n) (snd (update_setpoint S w))))
     = S /\
     exists new,
       sent (run e (repeat Op_write_setpoint n) (snd (update_setpoint S w))) =
         new ++ sent w /\
       List.length new = n /\
       Forall (carries S) new).
Proof.
  split; [ reflexivity | ]. split; [ reflexivity | ]. split.
  - intros ops Hops.
    exact (run_keeps_store ops (snd (update_setpoint S w)) Hops).
  - intros n.
    destruct (run_write_setpoints n (snd (update_setpoint S w)))
      as (Hst & new & Hnew & Hlen & Hall).
    split; [ exact Hst | ].
    exists new. repeat split; assumption.
Qed.

End Store.

(** C8 as stated fails: with no further [update_setpoint], a [start] after
    [update_setpoint] enters the streaming thread, whose initial setpoint
    replaces the stored one. *)
Lemma streaming_thread_replaces_the_store :
  ap.current_setpoint (self (snd (update_setpoint producer_setpoint fresh)))
    = producer_setpoint /\
  fst (start (hdr := reference_headers) (env_with 21 one_sender) 5
         (snd (update_setpoint producer_setpoint fresh))) = Ret tt /\
  ap.current_setpoint
    (self (snd (start (hdr := reference_headers) (env_with 21 one_sender) 5
                  (snd (update_setpoint producer_setpoint fresh)))))
    = initial_setpoint (hdr := reference_headers) (env_with 21 one_sender) /\
  initial_setpoint (hdr := reference_headers) (env_with 21 one_sender)
    <> producer_setpoint.
Proof. vm_compute. repeat split. discriminate. Qed.

(* ------------------------------------------------------------------ *)
(** ** The start-up handshake and the endpoint identifiers *)

Lemma stable_bind {A B} (I : World -> Prop) (m : M A) (k : A -> M B) :
  stable I m -> (forall a, stable I (k a)) -> stable I (bind m k).
Proof.
  intros Hm Hk w Hw. unfold bind.
  specialize (Hm w Hw). destruct (m w) as [[a | c | ] w1]; simpl in *.
  - apply Hk. exact Hm.
  - exact Hm.
  - exact Hm.
Qed.

Lemma keeps_stable {A B} (f : World -> B) (v : B) (m : M A) :
  keeps f m -> stable (fun w => f w = v) m.
Proof. intros Hk w Hw. rewrite Hk. exact Hw. Qed.

Section Handshake.
Context {hdr : Headers} (e : Env).

(** *** The cache holds the ids of the message handled last *)

Lemma handle_message_ids now message cm this :
  messages.sysid (fst (handle_message now message cm this)) =
    message.sysid message /\
  messages.compid (fst (handle_message now message cm this)) =
    message.compid message.
Proof.
  unfold handle_message. cbv zeta.
  repeat match goal with
         | |- context [if ?c then _ else _] => destruct c
         end; split; reflexivity.
Qed.

Lemma ingest_last batch now message cm :
  messages.sysid (ingest (batch ++ [(now, message)]) cm) = message.sysid message /\
  messages.compid (ingest (batch ++ [(now, message)]) cm) = message.compid message.
Proof.
  unfold ingest. rewrite fold_left_app. cbn [fold_left fst snd].
  apply handle_message_ids.
Qed.

Lemma cache_from_last k : forall n cm,
  cache_from e n (S k) cm = ingest (rx e (n + k)) (cache_from e n k cm).
Proof.
  induction k as [ | k IH ]; intros n cm.
  - cbn [cache_from]. rewrite Nat.add_0_r. reflexivity.
  - change (cache_from e n (S (S k)) cm)
      with (cache_from e (S n) (S k) (ingest (rx e n) cm)).
    rewrite IH. replace (S n + k)%nat with (n + S k)%nat by lia. reflexivity.
Qed.

Lemma cache_after_last k w :
  cache_after e (S k) w = ingest (rx e (sleeps w + k)) (cache_after e k w).
Proof. apply cache_from_last. Qed.

(** *** Sleeping *)

Lemma cache_after_usleep usec j w :
  cache_after e j (snd (usleep e usec w)) = cache_after e (S j) w.
Proof. reflexivity. Qed.

Lemma undisturbed_usleep usec k w :
  undisturbed e (S k) w -> undisturbed e k (snd (usleep e usec w)).
Proof.
  intros (Hexit & Hquit). split.
  - cbn. rewrite Hexit. cbn.
    specialize (Hquit O (Nat.lt_0_succ _)). rewrite Nat.add_0_r in Hquit.
    exact Hquit.
  - intros j Hj. cbn [usleep modify snd sleeps].
    replace (S (sleeps w) + j)%nat with (sleeps w + S j)%nat by lia.
    apply Hquit. lia.
Qed.

(** *** Waiting for the first message *)

Lemma await_messages_finds k : forall fuel w,
  (k <= fuel)%nat ->
  undisturbed e k w ->
  (forall j, (j < k)%nat -> messages.sysid (cache_after e j w) = 0) ->
  messages.sysid (cache_after e k w) <> 0 ->
  fst (await_messages e fuel w) = Ret true /\
  ap.current_messages (self (snd (await_messages e fuel w))) = cache_after e k w.
Proof.
  induction k as [ | k IH ]; intros fuel w Hfuel Hund Hno Hyes.
  - change (cache_after e 0 w) with (ap.current_messages (self w)) in *.
    apply Z.eqb_neq in Hyes.
    destruct fuel; cbn [await_messages];
      rewrite (bind_ret_run _ _ _ _ _ (gets_run _ w)); rewrite Hyes;
      split; reflexivity.
  - destruct fuel as [ | fuel ]; [ lia | ].
    cbn [await_messages].
    rewrite (bind_ret_run _ _ _ _ _ (gets_run _ w)).
    assert (H0 := Hno O (Nat.lt_0_succ _)).
    change (cache_after e 0 w) with (ap.current_messages (self w)) in H0.
    rewrite H0. change (negb (0 =? 0)) with false. cbv iota.
    rewrite (bind_ret_run _ _ _ _ _ (gets_run _ w)).
    rewrite (proj1 Hund). cbv iota.
    rewrite (bind_ret_run _ _ _ _ _ (usleep_run e _ w)). cbv beta.
    destruct (IH fuel (snd (usleep e 500000 w))) as (Hr & Hc).
    + lia.
    + apply undisturbed_usleep. exact Hund.
    + intros j Hj. rewrite cache_after_usleep. apply Hno. lia.
    + rewrite cache_after_usleep. exact Hyes.
    + split; [ exact Hr | ]. rewrite Hc. apply cache_after_usleep.
Qed.

(** *** Adopting the ids *)

Lemma adopt_ids_run w :
  adopt_ids w = (Ret tt, snd (adopt_ids w)) /\
  ap.system_id (self (snd (adopt_ids w))) =
    (if ap.system_id (self w) =? 0
     then messages.sysid (ap.current_messages (self w))
     else ap.system_id (self w)) /\
  ap.autopilot_id (self (snd (adopt_ids w))) =
    (if ap.autopilot_id (self w) =? 0
     then messages.compid (ap.current_messages (self w))
     else ap.autopilot_id (self w)).
Proof.
  unfold adopt_ids.
  rewrite (bind_ret_run _ _ _ _ _ (gets_run _ w)).
  destruct (ap.system_id (self w) =? 0);
    destruct (ap.autopilot_id (self w) =? 0) eqn:E;
    unfold bind, update, modify, printf, gets, ret; cbn;
    rewrite ?E; cbn; repeat split.
Qed.

(** *** [start] *)

Lemma pthread_create_read_frame w :
  sleeps (snd (pthread_create_read e w)) = sleeps w /\
  ap.current_messages (self (snd (pthread_create_read e w))) =
    ap.current_messages (self w) /\
  ap.time_to_exit (self (snd (pthread_create_read e w))) =
    ap.time_to_exit (self w).
Proof.
  unfold pthread_create_read, start_read_thread, bind, gets.
  destruct (read_thread_rc e =? 0); cbn; [ | repeat split ].
  destruct (negb _); cbn; repeat split.
Qed.

Lemma pthread_create_read_run w :
  read_thread_rc e = 0 ->
  pthread_create_read e w = (Ret 0, snd (pthread_create_read e w)).
Proof.
  intros Hrc. unfold pthread_create_read, start_read_thread, bind, gets.
  rewrite Hrc. cbn. destruct (negb _); reflexivity.
Qed.

(** With an open port, a created read thread and a first message seen at
    poll [k], [start] gets to its handshake with the cache of that poll. *)
Lemma start_reaches_handshake k fuel w :
  serial.status (serial_port w) = 1 ->
  read_thread_rc e = 0 ->
  (k <= fuel)%nat ->
  undisturbed e k w ->
  (forall j, (j < k)%nat -> messages.sysid (cache_after e j w) = 0) ->
  messages.sysid (cache_after e k w) <> 0 ->
  exists w4,
    start e fuel w = start_handshake e fuel w4 /\
    ap.current_messages (self w4) = cache_after e k w /\
    ap.system_id (self w4) = ap.system_id (self w) /\
    ap.autopilot_id (self w4) = ap.autopilot_id (self w).
Proof.
  intros Hopen Hrc Hfuel Hund Hno Hyes.
  unfold start.
  rewrite (bind_ret_run _ _ _ _ _ (gets_run _ w)).
  rewrite Hopen. change (negb (1 =? 1)) with false. cbv iota.
  rewrite (bind_ret_run _ _ _ _ _ (printf_run _ _ w)).
  rewrite (bind_ret_run _ _ _ _ _ (pthread_create_read_run _ Hrc)).
  change (negb (0 =? 0)) with false. cbv iota.
  rewrite (bind_ret_run _ _ _ _ _ (printf_run _ _ _)).
  rewrite (bind_ret_run _ _ _ _ _ (printf_run _ _ _)).
  set (w1 := snd (printf "START READ THREAD \n" [] w)).
  set (w3 := snd (printf "CHECK FOR MESSAGES\n" []
                    (snd (printf "\n" [] (snd (pthread_create_read e w1)))))).
  destruct (pthread_create_read_frame w1) as (Hsl & Hcm & Hte).
  assert (Hcache : forall j, cache_after e j w3 = cache_after e j w).
  { intros j. unfold cache_after.
    change (sleeps w3) with (sleeps (snd (pthread_create_read e w1))).
    change (ap.current_messages (self w3))
      with (ap.current_messages (self (snd (pthread_create_read e w1)))).
    rewrite Hsl, Hcm. reflexivity. }
  assert (Hund3 : undisturbed e k w3).
  { destruct Hund as (Hexit & Hquit). split.
    - change (ap.time_to_exit (self w3))
        with (ap.time_to_exit (self (snd (pthread_create_read e w1)))).
      rewrite Hte. exact Hexit.
    - intros j Hj.
      change (sleeps w3) with (sleeps (snd (pthread_create_read e w1))).
      rewrite Hsl. apply Hquit. exact Hj. }
  destruct (await_messages_finds k fuel w3 Hfuel Hund3) as (Hr & Hc).
  { intros j Hj. rewrite Hcache. apply Hno. exact Hj. }
  { rewrite Hcache. exact Hyes. }
  pose proof (keeps_await_messages e ap.system_id) as Ksys.
  pose proof (keeps_await_messages e ap.autopilot_id) as Kaut.
  pose proof (keeps_pthread_create_read e ap.system_id) as Psys.
  pose proof (keeps_pthread_create_read e ap.autopilot_id) as Paut.
  exists (snd (await_messages e fuel w3)).
  split; [ | split; [ | split ] ].
  - unfold bind at 1.
    destruct (await_messages e fuel w3) as [o w4]. cbn [fst snd] in *.
    subst o. reflexivity.
  - rewrite Hc. apply Hcache.
  - rewrite Ksys by reflexivity.
    change (ap.system_id (self w3))
      with (ap.system_id (self (snd (pthread_create_read e w1)))).
    rewrite Psys by reflexivity. reflexivity.
  - rewrite Kaut by reflexivity.
    change (ap.autopilot_id (self w3))
      with (ap.autopilot_id (self (snd (pthread_create_read e w1)))).
    rewrite Paut by reflexivity. reflexivity.
Qed.

Lemma start_handshake_ids fuel w :
  ap.system_id (self (snd (start_handshake e fuel w))) =
    (if ap.system_id (self w) =? 0
     then messages.sysid (ap.current_messages (self w))
     else ap.system_id (self w)) /\
  ap.autopilot_id (self (snd (start_handshake e fuel w))) =
    (if ap.autopilot_id (self w) =? 0
     then messages.compid (ap.current_messages (self w))
     else ap.autopilot_id (self w)).
Proof.
  unfold start_handshake.
  rewrite (bind_ret_run _ _ _ _ _ (printf_run _ _ _)).
  rewrite (bind_ret_run _ _ _ _ _ (printf_run _ _ _)).
  set (w2 := snd (printf "\n" [] (snd (printf "Found\n" [] w)))).
  destruct (adopt_ids_run w2) as (Hrun & Hsys & Haut).
  rewrite (bind_ret_run _ _ _ _ _ Hrun).
  pose proof (keeps_start_streaming e ap.system_id) as Ksys.
  pose proof (keeps_start_streaming e ap.autopilot_id) as Kaut.
  rewrite Ksys, Kaut by reflexivity.
  split; [ exact Hsys | exact Haut ].
Qed.

(** *** A configured id is never assigned again *)

Ltac stable_walk p adopt :=
  repeat (cbv zeta;
    match goal with
    | |- stable _ (bind _ _) => apply stable_bind; [ | intros ? ]
    | |- stable _ (if ?c then _ else _) => destruct c
    | |- stable _ adopt_ids => exact adopt
    | |- stable _ _ =>
        apply (keeps_stable (fun w => p (self w)));
        first [ apply keeps_ret | apply keeps_throw | apply keeps_gets
              | apply (keeps_printf p) | apply (keeps_eprintf p)
              | apply (keeps_pthread_create_read e p); reflexivity
              | apply (keeps_await_messages e p); reflexivity
              | apply (keeps_start_streaming e p); reflexivity ]
    end).

Lemma adopt_ids_keeps_system_id v :
  v <> 0 -> stable (fun w => ap.system_id (self w) = v) adopt_ids.
Proof.
  intros Hv w Hw. destruct (adopt_ids_run w) as (_ & Hsys & _).
  rewrite Hsys, Hw. destruct (Z.eqb_spec v 0); [ contradiction | reflexivity ].
Qed.

Lemma adopt_ids_keeps_autopilot_id v :
  v <> 0 -> stable (fun w => ap.autopilot_id (self w) = v) adopt_ids.
Proof.
  intros Hv w Hw. destruct (adopt_ids_run w) as (_ & _ & Haut).
  rewrite Haut, Hw. destruct (Z.eqb_spec v 0); [ contradiction | reflexivity ].
Qed.

Lemma start_keeps_system_id fuel v :
  v <> 0 -> stable (fun w => ap.system_id (self w) = v) (start e fuel).
Proof.
  intros Hv. pose proof (adopt_ids_keeps_system_id v Hv) as Hadopt.
  unfold start, start_handshake. stable_walk ap.system_id Hadopt.
Qed.

Lemma start_keeps_autopilot_id fuel v :
  v <> 0 -> stable (fun w => ap.autopilot_id (self w) = v) (start e fuel).
Proof.
  intros Hv. pose proof (adopt_ids_keeps_autopilot_id v Hv) as Hadopt.
  unfold start, start_handshake. stable_walk ap.autopilot_id Hadopt.
Qed.

Lemma call_keeps_system_id o v :
  v <> 0 -> stable (fun w => ap.system_id (self w) = v) (call e o).
Proof.
  intros Hv. destruct o; cbn [call];
    try (apply start_keeps_system_id; exact Hv);
    apply (keeps_stable (fun w => ap.system_id (self w))).
  - apply (keeps_update_setpoint ap.system_id); reflexivity.
  - apply (keeps_write_setpoint e ap.system_id); reflexivity.
  - apply (keeps_write_thread e ap.system_id); reflexivity.
  - apply (keeps_enable_offboard_control e ap.system_id); reflexivity.
  - apply (keeps_disable_offboard_control e ap.system_id); reflexivity.
  - apply (keeps_vehicle_armed e ap.system_id); reflexivity.
  - apply (keeps_vehicle_disarm e ap.system_id); reflexivity.
  - apply (keeps_stop e ap.system_id); reflexivity.
  - apply (keeps_handle_quit e ap.system_id); reflexivity.
  - apply (keeps_usleep e ap.system_id); reflexivity.
Qed.

Lemma call_keeps_autopilot_id o v :
  v <> 0 -> stable (fun w => ap.autopilot_id (self w) = v) (call e o).
Proof.
  intros Hv. destruct o; cbn [call];
    try (apply start_keeps_autopilot_id; exact Hv);
    apply (keeps_stable (fun w => ap.autopilot_id (self w))).
  - apply (keeps_update_setpoint ap.autopilot_id); reflexivity.
  - apply (keeps_write_setpoint e ap.autopilot_id); reflexivity.
  - apply (keeps_write_thread e ap.autopilot_id); reflexivity.
  - apply (keeps_enable_offboard_control e ap.autopilot_id); reflexivity.
  - apply (keeps_disable_offboard_control e ap.autopilot_id); reflexivity.
  - apply (keeps_vehicle_armed e ap.autopilot_id); reflexivity.
  - apply (keeps_vehicle_disarm e ap.autopilot_id); reflexivity.
  - apply (keeps_stop e ap.autopilot_id); reflexivity.
  - apply (keeps_handle_quit e ap.autopilot_id); reflexivity.
  - apply (keeps_usleep e ap.autopilot_id); reflexivity.
Qed.

Lemma run_stable (I : World -> Prop) ops :
  (forall o, stable I (call e o)) -> forall w, I w -> I (run e ops w).
Proof.
  intros Hcall. induction ops as [ | o ops IH ]; intros w Hw; [ exact Hw | ].
  change (run e (o :: ops) w) with (run e ops (snd (call e o w))).
  apply IH. apply Hcall. exact Hw.
Qed.

Lemma ingest_nil cm : ingest [] cm = cm.
Proof. reflexivity. Qed.

(** C7, as the code has it.  [start] polls the cache until its sender id
    is nonzero and then adopts, for each of [system_id] and [autopilot_id]
    that is still zero, the sender id the cache holds at that poll; an id
    configured before is left as it is.  The cache holds the ids of the
    message the read thread handled last before the poll, which are the
    first message's when all messages handled until then have one sender.
    No call ever assigns an id that is nonzero. *)
Theorem start_adopts_the_cached_ids fuel k w :
  serial.status (serial_port w) = 1 ->
  read_thread_rc e = 0 ->
  (k <= fuel)%nat ->
  undisturbed e k w ->
  (forall j, (j < k)%nat -> messages.sysid (cache_after e j w) = 0) ->
  messages.sysid (cache_after e k w) <> 0 ->
  ap.system_id (self (snd (start e fuel w))) =
    (if ap.system_id (self w) =? 0
     then messages.sysid (cache_after e k w)
     else ap.system_id (self w)) /\
  ap.autopilot_id (self (snd (start e fuel w))) =
    (if ap.autopilot_id (self w) =? 0
     then messages.compid (cache_after e k w)
     else ap.autopilot_id (self w)) /\
  (forall k' batch now message,
     k = S k' ->
     rx e (sleeps w + k') = batch ++ [(now, message)] ->
     messages.sysid (cache_after e k w) = message.sysid message /\
     messages.compid (cache_after e k w) = message.compid message) /\
  (forall k' s c,
     k = S k' ->
     (forall tm, In tm (rx e (sleeps w + k')) ->
        message.sysid (snd tm) = s /\ message.compid (snd tm) = c) ->
     messages.sysid (cache_after e k w) = s /\
     messages.compid (cache_after e k w) = c) /\
  (forall w0 ops,
     ap.system_id (self w0) <> 0 ->
     ap.system_id (self (run e ops w0)) = ap.system_id (self w0)) /\
  (forall w0 ops,
     ap.autopilot_id (self w0) <> 0 ->
     ap.autopilot_id (self (run e ops w0)) = ap.autopilot_id (self w0)).
Proof.
  intros Hopen Hrc Hfuel Hund Hno Hyes.
  destruct (start_reaches_handshake k fuel w Hopen Hrc Hfuel Hund Hno Hyes)
    as (w4 & Hstart & Hcm & Hsys & Haut).
  destruct (start_handshake_ids fuel w4) as (Hs & Ha).
  rewrite Hstart, Hs, Ha, Hcm, Hsys, Haut.
  split; [ reflexivity | ]. split; [ reflexivity | ].
  assert (Hlast : forall k' batch now message,
     k = S k' ->
     rx e (sleeps w + k') = batch ++ [(now, message)] ->
     messages.sysid (cache_after e k w) = message.sysid message /\
     messages.compid (cache_after e k w) = message.compid message).
  { intros k' batch now message -> Hrx.
    rewrite cache_after_last, Hrx. apply ingest_last. }
  split; [ exact Hlast | ]. split; [ | split ].
  - intros k' s c -> Hone.
    destruct (rx e (sleeps w + k')) as [ | tm0 rest ] eqn:Hrx.
    + exfalso. apply Hyes. rewrite cache_after_last, Hrx, ingest_nil.
      apply Hno. lia.
    + destruct (@exists_last _ (tm0 :: rest)) as (batch & (now, message) & Heq);
        [ discriminate | ].
      destruct (Hlast k' batch now message eq_refl) as (H1 & H2);
        [ rewrite Hrx; exact Heq | ].
      destruct (Hone (now, message)) as (H3 & H4).
      { rewrite Heq. apply in_or_app. right. left. reflexivity. }
      cbn [snd] in H3, H4. rewrite H1, H2. split; assumption.
  - intros w0 ops Hw0.
    apply (run_stable (fun w => ap.system_id (self w) = ap.system_id (self w0))
             ops); [ | reflexivity ].
    intros o. apply call_keeps_system_id. exact Hw0.
  - intros w0 ops Hw0.
    apply (run_stable
             (fun w => ap.autopilot_id (self w) = ap.autopilot_id (self w0))
             ops); [ | reflexivity ].
    intros o. apply call_keeps_autopilot_id. exact Hw0.
Qed.

End Handshake.

(** C7 as stated fails: the heartbeat of (1, 50) is the first message
    received, a message of (2, 60) follows before [start] polls again, and
    [start] adopts (2, 60). *)
Lemma start_adopts_a_later_sender :
  hd_error (two_senders 0) = Some (1100000, heartbeat_from_1_50 0 3) /\
  message.sysid (heartbeat_from_1_50 0 3) = 1 /\
  message.compid (heartbeat_from_1_50 0 3) = 50 /\
  ap.system_id (self fresh) = 0 /\
  ap.autopilot_id (self fresh) = 0 /\
  fst (start (hdr := reference_headers) (env_with 21 two_senders) 5 fresh)
    = Ret tt /\
  ap.system_id
    (self (snd (start (hdr := reference_headers)
                  (env_with 21 two_senders) 5 fresh))) = 2 /\
  ap.autopilot_id
    (self (snd (start (hdr := reference_headers)
                  (env_with 21 two_senders) 5 fresh))) = 60.
Proof. vm_compute. repeat split. Qed.

(* ------------------------------------------------------------------ *)
(** ** The theorems on the reference values *)

Lemma enable_offboard_control_third_check_at_reference :
  fst (enable_offboard_control (hdr := reference_headers)
         (env_with 21 offboard_in_third_sleep) fresh) = Ret tt /\
  ap.control_status
    (self (snd (enable_offboard_control (hdr := reference_headers)
                  (env_with 21 offboard_in_third_sleep) fresh))) = 1 /\
  sent (snd (enable_offboard_control (hdr := reference_headers)
               (env_with 21 offboard_in_third_sleep) fresh)) =
    [enable_command (hdr := reference_headers) fresh;
     enable_command (hdr := reference_headers) fresh;
     enable_command (hdr := reference_headers) fresh].
Proof.
  apply (enable_offboard_control_third_check (hdr := reference_headers)
           (env_with 21 offboard_in_third_sleep) fresh).
  - reflexivity.
  - intros n m _. reflexivity.
  - vm_compute. reflexivity.
  - vm_compute. reflexivity.
  - vm_compute. reflexivity.
Defined.

Lemma vehicle_armed_bounded_retries_at_reference :
  (fst (vehicle_armed (hdr := reference_headers) (env_with 21 quiet) fresh)
     = Throw 1 /\
   sent (snd (vehicle_armed (hdr := reference_headers)
                (env_with 21 quiet) fresh)) =
     repeat (arm_command (hdr := reference_headers) fresh) 50) /\
  (fst (vehicle_armed (hdr := reference_headers)
          (env_with 21 active_in_second_sleep) fresh) = Ret tt /\
   sent (snd (vehicle_armed (hdr := reference_headers)
                (env_with 21 active_in_second_sleep) fresh)) =
     repeat (arm_command (hdr := reference_headers) fresh) 2).
Proof.
  split.
  - destruct (vehicle_armed_bounded_retries (hdr := reference_headers)
                (env_with 21 quiet) fresh) as (_ & Hnever & _).
    destruct Hnever as (Hr & Hs).
    + intros n m _. reflexivity.
    + intros j Hj.
      do 50 (destruct j as [ | j ]; [ vm_compute; reflexivity | ]). lia.
    + split; [ exact Hr | ]. rewrite Hs. apply app_nil_r.
  - destruct (vehicle_armed_bounded_retries (hdr := reference_headers)
                (env_with 21 active_in_second_sleep) fresh) as (_ & _ & Hat).
    destruct (Hat 2%nat) as (Hr & Hs).
    + intros n m _. reflexivity.
    + lia.
    + intros j Hj.
      do 2 (destruct j as [ | j ]; [ vm_compute; reflexivity | ]). lia.
    + vm_compute. reflexivity.
    + split; [ exact Hr | ]. rewrite Hs. apply app_nil_r.
Defined.

Lemma enable_offboard_control_when_engaged_at_reference :
  ap.control_status (self engaged) <> 0 /\
  enable_offboard_control (hdr := reference_headers) (env_with 21 quiet) engaged
  = (Ret tt, engaged).
Proof.
  split; [ vm_compute; discriminate | ].
  apply (enable_offboard_control_when_engaged (hdr := reference_headers)).
  vm_compute. discriminate.
Defined.

Lemma command_write_zero_goes_on_negative_throws_at_reference :
  (fst (enable_offboard_control (hdr := reference_headers)
          (env_with 0 offboard_in_third_sleep) fresh) = Ret tt /\
   sent (snd (enable_offboard_control (hdr := reference_headers)
                (env_with 0 offboard_in_third_sleep) fresh)) =
     repeat (enable_command (hdr := reference_headers) fresh) 3) /\
  fst (vehicle_armed (hdr := reference_headers) first_write_negative fresh)
    = Throw 1.
Proof.
  split.
  - destruct (command_write_zero_goes_on_negative_throws
                (hdr := reference_headers)
                (env_with 0 offboard_in_third_sleep) fresh) as (Hgo & _).
    destruct (Hgo 2%nat) as (Hr & Hs).
    + lia.
    + reflexivity.
    + intros j _. vm_compute. discriminate.
    + intros j Hj. assert (j = 1 \/ j = 2)%nat as [-> | ->] by lia;
        vm_compute; reflexivity.
    + vm_compute. reflexivity.
    + split; [ exact Hr | ]. rewrite Hs. apply app_nil_r.
  - destruct (command_write_zero_goes_on_negative_throws
                (hdr := reference_headers) first_write_negative fresh)
      as (_ & _ & _ & Hneg).
    destruct (Hneg 0%nat) as (Hr & _).
    + lia.
    + intros j Hj. lia.
    + intros j Hj. assert (j = 0)%nat as -> by lia. vm_compute. reflexivity.
    + vm_compute. reflexivity.
    + exact Hr.
Defined.

Lemma yaw_keeps_the_group_set_before_at_reference :
  Z.testbit
    (setpoint.type_mask
       (set_yaw (hdr := reference_headers) f_one
          (set_position (hdr := reference_headers) f_one f_zero f_one
             zero_setpoint))) 0 = false /\
  Z.testbit
    (setpoint.type_mask
       (set_yaw (hdr := reference_headers) f_one
          (set_position (hdr := reference_headers) f_one f_zero f_one
             zero_setpoint))) 10 = false.
Proof.
  destruct (yaw_keeps_the_group_set_before (hdr := reference_headers)
              f_one f_zero f_one f_zero f_zero f_zero f_one f_zero
              zero_setpoint) as (((_ & Hpos & Hyaw) & _) & _).
  split.
  - apply Hpos; [ lia | reflexivity ].
  - apply Hyaw; [ lia | reflexivity ].
Defined.

Lemma start_adopts_the_cached_ids_at_reference :
  ap.system_id
    (self (snd (start (hdr := reference_headers)
                  (env_with 21 one_sender) 5 fresh))) = 1 /\
  ap.autopilot_id
    (self (snd (start (hdr := reference_headers)
                  (env_with 21 one_sender) 5 fresh))) = 50.
Proof.
  destruct (start_adopts_the_cached_ids (hdr := reference_headers)
              (env_with 21 one_sender) 5 1 fresh) as (Hsys & Haut & _).
  - reflexivity.
  - reflexivity.
  - lia.
  - split; [ reflexivity | intros j _; reflexivity ].
  - intros j Hj. assert (j = 0)%nat as -> by lia. reflexivity.
  - vm_compute. discriminate.
  - split; [ exact Hsys | exact Haut ].
Defined.

Lemma setpoint_store_read_after_write_at_reference :
  ap.current_setpoint
    (self (run (hdr := reference_headers) (env_with 21 quiet)
             [Op_write_setpoint; Op_enable_offboard_control; Op_usleep 5;
              Op_write_setpoint; Op_vehicle_disarm]
             (snd (update_setpoint producer_setpoint fresh))))
  = producer_setpoint.
Proof.
  destruct (setpoint_store_read_after_write (hdr := reference_headers)
              (env_with 21 quiet) producer_setpoint fresh)
    as (_ & _ & Hops & _).
  apply Hops. reflexivity.
Defined.

Lemma unrecognized_message_is_dropped_at_reference :
  ~ In (message.msgid unknown_message) (recognized (hdr := reference_headers)) /\
  fst (handle_message (hdr := reference_headers) 1500000 unknown_message
         zero_messages time_stamps.reset_timestamps) =
  messages.with_ids 1 50 zero_messages.
Proof.
  assert (Hid : ~ In (message.msgid unknown_message)
                    (recognized (hdr := reference_headers))).
  { cbn. intros H.
    repeat (destruct H as [ H | H ]; [ discriminate H | ]). exact H. }
  split; [ exact Hid | ].
  exact (proj1 (unrecognized_message_is_dropped (hdr := reference_headers)
                  1500000 unknown_message zero_messages
                  time_stamps.reset_timestamps Hid)).
Defined.

Lemma disable_offboard_control_tests_nonzero_at_reference :
  ap.control_status (self engaged) = 1 /\
  port_write (env_with (-1) quiet) (next_write engaged)
    (disable_command (hdr := reference_headers) engaged) = -1 /\
  ap.control_status
    (self (snd (disable_offboard_control (hdr := reference_headers)
                  (env_with (-1) quiet) engaged))) = 0.
Proof.
  split; [ reflexivity | ]. split; [ reflexivity | ].
  destruct (disable_offboard_control_tests_nonzero (hdr := reference_headers)
              (env_with (-1) quiet) engaged eq_refl) as (_ & _ & _ & Hneg & _).
  apply Hneg. reflexivity.
Defined.

(* ================================================================== *)
(** * Further properties of the code *)

(* ------------------------------------------------------------------ *)
(** ** The retry loops in every run *)

Section RetryOutcomes.
Context {hdr : Headers} (e : Env).

(** The guard of [enable_offboard_control]. *)
Lemma enable_offboard_control_guarded w :
  ap.control_status (self w) <> 0 ->
  enable_offboard_control e w = (Ret tt, w).
Proof.
  intros Hcs. unfold enable_offboard_control.
  rewrite (bind_ret_run _ _ _ _ _ (gets_run _ w)).
  destruct (Z.eqb_spec (ap.control_status (self w)) 0) as [E | _];
    [ contradiction | reflexivity ].
Qed.

(** All [n] passes of the enable loop are made when no check succeeds. *)
Lemma enable_offboard_loop_exhausted n : forall w,
  (forall j, (j < n)%nat ->
     0 <= port_write e (next_write w + j) (enable_command w)) ->
  (forall j, (1 <= j <= n)%nat -> offboard_in (cache_after e j w) = false) ->
  fst (enable_offboard_loop e n w) = Ret tt /\
  ap.control_status (self (snd (enable_offboard_loop e n w))) =
    ap.control_status (self w) /\
  sent (snd (enable_offboard_loop e n w)) =
    repeat (enable_command w) n ++ sent w.
Proof.
  induction n as [ | n IH ]; intros w Hlen Hno.
  - repeat split.
  - rewrite enable_offboard_loop_pass.
    assert (H0 := Hlen O (Nat.lt_0_succ _)). rewrite Nat.add_0_r in H0.
    apply Z.ltb_ge in H0. rewrite H0. rewrite (Hno 1%nat) by lia.
    destruct (IH (enable_pass e w)) as (Hr & Hc & Hs).
    + intros j Hj. rewrite next_write_enable_pass, enable_command_enable_pass.
      replace (S (next_write w) + j)%nat with (next_write w + S j)%nat by lia.
      apply Hlen. lia.
    + intros j Hj. rewrite cache_after_enable_pass. apply Hno. lia.
    + split; [ exact Hr | ]. split; [ rewrite Hc; reflexivity | ].
      rewrite Hs, sent_enable_pass, enable_command_enable_pass, repeat_shift.
      reflexivity.
Qed.

(** X1.  From [control_status] clear, when no write of the command returns
    a negative length and the cached heartbeat is not in offboard mode at
    any of the 50 checks, [enable_offboard_control] hands exactly 50 enable
    commands to the port, prints that enabling failed, throws
    [EXIT_FAILURE] and leaves [control_status] clear. *)
Theorem enable_offboard_control_exhausts w :
  ap.control_status (self w) = 0 ->
  (forall j, (j < 50)%nat ->
     0 <= port_write e (next_write w + j) (enable_command w)) ->
  (forall j, (1 <= j <= 50)%nat -> offboard_in (cache_after e j w) = false) ->
  fst (enable_offboard_control e w) = Throw EXIT_FAILURE /\
  ap.control_status (self (snd (enable_offboard_control e w))) = 0 /\
  sent (snd (enable_offboard_control e w)) =
    repeat (enable_command w) 50 ++ sent w /\
  hd_error (console (snd (enable_offboard_control e w))) =
    Some (stdout, "Enable offboard mode failed!\n"%string, []).
Proof.
  intros Hcs Hlen Hno.
  rewrite enable_offboard_control_runs by exact Hcs. cbv zeta.
  set (w0 := snd (printf "Enable Offboaed Mode...\n" [] w)).
  destruct (enable_offboard_loop_exhausted enable_trytimes w0 Hlen Hno)
    as (Hr & Hc & Hs).
  rewrite Hr, Hc. change (ap.control_status (self w0)) with
    (ap.control_status (self w)). rewrite Hcs.
  change (0 =? 0) with true. cbv iota. cbn [fst snd].
  split; [ reflexivity | ]. split; [ | split ].
  - change (ap.control_status
              (self (snd (enable_offboard_loop e enable_trytimes w0))) = 0).
    rewrite Hc. exact Hcs.
  - rewrite sent_printf. exact Hs.
  - reflexivity.
Qed.

(** The enable loop in every run: what it sends and how it can end. *)
Lemma enable_offboard_loop_outcome n : forall w,
  (exists k, (k <= n)%nat /\
     sent (snd (enable_offboard_loop e n w)) =
       repeat (enable_command w) k ++ sent w) /\
  ((fst (enable_offboard_loop e n w) = Ret tt /\
    ap.control_status (self (snd (enable_offboard_loop e n w))) =
      ap.control_status (self w)) \/
   (fst (enable_offboard_loop e n w) = Ret tt /\
    ap.control_status (self (snd (enable_offboard_loop e n w))) = 1 /\
    offboard_in
      (ap.current_messages (self (snd (enable_offboard_loop e n w)))) = true) \/
   (fst (enable_offboard_loop e n w) = Throw EXIT_FAILURE /\
    ap.control_status (self (snd (enable_offboard_loop e n w))) =
      ap.control_status (self w))).
Proof.
  induction n as [ | n IH ]; intros w.
  - split; [ exists O; split; [ lia | reflexivity ] | ].
    left. split; reflexivity.
  - rewrite enable_offboard_loop_pass.
    destruct (_ <? 0).
    + split; [ exists 1%nat; split; [ lia | reflexivity ] | ].
      right. right. split; reflexivity.
    + destruct (offboard_in (cache_after e 1 w)) eqn:Hoff.
      * split; [ exists 1%nat; split; [ lia | reflexivity ] | ].
        right. left. split; [ reflexivity | ]. split; [ reflexivity | ].
        exact Hoff.
      * destruct (IH (enable_pass e w)) as ((k & Hk & Hs) & Hout).
        split.
        -- exists (S k). split; [ lia | ].
           rewrite Hs, sent_enable_pass, enable_command_enable_pass,
             repeat_shift. reflexivity.
        -- rewrite control_status_enable_pass in Hout. exact Hout.
Qed.

(** X2.  In every run [enable_offboard_control] hands at most 50 messages
    to the port, each the enable command, and either returns normally or
    throws [EXIT_FAILURE].  It returns normally only with [control_status]
    set; when it started with [control_status] clear, a normal return
    means that [control_status] is 1 and that the cached heartbeat is in
    offboard mode at the return.  After a throw [control_status] is still
    clear. *)
Theorem enable_offboard_control_outcomes w :
  (exists k, (k <= 50)%nat /\
     sent (snd (enable_offboard_control e w)) =
       repeat (enable_command w) k ++ sent w) /\
  (fst (enable_offboard_control e w) = Ret tt \/
   fst (enable_offboard_control e w) = Throw EXIT_FAILURE) /\
  (fst (enable_offboard_control e w) = Ret tt ->
   ap.control_status (self (snd (enable_offboard_control e w))) <> 0) /\
  (fst (enable_offboard_control e w) = Ret tt ->
   ap.control_status (self w) = 0 ->
   ap.control_status (self (snd (enable_offboard_control e w))) = 1 /\
   offboard_in
     (ap.current_messages (self (snd (enable_offboard_control e w)))) = true) /\
  (fst (enable_offboard_control e w) = Throw EXIT_FAILURE ->
   ap.control_status (self (snd (enable_offboard_control e w))) = 0).
Proof.
  destruct (Z.eq_dec (ap.control_status (self w)) 0) as [Hcs | Hcs].
  - rewrite enable_offboard_control_runs by exact Hcs. cbv zeta.
    set (w0 := snd (printf "Enable Offboaed Mode...\n" [] w)).
    destruct (enable_offboard_loop_outcome enable_trytimes w0)
      as ((k & Hk & Hs) & Hout).
    change (ap.control_status (self w0)) with (ap.control_status (self w))
      in Hout.
    change (sent w0) with (sent w) in Hs.
    change (enable_command w0) with (enable_command w) in Hs.
    destruct (enable_offboard_loop e enable_trytimes w0) as [o w1].
    cbn [fst snd] in *.
    destruct Hout as [(Hr & Hc) | [(Hr & Hc & Hoff) | (Hr & Hc)]]; subst o;
      cbn [fst snd].
    + rewrite Hc, Hcs. change (0 =? 0) with true. cbv iota. cbn [fst snd].
      split; [ exists k; split; [ exact Hk | rewrite sent_printf; exact Hs ] | ].
      split; [ right; reflexivity | ].
      split; [ discriminate | ]. split; [ discriminate | ].
      intros _. change (ap.control_status (self w1) = 0). congruence.
    + rewrite Hc. change (1 =? 0) with false. cbv iota. cbn [fst snd].
      split; [ exists k; split; [ exact Hk | rewrite sent_printf; exact Hs ] | ].
      split; [ left; reflexivity | ].
      change (ap.control_status (self (snd (printf "\n" [] w1))))
        with (ap.control_status (self w1)).
      change (ap.current_messages (self (snd (printf "\n" [] w1))))
        with (ap.current_messages (self w1)).
      rewrite Hc, Hoff.
      split; [ discriminate | ]. split; [ auto | discriminate ].
    + split; [ exists k; split; [ exact Hk | exact Hs ] | ].
      split; [ right; reflexivity | ].
      split; [ discriminate | ]. split; [ discriminate | ].
      intros _. congruence.
  - rewrite (enable_offboard_control_guarded w Hcs). cbn [fst snd].
    split; [ exists O; split; [ lia | reflexivity ] | ].
    split; [ left; reflexivity | ].
    split; [ intros _; exact Hcs | ].
    split; [ intros _ H0; contradiction | discriminate ].
Qed.

(** The arm loop in every run: how it can end. *)
Lemma vehicle_armed_loop_outcome n : forall s w,
  (exists s', fst (vehicle_armed_loop e n s w) = Ret (s', true) /\
     armed_in (ap.current_messages (self (snd (vehicle_armed_loop e n s w))))
       = true) \/
  (exists s', fst (vehicle_armed_loop e n s w) = Ret (s', false)) \/
  fst (vehicle_armed_loop e n s w) = Throw EXIT_FAILURE.
Proof.
  induction n as [ | n IH ]; intros s w.
  - right. left. exists s. reflexivity.
  - rewrite vehicle_armed_loop_pass.
    change (cache_after e 0 w) with (ap.current_messages (self w)).
    destruct (armed_in (ap.current_messages (self w))) eqn:Harmed.
    + left. exists s. split; [ reflexivity | exact Harmed ].
    + destruct (_ <? 0); [ right; right; reflexivity | apply IH ].
Qed.

(** X3.  In every run [vehicle_armed] either returns normally or throws
    [EXIT_FAILURE], and it returns normally only when the cached heartbeat
    is active at the return. *)
Theorem vehicle_armed_outcomes w :
  (fst (vehicle_armed e w) = Ret tt \/
   fst (vehicle_armed e w) = Throw EXIT_FAILURE) /\
  (fst (vehicle_armed e w) = Ret tt ->
   armed_in (ap.current_messages (self (snd (vehicle_armed e w)))) = true).
Proof.
  rewrite vehicle_armed_runs. cbv zeta.
  set (w0 := snd (printf "Switch Vehicle to Armed...\n" [] w)).
  destruct (vehicle_armed_loop_outcome armed_trytimes (-1) w0)
    as [(s' & Hr & Harmed) | [(s' & Hr) | Hr]];
    destruct (vehicle_armed_loop e armed_trytimes (-1) w0) as [o w1];
    cbn [fst snd] in *; subst o; cbn [negb fst snd].
  - split; [ left; reflexivity | ]. intros _.
    destruct (s' =? 0); exact Harmed.
  - split; [ right; reflexivity | discriminate ].
  - split; [ right; reflexivity | discriminate ].
Qed.

(** X4.  [vehicle_disarm] hands exactly one message to the port, the disarm
    command, and always returns normally, whatever length the port
    returns: a negative length is neither thrown nor printed, the error
    line is printed for the length zero only.  The object is left as it
    was. *)
Theorem vehicle_disarm_always_returns w :
  fst (vehicle_disarm e w) = Ret tt /\
  sent (snd (vehicle_disarm e w)) =
    command_message (self w) MAV_CMD_COMPONENT_ARM_DISARM false :: sent w /\
  self (snd (vehicle_disarm e w)) = self w /\
  console (snd (vehicle_disarm e w)) =
    (stdout, "\n"%string, []) ::
    (if port_write e (next_write w)
          (command_message (self w) MAV_CMD_COMPONENT_ARM_DISARM false) =? 0
     then [(stderr, "Error: disarm failed could not write message\n"%string,
            [])]
     else []) ++
    (stdout, "DISARM MODE\n"%string, []) :: console w.
Proof.
  unfold vehicle_disarm.
  rewrite (bind_ret_run _ _ _ _ _ (printf_run _ _ w)).
  unfold toggle_arm_disarm.
  set (w0 := snd (printf "DISARM MODE\n" [] w)).
  unfold bind, gets, serial_write_message. cbn [fst snd].
  change (List.length (serial.written (serial_port w0))) with (next_write w).
  change (self w0) with (self w).
  destruct (_ =? 0); cbn; repeat split.
Qed.

(** X5.  [disable_offboard_control] is a no-op unless [control_status] is
    exactly 1; and after an enable that was confirmed after [S k] commands,
    a disable whose write returns a nonzero length brings [control_status]
    back to 0 with one further message, the disable command, both calls
    returning normally. *)
Theorem enable_then_disable k w :
  (ap.control_status (self w) <> 1 ->
   disable_offboard_control e w = (Ret tt, w)) /\
  ((k < 50)%nat ->
   ap.control_status (self w) = 0 ->
   (forall j, (j <= k)%nat ->
      0 <= port_write e (next_write w + j) (enable_command w)) ->
   (forall j, (1 <= j <= k)%nat -> offboard_in (cache_after e j w) = false) ->
   offboard_in (cache_after e (S k) w) = true ->
   port_write e (next_write w + S k) (disable_command w) <> 0 ->
   fst (enable_offboard_control e w) = Ret tt /\
   fst (disable_offboard_control e (snd (enable_offboard_control e w)))
     = Ret tt /\
   ap.control_status
     (self (snd (disable_offboard_control e
                   (snd (enable_offboard_control e w))))) = 0 /\
   sent (snd (disable_offboard_control e (snd (enable_offboard_control e w))))
     = disable_command w :: repeat (enable_command w) (S k) ++ sent w).
Proof.
  split.
  - intros Hcs. unfold disable_offboard_control.
    rewrite (bind_ret_run _ _ _ _ _ (gets_run _ w)).
    destruct (Z.eqb_spec (ap.control_status (self w)) 1) as [E | _];
      [ contradiction | reflexivity ].
  - intros Hk Hcs Hlen Hno Hyes Hdis.
    destruct (enable_offboard_control_confirms e k w Hk Hcs Hlen Hno Hyes)
      as (Hr & Hc & Hs).
    set (w1 := snd (enable_offboard_control e w)) in *.
    assert (Hsys : ap.system_id (self w1) = ap.system_id (self w))
      by (apply (keeps_enable_offboard_control e ap.system_id); reflexivity).
    assert (Haut : ap.autopilot_id (self w1) = ap.autopilot_id (self w))
      by (apply (keeps_enable_offboard_control e ap.autopilot_id); reflexivity).
    assert (Hcom : ap.companion_id (self w1) = ap.companion_id (self w))
      by (apply (keeps_enable_offboard_control e ap.companion_id); reflexivity).
    assert (Hcmd : disable_command w1 = disable_command w).
    { unfold disable_command, command_message. rewrite Hsys, Haut, Hcom.
      reflexivity. }
    assert (Hnext : next_write w1 = (next_write w + S k)%nat).
    { unfold next_write.
      rewrite <- (length_map fst (serial.written (serial_port w1))).
      change (map fst (serial.written (serial_port w1))) with (sent w1).
      rewrite Hs, length_app, repeat_length.
      unfold sent. rewrite length_map. lia. }
    rewrite (disable_offboard_control_runs e w1 Hc). cbv zeta.
    rewrite Hcmd, Hnext.
    destruct (Z.eqb_spec (port_write e (next_write w + S k) (disable_command w)) 0)
      as [E | _]; [ contradiction | ].
    cbn [fst snd]. split; [ exact Hr | ]. split; [ reflexivity | ].
    split; [ reflexivity | ].
    change (sent (snd (printf "\n" []
             (with_self (ap.with_control_status 0)
                (snd (toggle_offboard_control e false
                        (snd (printf "DISABLE OFFBOARD MODE\n" [] w1))))))))
      with (disable_command w1 :: sent w1).
    rewrite Hcmd, Hs. reflexivity.
Qed.

Lemma disable_offboard_control_idle w :
  ap.control_status (self w) <> 1 ->
  disable_offboard_control e w = (Ret tt, w).
Proof.
  intros Hcs. unfold disable_offboard_control.
  rewrite (bind_ret_run _ _ _ _ _ (gets_run _ w)).
  destruct (Z.eqb_spec (ap.control_status (self w)) 1) as [E | _];
    [ contradiction | reflexivity ].
Qed.

Lemma disable_offboard_control_returns w :
  disable_offboard_control e w =
  (Ret tt, snd (disable_offboard_control e w)).
Proof.
  destruct (Z.eq_dec (ap.control_status (self w)) 1) as [Hcs | Hcs].
  - rewrite (disable_offboard_control_runs e w Hcs). cbv zeta.
    destruct (_ =? 0); reflexivity.
  - rewrite (disable_offboard_control_idle w Hcs). reflexivity.
Qed.

(** X6.  [handle_quit] always returns normally and leaves [time_to_exit]
    set.  It hands to the port the disable command, once, when
    [control_status] is 1, and nothing otherwise. *)
Theorem handle_quit_raises_the_flag sig w :
  fst (handle_quit e sig w) = Ret tt /\
  ap.time_to_exit (self (snd (handle_quit e sig w))) = true /\
  (ap.control_status (self w) = 1 ->
   sent (snd (handle_quit e sig w)) = disable_command w :: sent w) /\
  (ap.control_status (self w) <> 1 ->
   sent (snd (handle_quit e sig w)) = sent w /\
   ap.control_status (self (snd (handle_quit e sig w))) =
     ap.control_status (self w)).
Proof.
  unfold handle_quit, stop.
  rewrite (bind_ret_run _ _ _ _ _ (disable_offboard_control_returns w)).
  cbv beta.
  split; [ reflexivity | ]. split; [ reflexivity | ]. split.
  - intros Hcs. rewrite (disable_offboard_control_runs e w Hcs). cbv zeta.
    destruct (_ =? 0); reflexivity.
  - intros Hcs. rewrite (disable_offboard_control_idle w Hcs).
    split; reflexivity.
Qed.

End RetryOutcomes.

(* ------------------------------------------------------------------ *)
(** ** The write side *)

Section WriteSide.
Context {hdr : Headers} {nav : NavCommands} (e : Env).

(** [write_setpoint] changes [write_count] and nothing else in the
    object. *)
Lemma write_setpoint_self w :
  self (snd (write_setpoint e w)) =
  ap.with_write_count ((ap.write_count (self w) + 1) mod 2 ^ 64) (self w).
Proof.
  unfold write_setpoint, get_time_usec.
  rewrite (bind_ret_run _ _ _ _ _ (gets_run _ w)).
  rewrite (bind_ret_run _ _ _ _ _ (gets_run _ w)).
  cbv zeta. unfold write_message.
  unfold bind, serial_write_message, update, modify, ret.
  cbn [fst snd].
  destruct (_ <=? 0); reflexivity.
Qed.

Lemma stamped_write_count now v a :
  stamped now (ap.with_write_count v a) = stamped now a.
Proof. reflexivity. Qed.

(** [n] calls of [write_setpoint] in a row: the count. *)
Lemma run_write_setpoints_count n : forall w,
  0 <= ap.write_count (self w) < 2 ^ 64 ->
  ap.write_count (self (run e (repeat Op_write_setpoint n) w)) =
    (ap.write_count (self w) + Z.of_nat n) mod 2 ^ 64.
Proof.
  induction n as [ | n IH ]; intros w Hwc.
  - cbn. rewrite Z.add_0_r. symmetry. apply Z.mod_small. exact Hwc.
  - change (run e (repeat Op_write_setpoint (S n)) w)
      with (run e (repeat Op_write_setpoint n) (snd (write_setpoint e w))).
    rewrite IH.
    + rewrite write_setpoint_self. cbn [ap.write_count ap.with_write_count].
      rewrite Z.add_mod_idemp_l by (apply Z.pow_nonzero; lia).
      f_equal. lia.
    + rewrite write_setpoint_self. cbn [ap.write_count ap.with_write_count].
      apply Z.mod_pos_bound. apply Z.pow_pos_nonneg; lia.
Qed.

(** [n] calls of [write_setpoint] in a row, message by message. *)
Lemma run_write_setpoints_transmits n : forall w,
  exists new,
    sent (run e (repeat Op_write_setpoint n) w) = new ++ sent w /\
    List.length new = n /\
    Forall (fun m => exists now,
              m = SET_POSITION_TARGET_LOCAL_NED
                    (wrap8 (ap.system_id (self w)))
                    (wrap8 (ap.companion_id (self w)))
                    (stamped now (self w))) new.
Proof.
  induction n as [ | n IH ]; intros w.
  - exists []. repeat split. constructor.
  - change (run e (repeat Op_write_setpoint (S n)) w)
      with (run e (repeat Op_write_setpoint n) (snd (write_setpoint e w))).
    destruct (IH (snd (write_setpoint e w))) as (new & Hnew & Hlen & Hall).
    exists (new ++ [SET_POSITION_TARGET_LOCAL_NED
                      (wrap8 (ap.system_id (self w)))
                      (wrap8 (ap.companion_id (self w)))
                      (stamped (time_usec e (sleeps w) mod 2 ^ 64) (self w))]).
    split; [ | split ].
    + rewrite Hnew, write_setpoint_sent, <- app_assoc. reflexivity.
    + rewrite length_app, Hlen. cbn. lia.
    + apply Forall_app. split.
      * rewrite write_setpoint_self in Hall. exact Hall.
      * constructor; [ eexists; reflexivity | constructor ].
Qed.

Lemma stamped_fields now a :
  setpoint.target_system (stamped now a) = wrap8 (ap.system_id a) /\
  setpoint.target_component (stamped now a) = wrap8 (ap.autopilot_id a) /\
  unstamped (stamped now a) = unstamped (ap.current_setpoint a) /\
  setpoint.type_mask (stamped now a) = setpoint.type_mask (ap.current_setpoint a) /\
  (setpoint.time_boot_ms (ap.current_setpoint a) <> 0 ->
   setpoint.time_boot_ms (stamped now a) =
     setpoint.time_boot_ms (ap.current_setpoint a)) /\
  (setpoint.time_boot_ms (ap.current_setpoint a) = 0 ->
   setpoint.time_boot_ms (stamped now a) = wrap32 (now / 1000)).
Proof.
  unfold stamped, unstamped.
  destruct (Z.eqb_spec (setpoint.time_boot_ms (ap.current_setpoint a)) 0)
    as [E | E]; repeat split; intros; try reflexivity; contradiction.
Qed.


(** X8.  A setpoint made by [set_land] has the type mask 0x2000 and the
    time of the [set_land] call.  Once it is in the store, every
    [write_setpoint] transmits that mask and, the stamp not being zero,
    that same time: the time stamp of a land setpoint is the time of
    [set_land], not of the transmission. *)
Theorem land_setpoint_keeps_its_time now sp0 n w :
  wrap32 (now / 1000) <> 0 ->
  setpoint.type_mask (set_land now sp0) = 8192 /\
  setpoint.time_boot_ms (set_land now sp0) = wrap32 (now / 1000) /\
  exists new,
    sent (run e (repeat Op_write_setpoint n)
            (snd (update_setpoint (set_land now sp0) w))) = new ++ sent w /\
    List.length new = n /\
    Forall (keeps_stamp_and_mask (set_land now sp0)) new.
Proof.
  intros Hnow. split; [ reflexivity | ]. split; [ reflexivity | ].
  destruct (run_write_setpoints_transmits n
              (snd (update_setpoint (set_land now sp0) w)))
    as (new & Hnew & Hlen & Hall).
  exists new. split; [ exact Hnew | ]. split; [ exact Hlen | ].
  eapply Forall_impl; [ | exact Hall ]. cbv beta.
  intros m (now' & ->).
  destruct (stamped_fields now'
              (self (snd (update_setpoint (set_land now sp0) w))))
    as (_ & _ & _ & H4 & H5 & _).
  split; [ apply H5; exact Hnow | exact H4 ].
Qed.

Lemma call_keeps_write_count o :
  calls_write_message o = false ->
  keeps (fun w => ap.write_count (self w)) (call e o).
Proof.
  destruct o; intros Ho; try discriminate Ho; cbn [call].
  - apply (keeps_update_setpoint ap.write_count); reflexivity.
  - apply (keeps_enable_offboard_control e ap.write_count); reflexivity.
  - apply (keeps_disable_offboard_control e ap.write_count); reflexivity.
  - apply (keeps_vehicle_armed e ap.write_count); reflexivity.
  - apply (keeps_vehicle_disarm e ap.write_count); reflexivity.
  - apply (keeps_stop e ap.write_count); reflexivity.
  - apply (keeps_handle_quit e ap.write_count); reflexivity.
  - apply (keeps_usleep e ap.write_count); reflexivity.
Qed.


End WriteSide.

(* ------------------------------------------------------------------ *)
(** ** The read side, kind by kind *)

Section ReadKinds.
Context {hdr : Headers}.

(** X10.  A message updates exactly the kind whose [case] it takes: the
    payload of that kind becomes what the codec decodes, and its stamp in
    the cache and in the stamps of the current call becomes the time of
    handling, in the same step; the payload and the stamps of every other
    kind are as before.  A message that takes no [case] updates no kind. *)
Theorem handle_message_updates_one_kind now message cm this :
  match kind_of (message.msgid message) with
  | Some k =>
      payload_of k (fst (handle_message now message cm this))
        = decoded k message /\
      messages.time_stamps (fst (handle_message now message cm this))
        = time_stamps.set k now (messages.time_stamps cm) /\
      snd (handle_message now message cm this) = time_stamps.set k now this /\
      stamp_of k
        (messages.time_stamps (fst (handle_message now message cm this)))
        = now /\
      forall k', k' <> k ->
        payload_of k' (fst (handle_message now message cm this))
          = payload_of k' cm /\
        stamp_of k'
          (messages.time_stamps (fst (handle_message now message cm this)))
          = stamp_of k' (messages.time_stamps cm) /\
        stamp_of k' (snd (handle_message now message cm this))
          = stamp_of k' this
  | None =>
      (forall k',
         payload_of k' (fst (handle_message now message cm this))
           = payload_of k' cm) /\
      messages.time_stamps (fst (handle_message now message cm this))
        = messages.time_stamps cm /\
      snd (handle_message now message cm this) = this
  end.
Proof.
  unfold handle_message, kind_of. cbv zeta.
  repeat match goal with
         | |- context [if ?c then _ else _] => destruct c
         end;
    repeat split; try reflexivity;
    match goal with
    | k' : kind |- _ => destruct k'; first [ reflexivity | congruence ]
    end.
Qed.

Lemma handle_message_heartbeat now message cm this :
  messages.heartbeat (fst (handle_message now message cm this)) =
  if message.msgid message =? MAVLINK_MSG_ID_HEARTBEAT
  then mavlink_msg_heartbeat_decode message
  else messages.heartbeat cm.
Proof.
  unfold handle_message. cbv zeta.
  repeat match goal with
         | |- context [if ?c then _ else _] => destruct c
         end; reflexivity.
Qed.

(** X11.  The control state follows the heartbeat only.  A message whose
    id is not the heartbeat's leaves the armed and the offboard predicate
    of the cache as they are, and so does any batch of such messages; a
    heartbeat sets them from its own status and mode fields. *)
Theorem control_state_follows_heartbeat now message cm this :
  (message.msgid message <> MAVLINK_MSG_ID_HEARTBEAT ->
   armed_in (fst (handle_message now message cm this)) = armed_in cm /\
   offboard_in (fst (handle_message now message cm this)) = offboard_in cm) /\
  (message.msgid message = MAVLINK_MSG_ID_HEARTBEAT ->
   armed_in (fst (handle_message now message cm this)) =
     (MAV_STATE_ACTIVE =?
      wrap8 (heartbeat.system_status (mavlink_msg_heartbeat_decode message))) /\
   offboard_in (fst (handle_message now message cm this)) =
     (main_mode
        (wrap32 (heartbeat.custom_mode (mavlink_msg_heartbeat_decode message)))
      =? PX4_CUSTOM_MAIN_MODE_OFFBOARD)) /\
  (forall batch,
     (forall tm, In tm batch ->
        message.msgid (snd tm) <> MAVLINK_MSG_ID_HEARTBEAT) ->
     armed_in (ingest batch cm) = armed_in cm /\
     offboard_in (ingest batch cm) = offboard_in cm).
Proof.
  assert (Hother : forall now message cm this,
    message.msgid message <> MAVLINK_MSG_ID_HEARTBEAT ->
    messages.heartbeat (fst (handle_message now message cm this))
      = messages.heartbeat cm).
  { intros now0 m0 cm0 this0 Hid. rewrite handle_message_heartbeat.
    apply Z.eqb_neq in Hid. rewrite Hid. reflexivity. }
  split; [ | split ].
  - intros Hid. unfold armed_in, offboard_in. cbv zeta.
    rewrite (Hother _ _ _ _ Hid). split; reflexivity.
  - intros Hid. unfold armed_in, offboard_in. cbv zeta.
    rewrite handle_message_heartbeat. apply Z.eqb_eq in Hid. rewrite Hid.
    split.
    + destruct (MAV_STATE_ACTIVE =? _); reflexivity.
    + destruct (main_mode _ =? _); reflexivity.
  - intros batch. revert cm.
    induction batch as [ | tm batch IH ]; intros cm0 Hall;
      [ split; reflexivity | ].
    change (ingest (tm :: batch) cm0)
      with (ingest batch
              (fst (handle_message (fst tm) (snd tm) cm0
                      time_stamps.reset_timestamps))).
    destruct (IH (fst (handle_message (fst tm) (snd tm) cm0
                         time_stamps.reset_timestamps))) as (Ha & Ho).
    + intros tm' Hin. apply Hall. right. exact Hin.
    + rewrite Ha, Ho. unfold armed_in, offboard_in. cbv zeta.
      rewrite (Hother _ _ _ _ (Hall tm (or_introl eq_refl))).
      split; reflexivity.
Qed.

End ReadKinds.

(* ------------------------------------------------------------------ *)
(** ** One call of [read_messages], and the read thread *)

Section ReadLoop.
Context {hdr : Headers}.

Lemma handle_message_call_stamps now message cm this :
  time_stamps.heartbeat (snd (handle_message now message cm this)) =
    (if message.msgid message =? MAVLINK_MSG_ID_HEARTBEAT then now
     else time_stamps.heartbeat this) /\
  time_stamps.sys_status (snd (handle_message now message cm this)) =
    (if message.msgid message =? MAVLINK_MSG_ID_HEARTBEAT
     then time_stamps.sys_status this
     else if message.msgid message =? MAVLINK_MSG_ID_SYS_STATUS then now
     else time_stamps.sys_status this).
Proof.
  unfold handle_message. cbv zeta.
  repeat match goal with
         | |- context [if ?c then _ else _] => destruct c
         end; split; reflexivity.
Qed.

Lemma successful_app a b : successful (a ++ b) = successful a ++ successful b.
Proof. unfold successful. apply flat_map_app. Qed.

Lemma ingest_app a b cm : ingest (a ++ b) cm = ingest b (ingest a cm).
Proof. unfold ingest. apply fold_left_app. Qed.

(** The loop of [read_messages], from any stamps of the current call. *)
Lemma read_messages_from_spec reads : forall cm this,
  exists consumed this',
    reads = consumed ++ snd (read_messages_from reads false cm this) /\
    fst (read_messages_from reads false cm this) =
      ingest (successful consumed) cm /\
    (snd (read_messages_from reads false cm this) <> [] ->
     received_all this' = true) /\
    (received_all this = false -> reads <> [] -> consumed <> []) /\
    (time_stamps.heartbeat this' <> 0 ->
     time_stamps.heartbeat this <> 0 \/
     exists now message,
       In (now, message) (successful consumed) /\
       message.msgid message = MAVLINK_MSG_ID_HEARTBEAT /\ now <> 0) /\
    (time_stamps.sys_status this' <> 0 ->
     time_stamps.sys_status this <> 0 \/
     exists now message,
       In (now, message) (successful consumed) /\
       message.msgid message = MAVLINK_MSG_ID_SYS_STATUS /\ now <> 0).
Proof.
  induction reads as [ | [o now] rest IH ]; intros cm this.
  - exists [], this. cbn [read_messages_from].
    destruct (received_all this || false); cbn;
      repeat split; try congruence; auto.
  - cbn [read_messages_from]. rewrite orb_false_r.
    destruct (received_all this) eqn:Hall.
    + exists [], this. cbn. repeat split; try congruence; auto.
    + destruct o as [message | ].
      * destruct (handle_message now message cm this) as [cm1 this1] eqn:Hh.
        destruct (IH cm1 this1)
          as (consumed & this' & Hreads & Hcache & Hstop & _ & Hhb & Hss).
        destruct (handle_message_call_stamps now message cm this)
          as (Hhb1 & Hss1). rewrite Hh in Hhb1, Hss1. cbn [snd] in Hhb1, Hss1.
        exists ((Some message, now) :: consumed), this'.
        split; [ cbn [app]; rewrite <- Hreads; reflexivity | ].
        split.
        { rewrite Hcache. cbn [successful flat_map fst snd app].
          unfold ingest at 2. cbn [fold_left fst snd].
          rewrite (handle_message_cache now message cm _ this), Hh.
          reflexivity. }
        split; [ exact Hstop | ]. split; [ discriminate | ]. split.
        { intros Hnz. destruct (Hhb Hnz) as [H1 | (n0 & m0 & Hin & Hid & Hn0)].
          - rewrite Hhb1 in H1.
            destruct (Z.eqb_spec (message.msgid message)
                        MAVLINK_MSG_ID_HEARTBEAT) as [E | _].
            + right. exists now, message. split; [ left; reflexivity | ].
              split; assumption.
            + left. exact H1.
          - right. exists n0, m0. split; [ right; exact Hin | ].
            split; assumption. }
        { intros Hnz. destruct (Hss Hnz) as [H1 | (n0 & m0 & Hin & Hid & Hn0)].
          - rewrite Hss1 in H1.
            destruct (message.msgid message =? MAVLINK_MSG_ID_HEARTBEAT);
              [ left; exact H1 | ].
            destruct (Z.eqb_spec (message.msgid message)
                        MAVLINK_MSG_ID_SYS_STATUS) as [E | _].
            + right. exists now, message. split; [ left; reflexivity | ].
              split; assumption.
            + left. exact H1.
          - right. exists n0, m0. split; [ right; exact Hin | ].
            split; assumption. }
      * destruct (IH cm this)
          as (consumed & this' & Hreads & Hcache & Hstop & _ & Hhb & Hss).
        exists ((None, now) :: consumed), this'.
        split; [ cbn [app]; rewrite <- Hreads; reflexivity | ].
        split; [ rewrite Hcache; reflexivity | ].
        split; [ exact Hstop | ]. split; [ discriminate | ].
        split; [ exact Hhb | exact Hss ].
Qed.

(** X12.  One call of [read_messages] handles the reads it consumes in
    order, failed reads changing nothing, and it returns before the port
    is exhausted only after it has handled, in this very call, a heartbeat
    and a system status, each at a time that is not zero.  With
    [time_to_exit] set it reads nothing. *)
Theorem read_messages_returns_after_both reads cm :
  (exists consumed,
     reads = consumed ++ snd (read_messages reads false cm) /\
     fst (read_messages reads false cm) = ingest (successful consumed) cm /\
     (snd (read_messages reads false cm) <> [] ->
      (exists now message,
         In (now, message) (successful consumed) /\
         message.msgid message = MAVLINK_MSG_ID_HEARTBEAT /\ now <> 0) /\
      (exists now message,
         In (now, message) (successful consumed) /\
         message.msgid message = MAVLINK_MSG_ID_SYS_STATUS /\ now <> 0))) /\
  read_messages reads true cm = (cm, reads).
Proof.
  split.
  - unfold read_messages.
    destruct (read_messages_from_spec reads cm time_stamps.reset_timestamps)
      as (consumed & this' & Hreads & Hcache & Hstop & _ & Hhb & Hss).
    exists consumed. split; [ exact Hreads | ]. split; [ exact Hcache | ].
    intros Hrest. specialize (Hstop Hrest).
    unfold received_all in Hstop. apply andb_prop in Hstop.
    destruct Hstop as (H1 & H2).
    apply negb_true_iff, Z.eqb_neq in H1.
    apply negb_true_iff, Z.eqb_neq in H2.
    split.
    + destruct (Hhb H1) as [H0 | H0]; [ exfalso; apply H0; reflexivity | exact H0 ].
    + destruct (Hss H2) as [H0 | H0]; [ exfalso; apply H0; reflexivity | exact H0 ].
  - unfold read_messages. destruct reads; cbn [read_messages_from];
      rewrite orb_true_r; reflexivity.
Qed.

(** X13.  The read thread loses no message: with [time_to_exit] clear and
    at least as many passes as the port has reads, [read_thread] leaves in
    the cache exactly what handling every successful read in order gives,
    however the reads fall into calls of [read_messages]; with
    [time_to_exit] set it reads nothing. *)
Theorem read_thread_handles_every_read fuel : forall reads cm,
  ((List.length reads <= fuel)%nat ->
   read_thread_loop fuel reads false cm = (ingest (successful reads) cm, [])) /\
  read_thread_loop fuel reads true cm = (cm, reads).
Proof.
  induction fuel as [ | fuel IH ]; intros reads cm.
  - split; [ | reflexivity ].
    intros Hlen. destruct reads; [ reflexivity | cbn in Hlen; lia ].
  - split; [ | reflexivity ].
    intros Hlen. cbn [read_thread_loop]. unfold read_messages.
    destruct (read_messages_from_spec reads cm time_stamps.reset_timestamps)
      as (consumed & this' & Hreads & Hcache & _ & Hprogress & _).
    set (r := read_messages_from reads false cm time_stamps.reset_timestamps)
      in *.
    clearbody r.
    assert (Hshort : (List.length (snd r) <= fuel)%nat).
    { destruct reads as [ | x reads' ].
      - destruct consumed; [ | discriminate Hreads ].
        cbn [app] in Hreads. rewrite <- Hreads. cbn. lia.
      - assert (Hne : consumed <> [])
          by (apply Hprogress; [ reflexivity | discriminate ]).
        destruct consumed as [ | c consumed ]; [ contradiction | ].
        apply (f_equal (@List.length _)) in Hreads.
        rewrite length_app in Hreads. cbn in Hreads, Hlen. lia. }
    rewrite (proj1 (IH (snd r) (fst r)) Hshort).
    rewrite Hcache, <- ingest_app, <- successful_app, <- Hreads. reflexivity.
Qed.

End ReadLoop.

(* ------------------------------------------------------------------ *)
(** ** [start] from beginning to end *)

Section StartUp.
Context {hdr : Headers} (e : Env).

(** *** Sleeping [k] times *)

Lemma slept_cache k : forall w,
  ap.current_messages (self (slept e k w)) = cache_after e k w.
Proof.
  induction k as [ | k IH ]; intros w; [ reflexivity | ].
  cbn [slept]. rewrite IH. reflexivity.
Qed.

Lemma slept_sleeps k : forall w, sleeps (slept e k w) = (sleeps w + k)%nat.
Proof.
  induction k as [ | k IH ]; intros w; cbn [slept].
  - rewrite Nat.add_0_r. reflexivity.
  - rewrite IH. cbn. lia.
Qed.

Lemma slept_port k : forall w,
  serial_port (slept e k w) = serial_port w /\
  console (slept e k w) = console w.
Proof.
  induction k as [ | k IH ]; intros w; cbn [slept]; [ split; reflexivity | ].
  destruct (IH (snd (usleep e 0 w))) as (H1 & H2). rewrite H1, H2.
  split; reflexivity.
Qed.

Lemma slept_self {B} (p : Autopilot_Interface -> B) k :
  (forall v a, p (ap.with_time_to_exit v a) = p a) ->
  (forall v a, p (ap.with_current_messages v a) = p a) ->
  forall w, p (self (slept e k w)) = p (self w).
Proof.
  intros H1 H2. induction k as [ | k IH ]; intros w; cbn [slept];
    [ reflexivity | ].
  rewrite IH. cbn. rewrite H1, H2. reflexivity.
Qed.

Lemma slept_undisturbed k : forall w,
  undisturbed e k w -> ap.time_to_exit (self (slept e k w)) = false.
Proof.
  induction k as [ | k IH ]; intros w Hund; cbn [slept].
  - exact (proj1 Hund).
  - apply IH. apply (undisturbed_usleep e 0 k w Hund).
Qed.

Lemma slept_add j k : forall w, slept e (j + k) w = slept e k (slept e j w).
Proof.
  induction j as [ | j IH ]; intros w; [ reflexivity | ].
  cbn [Nat.add slept]. apply IH.
Qed.

Lemma undisturbed_slept j k w :
  undisturbed e (j + k) w -> undisturbed e k (slept e j w).
Proof.
  intros Hund. split.
  - apply slept_undisturbed. destruct Hund as (H1 & H2).
    split; [ exact H1 | intros i Hi; apply H2; lia ].
  - intros i Hi. rewrite slept_sleeps. rewrite <- Nat.add_assoc.
    apply (proj2 Hund). lia.
Qed.

Lemma cache_after_slept j k w :
  cache_after e k (slept e j w) = cache_after e (j + k) w.
Proof.
  rewrite <- !slept_cache. rewrite slept_add. reflexivity.
Qed.

(** *** The wait loops *)

Lemma await_messages_slept k : forall fuel w,
  (k <= fuel)%nat ->
  undisturbed e k w ->
  (forall j, (j < k)%nat -> messages.sysid (cache_after e j w) = 0) ->
  messages.sysid (cache_after e k w) <> 0 ->
  await_messages e fuel w = (Ret true, slept e k w).
Proof.
  induction k as [ | k IH ]; intros fuel w Hfuel Hund Hno Hyes.
  - change (cache_after e 0 w) with (ap.current_messages (self w)) in *.
    apply Z.eqb_neq in Hyes.
    destruct fuel; cbn [await_messages];
      rewrite (bind_ret_run _ _ _ _ _ (gets_run _ w)); rewrite Hyes;
      reflexivity.
  - destruct fuel as [ | fuel ]; [ lia | ].
    cbn [await_messages].
    rewrite (bind_ret_run _ _ _ _ _ (gets_run _ w)).
    assert (H0 := Hno O (Nat.lt_0_succ _)).
    change (cache_after e 0 w) with (ap.current_messages (self w)) in H0.
    rewrite H0. change (negb (0 =? 0)) with false. cbv iota.
    rewrite (bind_ret_run _ _ _ _ _ (gets_run _ w)).
    rewrite (proj1 Hund). cbv iota.
    rewrite (bind_ret_run _ _ _ _ _ (usleep_run e _ w)). cbv beta.
    apply IH.
    + lia.
    + apply undisturbed_usleep. exact Hund.
    + intros j Hj. rewrite cache_after_usleep. apply Hno. lia.
    + rewrite cache_after_usleep. exact Hyes.
Qed.

(** [stop] is called during the sleep after poll [k], nothing has been
    seen until poll [S k]: the loop tells [start] to return. *)
Lemma await_messages_cancelled k : forall fuel w,
  (S k <= fuel)%nat ->
  undisturbed e k w ->
  quit e (sleeps w + k) = true ->
  (forall j, (j <= S k)%nat -> messages.sysid (cache_after e j w) = 0) ->
  await_messages e fuel w = (Ret false, slept e (S k) w).
Proof.
  induction k as [ | k IH ]; intros fuel w Hfuel Hund Hquit Hno.
  - destruct fuel as [ | fuel ]; [ lia | ].
    cbn [await_messages].
    rewrite (bind_ret_run _ _ _ _ _ (gets_run _ w)).
    assert (H0 := Hno O (Nat.le_0_l _)).
    change (cache_after e 0 w) with (ap.current_messages (self w)) in H0.
    rewrite H0. change (negb (0 =? 0)) with false. cbv iota.
    rewrite (bind_ret_run _ _ _ _ _ (gets_run _ w)).
    rewrite (proj1 Hund). cbv iota.
    rewrite (bind_ret_run _ _ _ _ _ (usleep_run e _ w)). cbv beta.
    set (w1 := snd (usleep e 500000 w)).
    assert (H1 : messages.sysid (ap.current_messages (self w1)) = 0)
      by (apply (Hno 1%nat); lia).
    assert (Hexit : ap.time_to_exit (self w1) = true).
    { cbn. rewrite Nat.add_0_r in Hquit. rewrite Hquit. apply orb_true_r. }
    destruct fuel; cbn [await_messages];
      rewrite (bind_ret_run _ _ _ _ _ (gets_run _ w1)); rewrite H1;
      change (negb (0 =? 0)) with false; cbv iota;
      rewrite (bind_ret_run _ _ _ _ _ (gets_run _ w1)); rewrite Hexit;
      reflexivity.
  - destruct fuel as [ | fuel ]; [ lia | ].
    cbn [await_messages].
    rewrite (bind_ret_run _ _ _ _ _ (gets_run _ w)).
    assert (H0 := Hno O (Nat.le_0_l _)).
    change (cache_after e 0 w) with (ap.current_messages (self w)) in H0.
    rewrite H0. change (negb (0 =? 0)) with false. cbv iota.
    rewrite (bind_ret_run _ _ _ _ _ (gets_run _ w)).
    rewrite (proj1 Hund). cbv iota.
    rewrite (bind_ret_run _ _ _ _ _ (usleep_run e _ w)). cbv beta.
    apply IH.
    + lia.
    + apply undisturbed_usleep. exact Hund.
    + cbn [usleep modify snd sleeps].
      replace (S (sleeps w) + k)%nat with (sleeps w + S k)%nat by lia.
      exact Hquit.
    + intros j Hj. rewrite cache_after_usleep. apply Hno. lia.
Qed.

Lemma await_initial_position_slept k : forall fuel w,
  (k <= fuel)%nat ->
  undisturbed e k w ->
  (forall j, (j < k)%nat -> have_initial_position (cache_after e j w) = false) ->
  have_initial_position (cache_after e k w) = true ->
  await_initial_position e fuel w = (Ret true, slept e k w).
Proof.
  induction k as [ | k IH ]; intros fuel w Hfuel Hund Hno Hyes.
  - change (cache_after e 0 w) with (ap.current_messages (self w)) in *.
    destruct fuel; cbn [await_initial_position];
      rewrite (bind_ret_run _ _ _ _ _ (gets_run _ w)); rewrite Hyes;
      reflexivity.
  - destruct fuel as [ | fuel ]; [ lia | ].
    cbn [await_initial_position].
    rewrite (bind_ret_run _ _ _ _ _ (gets_run _ w)).
    assert (H0 := Hno O (Nat.lt_0_succ _)).
    change (cache_after e 0 w) with (ap.current_messages (self w)) in H0.
    rewrite H0. cbv iota.
    rewrite (bind_ret_run _ _ _ _ _ (gets_run _ w)).
    rewrite (proj1 Hund). cbv iota.
    rewrite (bind_ret_run _ _ _ _ _ (usleep_run e _ w)). cbv beta.
    apply IH.
    + lia.
    + apply undisturbed_usleep. exact Hund.
    + intros j Hj. rewrite cache_after_usleep. apply Hno. lia.
    + rewrite cache_after_usleep. exact Hyes.
Qed.

Lemma await_writing_running fuel w :
  ap.writing_status (self w) <> 0 -> await_writing e fuel w = (Ret tt, w).
Proof.
  intros Hws. apply Z.eqb_neq in Hws.
  destruct fuel; cbn [await_writing];
    rewrite (bind_ret_run _ _ _ _ _ (gets_run _ w)); rewrite Hws; reflexivity.
Qed.

(** *** Creating the write thread *)

Lemma write_thread_enter_status w :
  ap.writing_status (self (snd (write_thread_enter e w))) = 1.
Proof.
  unfold write_thread_enter.
  rewrite (bind_ret_run _ _ _ _ _ (update_run _ w)).
  rewrite (bind_ret_run _ _ _ _ _ (update_run _ _)).
  rewrite (bind_ret_run _ _ _ _ _ (write_setpoint_run e _)).
  reflexivity.
Qed.

Lemma pthread_create_write_started w :
  write_thread_rc e = 0 ->
  pthread_create_write e w = (Ret 0, snd (pthread_create_write e w)) /\
  ap.writing_status (self (snd (pthread_create_write e w))) <> 0.
Proof.
  intros Hrc. unfold pthread_create_write. rewrite Hrc.
  change (0 =? 0) with true. cbv iota.
  match goal with
  | |- context [ bind ?m (fun _ => ret 0) ] => set (inner := m)
  end.
  assert (Hin : inner w = (Ret tt, snd (inner w)) /\
                ap.writing_status (self (snd (inner w))) <> 0).
  { unfold inner.
    rewrite (bind_ret_run _ _ _ _ _ (gets_run _ w)).
    destruct (Z.eqb_spec (ap.writing_status (self w)) 0) as [Hz | Hnz];
      cbn [negb].
    - destruct (write_thread_enter_streams e w) as (Hrun & _).
      split; [ exact Hrun | ]. rewrite write_thread_enter_status. discriminate.
    - split; [ reflexivity | exact Hnz ]. }
  destruct Hin as (Hrun & Hws).
  rewrite (bind_ret_run _ _ _ _ _ Hrun). cbn [ret fst snd].
  split; [ reflexivity | exact Hws ].
Qed.

(** *** From the second wait to the end *)

Lemma start_streaming_completes k fuel w :
  write_thread_rc e = 0 ->
  (k <= fuel)%nat ->
  undisturbed e k w ->
  (forall j, (j < k)%nat -> have_initial_position (cache_after e j w) = false) ->
  have_initial_position (cache_after e k w) = true ->
  fst (start_streaming e fuel w) = Ret tt /\
  ap.writing_status (self (snd (start_streaming e fuel w))) <> 0 /\
  ap.initial_position (self (snd (start_streaming e fuel w))) =
    copy_initial_position (cache_after e k w) (ap.initial_position (self w)) /\
  ap.current_messages (self (snd (start_streaming e fuel w))) =
    cache_after e k w.
Proof.
  intros Hrc Hfuel Hund Hno Hyes.
  unfold start_streaming.
  rewrite (bind_ret_run _ _ _ _ _
             (await_initial_position_slept k fuel w Hfuel Hund Hno Hyes)).
  change (negb true) with false. cbv iota.
  rewrite (bind_ret_run _ _ _ _ _ (update_run _ _)).
  rewrite (bind_ret_run _ _ _ _ _ (gets_run _ _)).
  rewrite (bind_ret_run _ _ _ _ _ (printf_run _ _ _)).
  rewrite (bind_ret_run _ _ _ _ _ (printf_run _ _ _)).
  rewrite (bind_ret_run _ _ _ _ _ (printf_run _ _ _)).
  rewrite (bind_ret_run _ _ _ _ _ (printf_run _ _ _)).
  match goal with
  | |- context [ bind (pthread_create_write e) _ ?w0 ] => set (w5 := w0)
  end.
  destruct (pthread_create_write_started w5 Hrc) as (Hrun & Hws).
  rewrite (bind_ret_run _ _ _ _ _ Hrun).
  change (negb (0 =? 0)) with false. cbv iota.
  set (w6 := snd (pthread_create_write e w5)) in *.
  rewrite (bind_ret_run _ _ _ _ _ (await_writing_running fuel w6 Hws)).
  rewrite printf_run. cbn [fst snd].
  change (self (snd (printf "\n" [] w6))) with (self w6).
  assert (Hip : ap.initial_position (self w5) =
                copy_initial_position (cache_after e k w)
                  (ap.initial_position (self w))).
  { cbn. rewrite slept_cache.
    rewrite (slept_self ap.initial_position) by reflexivity. reflexivity. }
  assert (Hcm : ap.current_messages (self w5) = cache_after e k w).
  { cbn. apply slept_cache. }
  split; [ reflexivity | ].
  split; [ exact Hws | ].
  split.
  - unfold w6.
    rewrite (keeps_pthread_create_write e ap.initial_position) by reflexivity.
    exact Hip.
  - unfold w6.
    rewrite (keeps_pthread_create_write e ap.current_messages) by reflexivity.
    exact Hcm.
Qed.

(** *** The first half of [start] *)

Lemma adopt_ids_frame w :
  sleeps (snd (adopt_ids w)) = sleeps w /\
  serial_port (snd (adopt_ids w)) = serial_port w /\
  ap.current_messages (self (snd (adopt_ids w))) =
    ap.current_messages (self w) /\
  ap.time_to_exit (self (snd (adopt_ids w))) = ap.time_to_exit (self w) /\
  ap.initial_position (self (snd (adopt_ids w))) =
    ap.initial_position (self w) /\
  ap.reading_status (self (snd (adopt_ids w))) = ap.reading_status (self w).
Proof.
  unfold adopt_ids.
  rewrite (bind_ret_run _ _ _ _ _ (gets_run _ w)).
  destruct (ap.system_id (self w) =? 0);
    destruct (ap.autopilot_id (self w) =? 0) eqn:E;
    unfold bind, update, modify, printf, gets, ret; cbn;
    rewrite ?E; cbn; repeat split.
Qed.

Lemma pthread_create_read_started w :
  read_thread_rc e = 0 ->
  ap.reading_status (self (snd (pthread_create_read e w))) <> 0 /\
  serial_port (snd (pthread_create_read e w)) = serial_port w /\
  ap.initial_position (self (snd (pthread_create_read e w))) =
    ap.initial_position (self w).
Proof.
  intros Hrc. unfold pthread_create_read, start_read_thread, bind, gets.
  rewrite Hrc. cbn.
  destruct (Z.eqb_spec (ap.reading_status (self w)) 0) as [Hz | Hnz]; cbn.
  - repeat split. discriminate.
  - repeat split. exact Hnz.
Qed.

(** The world in which [start] begins to wait for messages. *)
Lemma start_begins_to_wait fuel w :
  serial.status (serial_port w) = 1 ->
  read_thread_rc e = 0 ->
  exists w3,
    start e fuel w =
      (found <- await_messages e fuel ;;
       if negb found then ret tt else start_handshake e fuel) w3 /\
    sleeps w3 = sleeps w /\
    serial_port w3 = serial_port w /\
    ap.current_messages (self w3) = ap.current_messages (self w) /\
    ap.time_to_exit (self w3) = ap.time_to_exit (self w) /\
    ap.reading_status (self w3) <> 0 /\
    (forall B (p : Autopilot_Interface -> B),
       (forall v a, p (ap.with_reading_status v a) = p a) ->
       p (self w3) = p (self w)).
Proof.
  intros Hopen Hrc.
  unfold start.
  rewrite (bind_ret_run _ _ _ _ _ (gets_run _ w)).
  rewrite Hopen. change (negb (1 =? 1)) with false. cbv iota.
  rewrite (bind_ret_run _ _ _ _ _ (printf_run _ _ w)).
  rewrite (bind_ret_run _ _ _ _ _ (pthread_create_read_run e _ Hrc)).
  change (negb (0 =? 0)) with false. cbv iota.
  rewrite (bind_ret_run _ _ _ _ _ (printf_run _ _ _)).
  rewrite (bind_ret_run _ _ _ _ _ (printf_run _ _ _)).
  set (w1 := snd (printf "START READ THREAD \n" [] w)).
  destruct (pthread_create_read_frame e w1) as (Hsl & Hcm & Hte).
  destruct (pthread_create_read_started w1 Hrc) as (Hrs & Hport & _).
  set (w2 := snd (pthread_create_read e w1)) in *.
  set (w3 := snd (printf "CHECK FOR MESSAGES\n" [] (snd (printf "\n" [] w2)))).
  exists w3. split; [ reflexivity | ].
  change (sleeps w3) with (sleeps w2).
  change (serial_port w3) with (serial_port w2).
  change (self w3) with (self w2).
  repeat split; try assumption.
  intros B p Hp. clear Hsl Hcm Hte Hrs Hport. unfold w2.
  unfold pthread_create_read, start_read_thread, bind, gets.
  rewrite Hrc. cbn.
  destruct (negb _); cbn; [ reflexivity | apply Hp ].
Qed.

Lemma waits_alike w w' :
  sleeps w' = sleeps w ->
  ap.current_messages (self w') = ap.current_messages (self w) ->
  ap.time_to_exit (self w') = ap.time_to_exit (self w) ->
  (forall j, cache_after e j w' = cache_after e j w) /\
  (forall k, undisturbed e k w -> undisturbed e k w').
Proof.
  intros Hsl Hcm Hte. split.
  - intros j. unfold cache_after. rewrite Hsl, Hcm. reflexivity.
  - intros k (H1 & H2). split; [ rewrite Hte; exact H1 | ].
    intros j Hj. rewrite Hsl. apply H2. exact Hj.
Qed.

Lemma undisturbed_le j k w :
  (j <= k)%nat -> undisturbed e k w -> undisturbed e j w.
Proof.
  intros Hjk (H1 & H2). split; [ exact H1 | ].
  intros i Hi. apply H2. lia.
Qed.

(** X14.  [start] gives up at once when it cannot work: with a port whose
    status is not 1 it throws 1, and with an open port but a read thread
    that [pthread_create] refuses it throws the code of [pthread_create].
    In both cases the object and the port are as before the call: no id is
    adopted, nothing is written, no thread is marked running, and [start]
    has not slept. *)
Theorem start_fails_fast fuel w :
  (serial.status (serial_port w) <> 1 ->
   fst (start e fuel w) = Throw 1 /\
   self (snd (start e fuel w)) = self w /\
   serial_port (snd (start e fuel w)) = serial_port w /\
   sleeps (snd (start e fuel w)) = sleeps w) /\
  (serial.status (serial_port w) = 1 ->
   read_thread_rc e <> 0 ->
   fst (start e fuel w) = Throw (read_thread_rc e) /\
   self (snd (start e fuel w)) = self w /\
   serial_port (snd (start e fuel w)) = serial_port w /\
   sleeps (snd (start e fuel w)) = sleeps w).
Proof.
  split.
  - intros Hclosed. apply Z.eqb_neq in Hclosed.
    unfold start.
    rewrite (bind_ret_run _ _ _ _ _ (gets_run _ w)).
    rewrite Hclosed. cbn [negb].
    repeat split.
  - intros Hopen Hrc. apply Z.eqb_neq in Hrc.
    unfold start.
    rewrite (bind_ret_run _ _ _ _ _ (gets_run _ w)).
    rewrite Hopen. change (negb (1 =? 1)) with false. cbv iota.
    rewrite (bind_ret_run _ _ _ _ _ (printf_run _ _ w)).
    assert (Hcreate : forall w', pthread_create_read e w' =
                                 (Ret (read_thread_rc e), w')).
    { intros w'. unfold pthread_create_read. rewrite Hrc. reflexivity. }
    rewrite (bind_ret_run _ _ _ _ _ (Hcreate _)).
    rewrite Hrc. cbn [negb].
    repeat split.
Qed.

(** X15.  [start] can return normally without having started anything.
    When no message arrives and [stop] is called during the sleep after
    poll [k] of the first wait, [start] returns from inside that loop: it
    does not throw, and it leaves both ids, the initial position and
    [writing_status] as they were and the port untouched.  The caller is
    not told that nothing is being streamed. *)
Theorem start_cancelled_while_waiting k fuel w :
  serial.status (serial_port w) = 1 ->
  read_thread_rc e = 0 ->
  (S k <= fuel)%nat ->
  undisturbed e k w ->
  quit e (sleeps w + k) = true ->
  (forall j, (j <= S k)%nat -> messages.sysid (cache_after e j w) = 0) ->
  fst (start e fuel w) = Ret tt /\
  ap.system_id (self (snd (start e fuel w))) = ap.system_id (self w) /\
  ap.autopilot_id (self (snd (start e fuel w))) = ap.autopilot_id (self w) /\
  ap.initial_position (self (snd (start e fuel w))) =
    ap.initial_position (self w) /\
  ap.writing_status (self (snd (start e fuel w))) =
    ap.writing_status (self w) /\
  sent (snd (start e fuel w)) = sent w /\
  sleeps (snd (start e fuel w)) = (sleeps w + S k)%nat.
Proof.
  intros Hopen Hrc Hfuel Hund Hquit Hno.
  destruct (start_begins_to_wait fuel w Hopen Hrc)
    as (w3 & Hstart & Hsl & Hport & Hcm & Hte & _ & Hself).
  destruct (waits_alike w w3 Hsl Hcm Hte) as (Hcache & Hundis).
  rewrite Hstart.
  rewrite (bind_ret_run _ _ _ _ _
             (await_messages_cancelled k fuel w3 Hfuel (Hundis k Hund)
                ltac:(rewrite Hsl; exact Hquit)
                ltac:(intros j Hj; rewrite Hcache; apply Hno; exact Hj))).
  cbn [negb ret fst snd].
  split; [ reflexivity | ].
  rewrite !(slept_self _ (S k)) by reflexivity.
  rewrite !Hself by reflexivity.
  rewrite slept_sleeps, Hsl.
  unfold sent. rewrite (proj1 (slept_port (S k) w3)), Hport.
  repeat split.
Qed.


End StartUp.

(* ------------------------------------------------------------------ *)
(** ** The streaming thread from start to end *)

Section WriteThread.
Context {hdr : Headers} (e : Env).

Lemma write_setpoint_sleeps w :
  sleeps (snd (write_setpoint e w)) = sleeps w /\
  ap.time_to_exit (self (snd (write_setpoint e w))) =
    ap.time_to_exit (self w).
Proof.
  unfold write_setpoint, get_time_usec.
  rewrite (bind_ret_run _ _ _ _ _ (gets_run _ w)).
  rewrite (bind_ret_run _ _ _ _ _ (gets_run _ w)).
  cbv zeta. unfold write_message.
  unfold bind, serial_write_message, update, modify, ret.
  cbn [fst snd].
  destruct (_ <=? 0); split; reflexivity.
Qed.

Lemma write_thread_loop_exits fuel w :
  ap.time_to_exit (self w) = true ->
  write_thread_loop e fuel w = (Ret tt, w).
Proof.
  intros Hexit.
  destruct fuel; cbn [write_thread_loop];
    rewrite (bind_ret_run _ _ _ _ _ (gets_run _ w)); rewrite Hexit;
    reflexivity.
Qed.

(** [stop] during the sleep of pass [k]: the loop makes [S k] passes. *)
Lemma write_thread_loop_stops k : forall fuel w,
  (S k <= fuel)%nat ->
  undisturbed e k w ->
  quit e (sleeps w + k) = true ->
  fst (write_thread_loop e fuel w) = Ret tt /\
  sleeps (snd (write_thread_loop e fuel w)) = (sleeps w + S k)%nat /\
  exists new, sent (snd (write_thread_loop e fuel w)) = new ++ sent w /\
              List.length new = S k.
Proof.
  induction k as [ | k IH ]; intros fuel w Hfuel Hund Hquit;
    (destruct fuel as [ | fuel ]; [ lia | ]);
    cbn [write_thread_loop];
    rewrite (bind_ret_run _ _ _ _ _ (gets_run _ w));
    rewrite (proj1 Hund); cbv iota;
    rewrite (bind_ret_run _ _ _ _ _ (write_setpoint_run e w));
    rewrite (bind_ret_run _ _ _ _ _ (usleep_run e _ _)); cbv beta;
    destruct (write_setpoint_sleeps w) as (Hsl & Hte);
    pose proof (write_setpoint_sent e w) as Hsent;
    set (w1 := snd (write_setpoint e w)) in *;
    set (w2 := snd (usleep e 200000 w1)).
  - assert (Hexit : ap.time_to_exit (self w2) = true).
    { cbn. rewrite Hsl. rewrite Nat.add_0_r in Hquit. rewrite Hquit.
      apply orb_true_r. }
    rewrite (write_thread_loop_exits fuel w2 Hexit). cbn [fst snd].
    split; [ reflexivity | ]. split.
    + cbn. rewrite Hsl. lia.
    + eexists [_]. change (sent w2) with (sent w1). rewrite Hsent.
      split; reflexivity.
  - assert (Hund1 : undisturbed e (S k) w1).
    { destruct Hund as (H1 & H2). split; [ rewrite Hte; exact H1 | ].
      intros j Hj. rewrite Hsl. apply H2. exact Hj. }
    destruct (IH fuel w2) as (Hret & Hsl2 & new & Hnew & Hlen).
    + lia.
    + apply undisturbed_usleep. exact Hund1.
    + cbn [w2 usleep modify snd sleeps]. rewrite Hsl.
      replace (S (sleeps w) + k)%nat with (sleeps w + S k)%nat by lia.
      exact Hquit.
    + split; [ exact Hret | ]. split.
      * rewrite Hsl2. cbn [w2 usleep modify snd sleeps]. rewrite Hsl. lia.
      * eexists (new ++ [_]). rewrite Hnew.
        change (sent w2) with (sent w1). rewrite Hsent.
        rewrite <- app_assoc. split; [ reflexivity | ].
        rewrite length_app, Hlen. cbn. lia.
Qed.

Lemma write_thread_enter_sleeps w :
  sleeps (snd (write_thread_enter e w)) = sleeps w /\
  ap.time_to_exit (self (snd (write_thread_enter e w))) =
    ap.time_to_exit (self w).
Proof.
  unfold write_thread_enter.
  rewrite (bind_ret_run _ _ _ _ _ (update_run _ w)).
  rewrite (bind_ret_run _ _ _ _ _ (update_run _ _)).
  rewrite (bind_ret_run _ _ _ _ _ (write_setpoint_run e _)).
  rewrite update_run. cbn [snd].
  match goal with
  | |- context [ write_setpoint e ?w0 ] =>
      destruct (write_setpoint_sleeps w0) as (Hsl & Hte)
  end.
  split; [ exact Hsl | exact Hte ].
Qed.

(** X17.  The streaming thread from its first line to its last, no
    producer replacing the setpoint meanwhile.  When [stop] is called
    during the sleep of pass [k] of the loop, the thread ends: it has sent
    the initial setpoint once before the loop and once in each of the
    [S k] passes, so [k + 2] messages, every one carrying the initial
    setpoint, which is still in the store; it has slept [S k] times, and
    it leaves [writing_status] at 0. *)
Theorem write_thread_runs_until_stop k fuel w :
  (S k <= fuel)%nat ->
  undisturbed e k w ->
  quit e (sleeps w + k) = true ->
  fst (write_thread e fuel w) = Ret tt /\
  ap.writing_status (self (snd (write_thread e fuel w))) = 0 /\
  store (snd (write_thread e fuel w)) = initial_setpoint e /\
  sleeps (snd (write_thread e fuel w)) = (sleeps w + S k)%nat /\
  exists new,
    sent (snd (write_thread e fuel w)) = new ++ sent w /\
    List.length new = (k + 2)%nat /\
    Forall (carries (initial_setpoint e)) new.
Proof.
  intros Hfuel Hund Hquit.
  unfold write_thread.
  destruct (write_thread_enter_streams e w) as (Hrun & Hstore & m & Hm & Hc).
  destruct (write_thread_enter_sleeps w) as (Hsl & Hte).
  rewrite (bind_ret_run _ _ _ _ _ Hrun).
  set (w1 := snd (write_thread_enter e w)) in *.
  assert (Hund1 : undisturbed e k w1).
  { destruct Hund as (H1 & H2). split; [ rewrite Hte; exact H1 | ].
    intros j Hj. rewrite Hsl. apply H2. exact Hj. }
  destruct (write_thread_loop_stops k fuel w1 Hfuel Hund1)
    as (Hret & Hsl2 & new & Hnew & Hlen).
  { rewrite Hsl. exact Hquit. }
  destruct (write_thread_loop_streams e fuel w1)
    as (Hst2 & new' & Hnew' & Hall).
  assert (Hloop : write_thread_loop e fuel w1 =
                  (Ret tt, snd (write_thread_loop e fuel w1))).
  { rewrite <- Hret. apply surjective_pairing. }
  rewrite (bind_ret_run _ _ _ _ _ Hloop).
  rewrite update_run. cbn [fst snd].
  set (w2 := snd (write_thread_loop e fuel w1)) in *.
  split; [ reflexivity | ].
  split; [ reflexivity | ].
  split; [ | split ].
  - change (store w2 = initial_setpoint e). rewrite Hst2. exact Hstore.
  - change (sleeps w2 = (sleeps w + S k)%nat). rewrite Hsl2, Hsl.
    reflexivity.
  - exists (new ++ [m]).
    change (sent (with_self (ap.with_writing_status 0) w2)) with (sent w2).
    rewrite Hnew, Hm, <- app_assoc.
    split; [ reflexivity | ].
    split.
    + rewrite length_app, Hlen. cbn. lia.
    + assert (Heq : new' = new).
      { apply (app_inv_tail (sent w1)). rewrite <- Hnew'. exact Hnew. }
      subst new'. rewrite Hstore in Hall.
      apply Forall_app. split; [ exact Hall | ].
      constructor; [ exact Hc | constructor ].
Qed.

End WriteThread.

(* ------------------------------------------------------------------ *)
(** ** [set_velocity] and the type mask *)

Section VelocityMask.
Context {hdr : Headers}.

Lemma set_velocity_mask_bits vx vy vz sp i :
  0 <= i < 16 ->
  Z.testbit (setpoint.type_mask (set_velocity vx vy vz sp)) i =
  Z.testbit (setpoint.type_mask sp) i ||
  Z.testbit MAVLINK_MSG_SET_POSITION_TARGET_LOCAL_NED_VELOCITY i.
Proof.
  intros Hi.
  change (setpoint.type_mask (set_velocity vx vy vz sp))
    with (wrap16 (Z.lor (setpoint.type_mask sp)
                    MAVLINK_MSG_SET_POSITION_TARGET_LOCAL_NED_VELOCITY)).
  rewrite wrap16_bits by exact Hi. apply Z.lor_spec.
Qed.

(** X18.  [set_velocity] widens the mask with [|=] where [set_yaw] and
    [set_yaw_rate] narrow it with [&=].  A set bit of the mask meaning
    that a field is ignored, [set_velocity] therefore never turns a field
    on: every field ignored by the mask it finds is ignored afterwards,
    whatever group the result honours was honoured before the call, and
    the result honours the velocity group only if the mask found already
    did.  The three velocities are stored all the same. *)
Theorem set_velocity_turns_nothing_on (vx vy vz : float)
    (sp : mavlink_set_position_target_local_ned_t) :
  let VELOCITY := MAVLINK_MSG_SET_POSITION_TARGET_LOCAL_NED_VELOCITY in
  let out := set_velocity vx vy vz sp in
  (forall i, 0 <= i < 16 ->
     Z.testbit (setpoint.type_mask sp) i = true ->
     Z.testbit (setpoint.type_mask out) i = true) /\
  (forall group, honours (setpoint.type_mask out) group ->
                 honours (setpoint.type_mask sp) group) /\
  (honours (setpoint.type_mask out) VELOCITY <->
   honours (setpoint.type_mask sp) VELOCITY) /\
  (setpoint.vx out, setpoint.vy out, setpoint.vz out) = (vx, vy, vz).
Proof.
  cbv zeta. split; [ | split; [ | split ] ].
  - intros i Hi Hset. rewrite set_velocity_mask_bits by exact Hi.
    rewrite Hset. reflexivity.
  - intros group Hh i Hi Hg. specialize (Hh i Hi Hg).
    rewrite set_velocity_mask_bits in Hh by exact Hi.
    apply orb_false_iff in Hh. exact (proj1 Hh).
  - split; intros Hh i Hi Hg.
    + specialize (Hh i Hi Hg).
      rewrite set_velocity_mask_bits in Hh by exact Hi.
      apply orb_false_iff in Hh. exact (proj1 Hh).
    + rewrite set_velocity_mask_bits by exact Hi.
      rewrite (Hh i Hi Hg), Hg. reflexivity.
  - reflexivity.
Qed.

End VelocityMask.

(* ------------------------------------------------------------------ *)
(** ** The further properties on the reference values *)

Lemma enable_offboard_control_exhausts_at_reference :
  fst (enable_offboard_control (hdr := reference_headers)
         (env_with 21 quiet) fresh) = Throw 1 /\
  ap.control_status
    (self (snd (enable_offboard_control (hdr := reference_headers)
                  (env_with 21 quiet) fresh))) = 0 /\
  sent (snd (enable_offboard_control (hdr := reference_headers)
               (env_with 21 quiet) fresh)) =
    repeat (enable_command (hdr := reference_headers) fresh) 50 ++ sent fresh /\
  hd_error (console (snd (enable_offboard_control (hdr := reference_headers)
                            (env_with 21 quiet) fresh))) =
    Some (stdout, "Enable offboard mode failed!\n"%string, []).
Proof.
  apply (enable_offboard_control_exhausts (hdr := reference_headers)
           (env_with 21 quiet) fresh).
  - reflexivity.
  - intros j _. vm_compute. discriminate.
  - intros j Hj.
    do 51 (destruct j as [ | j ]; [ first [ lia | vm_compute; reflexivity ] | ]).
    lia.
Defined.

Lemma enable_then_disable_at_reference :
  fst (disable_offboard_control (hdr := reference_headers)
         (env_with 21 offboard_in_third_sleep) fresh) = Ret tt /\
  sent (snd (disable_offboard_control (hdr := reference_headers)
               (env_with 21 offboard_in_third_sleep)
               (snd (enable_offboard_control (hdr := reference_headers)
                       (env_with 21 offboard_in_third_sleep) fresh)))) =
    disable_command (hdr := reference_headers) fresh ::
    repeat (enable_command (hdr := reference_headers) fresh) 3 ++ sent fresh.
Proof.
  destruct (enable_then_disable (hdr := reference_headers)
              (env_with 21 offboard_in_third_sleep) 2 fresh) as (Hidle & Hpair).
  split.
  - rewrite Hidle; [ reflexivity | vm_compute; discriminate ].
  - apply Hpair.
    + lia.
    + reflexivity.
    + intros j _. vm_compute. discriminate.
    + intros j Hj.
      do 3 (destruct j as [ | j ]; [ first [ lia | vm_compute; reflexivity ] | ]).
      lia.
    + vm_compute. reflexivity.
    + vm_compute. discriminate.
Defined.


Lemma land_setpoint_keeps_its_time_at_reference :
  setpoint.type_mask (set_land 5000000 zero_setpoint) = 8192 /\
  setpoint.time_boot_ms (set_land 5000000 zero_setpoint) = 5000 /\
  exists new,
    sent (run (hdr := reference_headers) (env_with 21 quiet)
            (repeat Op_write_setpoint 2)
            (snd (update_setpoint (set_land 5000000 zero_setpoint) fresh))) =
      new ++ sent fresh /\
    List.length new = 2%nat /\
    Forall (keeps_stamp_and_mask (set_land 5000000 zero_setpoint)) new.
Proof.
  apply (land_setpoint_keeps_its_time (hdr := reference_headers)
           (env_with 21 quiet) 5000000 zero_setpoint 2 fresh).
  vm_compute. discriminate.
Defined.

Lemma start_fails_fast_at_reference :
  fst (start (hdr := reference_headers) (env_with 21 one_sender) 5 closed_port)
    = Throw 1 /\
  fst (start (hdr := reference_headers) refusing_threads 5 fresh) = Throw 11 /\
  self (snd (start (hdr := reference_headers) refusing_threads 5 fresh))
    = self fresh.
Proof.
  split.
  - destruct (start_fails_fast (hdr := reference_headers)
                (env_with 21 one_sender) 5 closed_port) as (Hclosed & _).
    apply Hclosed. vm_compute. discriminate.
  - destruct (start_fails_fast (hdr := reference_headers)
                refusing_threads 5 fresh) as (_ & Hrefused).
    destruct Hrefused as (Hr & Hs & _).
    + reflexivity.
    + vm_compute. discriminate.
    + split; [ exact Hr | exact Hs ].
Defined.

Lemma start_cancelled_while_waiting_at_reference :
  fst (start (hdr := reference_headers) stop_in_third_sleep 5 fresh) = Ret tt /\
  ap.system_id
    (self (snd (start (hdr := reference_headers) stop_in_third_sleep 5 fresh)))
    = 0 /\
  ap.writing_status
    (self (snd (start (hdr := reference_headers) stop_in_third_sleep 5 fresh)))
    = 0 /\
  sent (snd (start (hdr := reference_headers) stop_in_third_sleep 5 fresh))
    = [] /\
  sleeps (snd (start (hdr := reference_headers) stop_in_third_sleep 5 fresh))
    = 3%nat.
Proof.
  destruct (start_cancelled_while_waiting (hdr := reference_headers)
              stop_in_third_sleep 2 5 fresh)
    as (Hr & Hsys & _ & _ & Hws & Hsent & Hsl).
  - reflexivity.
  - reflexivity.
  - lia.
  - split; [ reflexivity | ].
    intros j Hj.
    do 2 (destruct j as [ | j ]; [ reflexivity | ]). lia.
  - reflexivity.
  - intros j Hj.
    do 4 (destruct j as [ | j ]; [ vm_compute; reflexivity | ]). lia.
  - repeat split; assumption.
Defined.


Lemma write_thread_runs_until_stop_at_reference :
  fst (write_thread (hdr := reference_headers) stop_in_third_sleep 5 fresh)
    = Ret tt /\
  ap.writing_status
    (self (snd (write_thread (hdr := reference_headers)
                  stop_in_third_sleep 5 fresh))) = 0 /\
  List.length
    (sent (snd (write_thread (hdr := reference_headers)
                  stop_in_third_sleep 5 fresh))) = 4%nat.
Proof.
  destruct (write_thread_runs_until_stop (hdr := reference_headers)
              stop_in_third_sleep 2 5 fresh)
    as (Hr & Hws & _ & _ & new & Hnew & Hlen & _).
  - lia.
  - split; [ reflexivity | ].
    intros j Hj.
    do 2 (destruct j as [ | j ]; [ reflexivity | ]). lia.
  - reflexivity.
  - split; [ exact Hr | ]. split; [ exact Hws | ].
    rewrite Hnew, length_app, Hlen. reflexivity.
Defined.

Lemma read_thread_handles_every_read_at_reference :
  read_thread_loop (hdr := reference_headers) 5 sample_reads false zero_messages
    = (ingest (hdr := reference_headers)
         (successful sample_reads) zero_messages, []) /\
  snd (read_messages (hdr := reference_headers) sample_reads false
         zero_messages)
    = [(Some (message.mk 1 50 30 [8]), 1400000)].
Proof.
  split.
  - apply (read_thread_handles_every_read (hdr := reference_headers) 5
             sample_reads zero_messages).
    vm_compute. lia.
  - vm_compute. reflexivity.
Defined.

